(** * SACS v6.0 cloud backend: the analysis engine of [main.py]

    A shallow embedding of the request handlers of [src/main.py] and the
    properties of their analysis engine: the bounded in-memory stores, the
    batch-interval anomaly detector, the threat scorer and the forensic
    report.

    Python [float] and numpy [float64] are IEEE 754 binary64; they are
    embedded as Rocq's primitive [float], whose operations are binary64 with
    round-to-nearest-even.  Python [int] is unbounded and embedded as [Z].
    A handler that reads the process-wide stores takes them as an argument,
    one that writes them returns the new state; each reading of
    [time.time()] is an explicit argument. *)

From Stdlib Require Import ZArith List Sorted String Ascii Bool Lia.
From Stdlib Require Import Uint63 Floats DecimalString.
Import ListNotations.

#[local] Set Warnings "-inexact-float".
#[local] Open Scope string_scope.
#[local] Open Scope list_scope.
#[local] Open Scope float_scope.
#[local] Open Scope Z_scope.

(** ** The Python runtime the handlers rely on *)

Module Py.

(** Exceptions a handler can leave unhandled, and [HTTPException]. *)
Inductive exn : Type :=
| TypeError
| OverflowError
| ZeroDivisionError
| ValueError
| OSError
| HTTPException (status_code : Z) (detail : string).

Inductive result (A : Type) : Type :=
| Ok (a : A)
| Raise (e : exn).
Arguments Ok {A} a.
Arguments Raise {A} e.

Definition bind {A B : Type} (r : result A) (k : A -> result B) : result B :=
  match r with
  | Ok a => k a
  | Raise e => Raise e
  end.

(** A rounded result, unless it overflowed. *)
Definition checked (sf : spec_float) : result float :=
  match sf with
  | S754_infinity _ => Raise OverflowError
  | _ => Ok (SF2Prim sf)
  end.

(** [float(z)] for an [int] operand of float arithmetic: the nearest
    binary64 (ties to even); [OverflowError] when that is out of range. *)
Definition float_of_int (z : Z) : result float :=
  checked (binary_normalize prec emax z 0 false).

(** An [int] of at most 53 bits, as the double with the same value. *)
Definition is_small (z : Z) : bool := Z.abs z <? 2 ^ 53.

Definition float_of_small (z : Z) : float :=
  let f := of_uint63 (Uint63.of_Z (Z.abs z)) in
  if z <? 0 then (- f)%float else f.

Definition spec_of_int (z : Z) : spec_float :=
  match z with
  | Z0 => S754_zero false
  | Zpos p => S754_finite false p 0
  | Zneg p => S754_finite true p 0
  end.

(** [a / b] on two [int]s (true division), as [long_true_divide] computes
    it: [ZeroDivisionError] for a zero divisor; the quotient of the two
    doubles when both operands have at most 53 bits; otherwise the
    correctly rounded quotient of the integers, or [OverflowError] when
    that is too large for a float. *)
Definition int_truediv (a b : Z) : result float :=
  if b =? 0 then Raise ZeroDivisionError
  else if is_small a && is_small b
  then Ok (float_of_small a / float_of_small b)%float
  else checked (SFdiv prec emax (spec_of_int a) (spec_of_int b)).

(** The builtin [min(a, b)]: [b] replaces [a] only when [b < a]. *)
Definition min (a b : float) : float := if (b <? a)%float then b else a.

(** [min(iterable)] and [max(iterable)] over a non-empty sequence: the
    first item is kept until a strictly smaller (greater) one is met. *)
Definition min_seq (first : float) (rest : list float) : float :=
  fold_left (fun best x => if (x <? best)%float then x else best) rest first.

Definition max_seq (first : float) (rest : list float) : float :=
  fold_left (fun best x => if (best <? x)%float then x else best) rest first.

(** [sum(iterable)] over [int]s. *)
Definition sum (l : list Z) : Z := fold_left Z.add l 0.

(** [str(n)] as an f-string renders it. *)
Definition str_of_nat (n : nat) : string := NilZero.string_of_uint (Nat.to_uint n).
Definition str_of_int (z : Z) : string := NilZero.string_of_int (Z.to_int z).

(** [len(l)]. *)
Definition len {A : Type} (l : list A) : Z := Z.of_nat (List.length l).

(** [l[-n:]] for a positive literal [n]: the last [n] items, all of [l]
    when it has fewer. *)
Definition slice_last {A : Type} (n : Z) (l : list A) : list A :=
  skipn (Z.to_nat (len l - n)) l.

(** [enumerate(l)]. *)
Definition enumerate {A : Type} (l : list A) : list (nat * A) :=
  combine (seq 0 (List.length l)) l.

End Py.

Notation "x <- r ;; k" := (Py.bind r (fun x => k))
  (at level 61, r at next level, right associativity).

(** ** numpy's [mean] and [std] on a one-dimensional float64 array *)

Module Np.

(** The loop [res += a[i]]. *)
Definition accumulate (res : float) (a : list float) : float :=
  fold_left PrimFloat.add a res.

(** The unrolled loop of [pairwise_sum]: eight running sums [r], each
    block of eight further items added lane by lane; what is left when
    fewer than eight items remain is returned with the sums. *)
Fixpoint lanes (r : list float) (a : list float) {struct a}
  : list float * list float :=
  match a with
  | a0 :: a1 :: a2 :: a3 :: a4 :: a5 :: a6 :: a7 :: rest =>
      match r with
      | [r0; r1; r2; r3; r4; r5; r6; r7] =>
          lanes [r0 + a0; r1 + a1; r2 + a2; r3 + a3;
                 r4 + a4; r5 + a5; r6 + a6; r7 + a7]%float rest
      | _ => (r, a)
      end
  | _ => (r, a)
  end.

Definition block_sum (a : list float) : float :=
  match a with
  | a0 :: a1 :: a2 :: a3 :: a4 :: a5 :: a6 :: a7 :: rest =>
      match lanes [a0; a1; a2; a3; a4; a5; a6; a7] rest with
      | ([r0; r1; r2; r3; r4; r5; r6; r7], tail) =>
          accumulate (((r0 + r1) + (r2 + r3)) + ((r4 + r5) + (r6 + r7)))%float tail
      | (_, _) => accumulate 0%float a
      end
  | _ => accumulate 0%float a
  end.

(** [pairwise_sum]: a plain loop below 8 items, the unrolled loop up to
    the block size 128, and above it the sum of two halves, the first of
    a length that is a multiple of 8.  The recursion halves the array;
    [fuel] bounds its depth and the length of the array is always enough
    (lemma [pairwise_sum_fuel]). *)
Fixpoint pairwise_sum_rec (fuel : nat) (a : list float) : float :=
  let n := List.length a in
  if (n <? 8)%nat then accumulate 0%float a
  else if (n <=? 128)%nat then block_sum a
  else
    match fuel with
    | O => accumulate 0%float a
    | S fuel' =>
        let n2 := (n / 2)%nat in
        let n2 := (n2 - n2 mod 8)%nat in
        (pairwise_sum_rec fuel' (firstn n2 a)
         + pairwise_sum_rec fuel' (skipn n2 a))%float
    end.

Definition pairwise_sum (a : list float) : float :=
  pairwise_sum_rec (List.length a) a.

(** [np.add.reduce]: the result starts at the identity of the addition
    and the inner loop adds the pairwise sum of the whole array to it. *)
Definition add_reduce (a : list float) : float :=
  (0 + pairwise_sum a)%float.

(** The item count, as the float64 the division converts it to. *)
Definition rcount (a : list float) : float :=
  SF2Prim (binary_normalize prec emax (Py.len a) 0 false).

(** [np.mean(a)]: [umr_sum(a) / rcount]. *)
Definition mean (a : list float) : float :=
  (add_reduce a / rcount a)%float.

(** [np.var(a)] with [ddof = 0]: the mean of the squared deviations from
    the mean, each square computed as [x * x]. *)
Definition var (a : list float) : float :=
  let arrmean := (add_reduce a / rcount a)%float in
  let x := map (fun v => v - arrmean)%float a in
  let x := map (fun v => v * v)%float x in
  (add_reduce x / rcount a)%float.

(** [np.std(a)]. *)
Definition std (a : list float) : float := sqrt (var a).

End Np.

(** ** Data model *)

(** [class TelemetryBatch(BaseModel)]: what an edge device uploads. *)
Module TelemetryBatch.
Record t : Type := mk {
  device_id : string;
  encrypted_data : string;
  batch_start : float;
  batch_end : float;
  sample_count : Z
}.
End TelemetryBatch.

(** The dictionary [upload_telemetry] appends to [TELEMETRY_STORE]. *)
Module StoredBatch.
Record t : Type := mk {
  device_id : string;
  encrypted_data : string;
  batch_start : float;
  batch_end : float;
  sample_count : Z;
  received_at : float
}.

(** The dictionary built from an uploaded batch and the clock. *)
Definition of_batch (batch : TelemetryBatch.t) (now : float) : t :=
  mk (TelemetryBatch.device_id batch)
     (TelemetryBatch.encrypted_data batch)
     (TelemetryBatch.batch_start batch)
     (TelemetryBatch.batch_end batch)
     (TelemetryBatch.sample_count batch)
     now.
End StoredBatch.

(** [class AnalysisRequest(BaseModel)]; [time_range_hours] is
    [Optional[int]], so a request may carry [None]. *)
Module AnalysisRequest.
Record t : Type := mk {
  device_id : string;
  time_range_hours : option Z
}.
End AnalysisRequest.

(** [class ThreatReport(BaseModel)]. *)
Module ThreatReport.
Record t : Type := mk {
  threat_level : string;
  confidence : float;
  indicators : list string;
  recommendations : list string;
  timestamp : float
}.
End ThreatReport.

(** The dictionary [report_threat] appends to [THREAT_DATABASE]. *)
Module StoredThreat.
Record t : Type := mk {
  threat_level : string;
  confidence : float;
  indicators : list string;
  recommendations : list string;
  reported_at : float;
  timestamp : float
}.

(** The dictionary built from a reported threat and the clock. *)
Definition of_report (threat : ThreatReport.t) (now : float) : t :=
  mk (ThreatReport.threat_level threat)
     (ThreatReport.confidence threat)
     (ThreatReport.indicators threat)
     (ThreatReport.recommendations threat)
     now
     (ThreatReport.timestamp threat).
End StoredThreat.

(** The two module-level lists ([ANALYSIS_CACHE] is never used). *)
Record State : Type := mkState {
  TELEMETRY_STORE : list StoredBatch.t;
  THREAT_DATABASE : list StoredThreat.t
}.

Definition initial_state : State := mkState [] [].

(** ** Telemetry ingestion *)

Module UploadResponse.
Record t : Type := mk {
  status : string;
  batch_id : Z;
  received_at : float;
  batches_stored : Z
}.
End UploadResponse.

(** [upload_telemetry]: [now] is the clock reading stored with the batch,
    [now'] the one of the response. *)
Definition upload_telemetry (st : State) (batch : TelemetryBatch.t) (now now' : float)
  : State * UploadResponse.t :=
  let store := TELEMETRY_STORE st ++ [StoredBatch.of_batch batch now] in
  let store :=
    if 10000 <? Py.len store then Py.slice_last 10000 store else store in
  (mkState store (THREAT_DATABASE st),
   UploadResponse.mk "success" (Py.len store) now' (Py.len store)).

(** ** Threat intelligence network *)

Module ReportResponse.
Record t : Type := mk {
  status : string;
  threat_id : Z;
  distributed_to_network : bool
}.
End ReportResponse.

(** [report_threat]. *)
Definition report_threat (st : State) (threat : ThreatReport.t) (now : float)
  : State * ReportResponse.t :=
  let db := THREAT_DATABASE st ++ [StoredThreat.of_report threat now] in
  let db :=
    if 1000 <? Py.len db then Py.slice_last 1000 db else db in
  (mkState (TELEMETRY_STORE st) db,
   ReportResponse.mk "accepted" (Py.len db) true).

(** The dictionary [get_global_threats] returns, its [statistics] inlined. *)
Module GlobalThreats.
Record t : Type := mk {
  network_status : string;
  total_devices : Z;
  total_batches : Z;
  total_samples : Z;
  batches_last_hour : Z;
  batches_last_day : Z;
  global_threat_level : string;
  known_threats : list StoredThreat.t;
  timestamp : float
}.
End GlobalThreats.

(** [set(iterable)] over strings, as the items it holds: one of each
    distinct string (only its [len] is used, so their order is of no
    consequence). *)
Definition set_of (l : list string) : list string := nodup string_dec l.

(** The comprehension [[b for b in TELEMETRY_STORE if b["received_at"] >
    time.time() - span]]: the condition is evaluated for every stored
    batch and reads the clock each time; [clock i] is the reading at the
    batch of index [i]. *)
Definition received_within
  (span : float) (clock : nat -> float) (store : list StoredBatch.t)
  : list StoredBatch.t :=
  map snd
      (filter (fun p => (clock (fst p) - span <? StoredBatch.received_at (snd p))%float)
              (Py.enumerate store)).

(** [get_global_threats]: [clock_hour] and [clock_day] are the readings of
    the two comprehensions, [now] the one of the answer. *)
Definition get_global_threats
  (st : State) (clock_hour clock_day : nat -> float) (now : float)
  : GlobalThreats.t :=
  let total_devices :=
    Py.len (set_of (map StoredBatch.device_id (TELEMETRY_STORE st))) in
  let total_batches := Py.len (TELEMETRY_STORE st) in
  let total_samples := Py.sum (map StoredBatch.sample_count (TELEMETRY_STORE st)) in
  let last_hour := received_within 3600 clock_hour (TELEMETRY_STORE st) in
  let last_day := received_within 86400 clock_day (TELEMETRY_STORE st) in
  GlobalThreats.mk "operational"
                   total_devices total_batches total_samples
                   (Py.len last_hour) (Py.len last_day)
                   "LOW" (THREAT_DATABASE st) now.

(** ** Cloud analysis *)

(** The two shapes of a successful answer of [request_analysis]. *)
Module AnalysisResponse.
Record completed : Type := mkCompleted {
  threat_level : string;
  threat_score : float;
  confidence : float;
  hours : Z;
  batches_analyzed : Z;
  total_samples : Z;
  indicators : list string;
  recommendations : list string;
  timestamp : float
}.

Inductive t : Type :=
| insufficient_data (message : string) (recommendation : string)
| complete (r : completed).
End AnalysisResponse.

(** The comprehension that selects the batches of a device received after
    the cutoff, in store order. *)
Definition device_batches_since
  (store : list StoredBatch.t) (device_id : string) (cutoff_time : float)
  : list StoredBatch.t :=
  filter (fun b => String.eqb (StoredBatch.device_id b) device_id
                   && (cutoff_time <? StoredBatch.received_at b)%float)
         store.

(** The loop over [range(1, len(device_batches))]: the gap between the end
    of a batch and the start of the next one. *)
Fixpoint batch_intervals (device_batches : list StoredBatch.t) : list float :=
  match device_batches with
  | prev :: (cur :: _) as rest =>
      (StoredBatch.batch_start cur - StoredBatch.batch_end prev)%float
        :: batch_intervals rest
  | _ => []
  end.

Definition gap_message (i : nat) : string :=
  ("Unusual gap in telemetry at batch " ++ Py.str_of_nat i)%string.

(** The test of the detection loop,
    [abs(interval - mean_interval) > (3 * std_interval)]. *)
Definition is_outlier (mean_interval std_interval interval : float) : bool :=
  (3 * std_interval <? abs (interval - mean_interval))%float.

(** The anomaly detection: nothing without an interval, otherwise one
    message per interval that passes the test, appended in loop order. *)
Definition detect_anomalies (intervals : list float) : list string :=
  match intervals with
  | [] => []
  | _ =>
      let mean_interval := Np.mean intervals in
      let std_interval := Np.std intervals in
      fold_left
        (fun anomalies '(i, interval) =>
           if is_outlier mean_interval std_interval interval
           then anomalies ++ [gap_message i]
           else anomalies)
        (Py.enumerate intervals) []
  end.

(** The threat score: the two [+=] on a score that starts at [0.0]. *)
Definition anomaly_term (anomalies : list string) : Py.result float :=
  n <- Py.float_of_int (Py.len anomalies) ;;
  Py.Ok (Py.min 0.3 (n * 0.1))%float.

Definition density_shortfall (batch_count : Z) (time_range_hours : Z) : bool :=
  batch_count <? time_range_hours * 6.

Definition score_threat
  (anomalies : list string) (batch_count : Z) (time_range_hours : Z)
  : Py.result float :=
  let threat_score := 0%float in
  threat_score <-
    match anomalies with
    | [] => Py.Ok threat_score
    | _ => term <- anomaly_term anomalies ;; Py.Ok (threat_score + term)%float
    end ;;
  let threat_score :=
    if density_shortfall batch_count time_range_hours
    then (threat_score + 0.2)%float
    else threat_score in
  Py.Ok threat_score.

(** The [if]/[elif] chain that names the level. *)
Definition threat_level_of (threat_score : float) : string :=
  if (0.7 <? threat_score)%float then "CRITICAL"
  else if (0.5 <? threat_score)%float then "HIGH"
  else if (0.3 <? threat_score)%float then "MODERATE"
  else "LOW".

Definition in_strings (s : string) (l : list string) : bool :=
  existsb (String.eqb s) l.

(** The recommendations, as the handler builds and returns them. *)
Definition recommend (anomalies : list string) (batch_count : Z) (level : string)
  : list string :=
  let recommendations := [] in
  let recommendations :=
    match anomalies with
    | [] => recommendations
    | _ => recommendations ++ ["Investigate telemetry gaps for possible interference"]
    end in
  let recommendations :=
    if batch_count <? 10
    then recommendations ++ ["Continue baseline collection for improved accuracy"]
    else recommendations in
  let recommendations :=
    if in_strings level ["HIGH"; "CRITICAL"]
    then (recommendations ++ ["Enable enhanced monitoring mode"])
           ++ ["Review device for surveillance indicators"]
    else recommendations in
  match recommendations with
  | [] => ["Continue normal operation"]
  | _ => recommendations
  end.

Definition confidence_of (total_samples : Z) : Py.result float :=
  q <- Py.int_truediv total_samples 10000 ;;
  Py.Ok (Py.min 0.95 q).

(** [request_analysis]: [now] is the clock reading of the cutoff, [now']
    the one of the answer.  [None * 3600] is a [TypeError], an [int] too
    large for a float an [OverflowError]. *)
Definition request_analysis
  (store : list StoredBatch.t) (req : AnalysisRequest.t) (now now' : float)
  : Py.result AnalysisResponse.t :=
  match AnalysisRequest.time_range_hours req with
  | None => Py.Raise Py.TypeError
  | Some time_range_hours =>
      window <- Py.float_of_int (time_range_hours * 3600) ;;
      let cutoff_time := (now - window)%float in
      let device_batches :=
        device_batches_since store (AnalysisRequest.device_id req) cutoff_time in
      match device_batches with
      | [] =>
          Py.Ok (AnalysisResponse.insufficient_data
                   ("No telemetry in last " ++ Py.str_of_int time_range_hours
                      ++ " hours")%string
                   "Continue baseline collection")
      | _ =>
          let total_samples := Py.sum (map StoredBatch.sample_count device_batches) in
          let batch_count := Py.len device_batches in
          let anomalies := detect_anomalies (batch_intervals device_batches) in
          threat_score <- score_threat anomalies batch_count time_range_hours ;;
          let level := threat_level_of threat_score in
          let recommendations := recommend anomalies batch_count level in
          confidence <- confidence_of total_samples ;;
          Py.Ok (AnalysisResponse.complete
                   (AnalysisResponse.mkCompleted
                      level threat_score confidence
                      time_range_hours batch_count total_samples
                      anomalies recommendations now'))
      end
  end.

(** ** Forensic reports *)

Module ForensicReport.
Record t : Type := mk {
  report_type : string;
  generated_at : string;
  device_id : string;
  period_start : string;
  period_end : string;
  duration_hours : float;
  total_batches : Z;
  total_samples : Z;
  surveillance_indicators : list string;
  interference_events : list string;
  anomalous_patterns : list string
}.
End ForensicReport.

(** What the platform makes of a timestamp that passed the range check of
    [datetime.fromtimestamp]: the text of the local time, or one of the
    three ways the conversion fails. *)
Module Localtime.
Inductive t : Type :=
| isoformat (text : string)
| out_of_range
| failed
| year_out_of_range.
End Localtime.

Section Forensics.

(** [datetime.fromtimestamp(t).isoformat()] for a timestamp that fits a
    64-bit [time_t]: the platform's [time_t] may be narrower, its
    [localtime] may fail, and a [datetime] holds the years 1 to 9999 only;
    the local time zone decides the text. *)
Variable localtime_isoformat : float -> Localtime.t.

(** [datetime.fromtimestamp(t).isoformat()]. A NaN is a [ValueError] and a
    timestamp of magnitude above [2^63], which no [time_t] holds, an
    [OverflowError]. Of the others the platform rejects, one outside its
    [time_t] is an [OverflowError], one its [localtime] fails on an
    [OSError], and one whose year no [datetime] holds a [ValueError]. The
    handler catches none of them. *)
Definition fromtimestamp_isoformat (t : float) : Py.result string :=
  if is_nan t then Py.Raise Py.ValueError
  else if ((-9223372036854775808 <=? t) && (t <=? 9223372036854775808))%float
       then match localtime_isoformat t with
            | Localtime.isoformat text => Py.Ok text
            | Localtime.out_of_range => Py.Raise Py.OverflowError
            | Localtime.failed => Py.Raise Py.OSError
            | Localtime.year_out_of_range => Py.Raise Py.ValueError
            end
       else Py.Raise Py.OverflowError.

(** [generate_forensic_report]; [generated_at] is
    [datetime.now().isoformat()]. *)
Definition generate_forensic_report
  (store : list StoredBatch.t) (req : AnalysisRequest.t) (generated_at : string)
  : Py.result ForensicReport.t :=
  let device_batches :=
    filter (fun b => String.eqb (StoredBatch.device_id b) (AnalysisRequest.device_id req))
           store in
  match device_batches with
  | [] => Py.Raise (Py.HTTPException 404 "No telemetry found for device")
  | b :: others =>
      let first_batch :=
        Py.min_seq (StoredBatch.batch_start b) (map StoredBatch.batch_start others) in
      let last_batch :=
        Py.max_seq (StoredBatch.batch_end b) (map StoredBatch.batch_end others) in
      let total_duration := (last_batch - first_batch)%float in
      period_start <- fromtimestamp_isoformat first_batch ;;
      period_end <- fromtimestamp_isoformat last_batch ;;
      Py.Ok (ForensicReport.mk
               "SACS_FORENSIC_ANALYSIS" generated_at (AnalysisRequest.device_id req)
               period_start period_end (total_duration / 3600)%float
               (Py.len device_batches)
               (Py.sum (map StoredBatch.sample_count device_batches))
               [] [] [])
  end.

End Forensics.

(** ** Health and status *)

Module Health.
Record t : Type := mk {
  status : string;
  telemetry_batches_stored : Z;
  threats_tracked : Z;
  timestamp : float
}.
End Health.

(** [health]. *)
Definition health (st : State) (now : float) : Health.t :=
  Health.mk "healthy" (Py.len (TELEMETRY_STORE st)) (Py.len (THREAT_DATABASE st)) now.

(** ** Sequences of inserts *)

(** The two requests that write a store, with the clock readings of their
    handler. *)
Inductive Insert : Type :=
| Upload (batch : TelemetryBatch.t) (now now' : float)
| Report (threat : ThreatReport.t) (now : float).

Definition insert (st : State) (op : Insert) : State :=
  match op with
  | Upload batch now now' => fst (upload_telemetry st batch now now')
  | Report threat now => fst (report_threat st threat now)
  end.

(** The state of a process that has served [ops] since it started. *)
Definition run (ops : list Insert) : State := fold_left insert ops initial_state.

(** Every batch, and every threat, ever inserted, oldest first. *)
Definition uploaded (ops : list Insert) : list StoredBatch.t :=
  flat_map (fun op => match op with
                      | Upload batch now _ => [StoredBatch.of_batch batch now]
                      | Report _ _ => []
                      end) ops.

Definition reported (ops : list Insert) : list StoredThreat.t :=
  flat_map (fun op => match op with
                      | Upload _ _ _ => []
                      | Report threat now => [StoredThreat.of_report threat now]
                      end) ops.

(** ** Reference forms the handlers are compared with *)

(** The append-then-truncate step that [upload_telemetry] (capacity 10000)
    and [report_threat] (capacity 1000) both perform on their list. *)
Definition push {A : Type} (cap : Z) (l : list A) (x : A) : list A :=
  let l' := l ++ [x] in
  if cap <? Py.len l' then Py.slice_last cap l' else l'.

(** The comprehension of [request_analysis] with what can fail before it. *)
Definition matched_batches
  (store : list StoredBatch.t) (req : AnalysisRequest.t) (now : float)
  : Py.result (list StoredBatch.t) :=
  match AnalysisRequest.time_range_hours req with
  | None => Py.Raise Py.TypeError
  | Some time_range_hours =>
      window <- Py.float_of_int (time_range_hours * 3600) ;;
      Py.Ok (device_batches_since store (AnalysisRequest.device_id req)
                                  (now - window)%float)
  end.

(** The comprehension of [generate_forensic_report]: every stored batch of
    a device, in store order. *)
Definition batches_of (store : list StoredBatch.t) (device_id : string)
  : list StoredBatch.t :=
  filter (fun b => String.eqb (StoredBatch.device_id b) device_id) store.

(** The samples of the stored batches of a device. *)
Definition samples_of (store : list StoredBatch.t) (device_id : string) : Z :=
  Py.sum (map StoredBatch.sample_count (batches_of store device_id)).

(** The detection loop as a comprehension over [enumerate]. *)
Definition outliers (intervals : list float) : list (nat * float) :=
  filter (fun p => is_outlier (Np.mean intervals) (Np.std intervals) (snd p))
         (Py.enumerate intervals).

(** The recommendations as a list of independent, ordered conditions. *)
Definition listed_recommendations
  (anomalies : list string) (batch_count : Z) (level : string) : list string :=
  (match anomalies with
   | [] => []
   | _ => ["Investigate telemetry gaps for possible interference"]
   end)
  ++ (if batch_count <? 10
      then ["Continue baseline collection for improved accuracy"] else [])
  ++ (if String.eqb level "HIGH" || String.eqb level "CRITICAL"
      then ["Enable enhanced monitoring mode";
            "Review device for surveillance indicators"] else []).

(** The values the threat score can take. *)
Definition scores : list float := [0; 0.1; 0.2; 0.3; 0.1 + 0.2; 0.4; 0.5]%float.

(** The confidence of a total of at most 53 bits, where the division is
    the one of two doubles. *)
Definition small_confidence (t : Z) : float :=
  Py.min 0.95 (Py.float_of_small t / Py.float_of_small 10000)%float.

(** The confidences of the [n] totals from [t] on lie between 0 and 0.95
    and never decrease from one total to the next; [c] is the confidence
    of [t]. *)
Fixpoint rising (n : nat) (t : Z) (c : float) : bool :=
  match n with
  | O => true
  | S k =>
      let c' := small_confidence (t + 1) in
      (0 <=? c)%float && (c <=? c')%float && (c' <=? 0.95)%float
      && rising k (t + 1) c'
  end.

(** ** Example stores *)

(** A batch of device [d1] with 100 samples, received at clock reading
    1000. *)
Definition example_batch (batch_start batch_end : float) : StoredBatch.t :=
  StoredBatch.mk "d1" "gAAAAAB" batch_start batch_end 100 1000.

(** Twelve batches of device [d1]: ten gaps of 0 seconds, then one of 11. *)
Definition wide_gap_store : list StoredBatch.t :=
  repeat (example_batch 0 0) 11 ++ [example_batch 11 11].

(** Four batches whose three gaps are all [0.1 * 2^-600] seconds. *)
Definition tiny_gap : float := Eval cbv in Z.ldexp 0.1 (-600).

Definition tiny_gap_store : list StoredBatch.t :=
  repeat (example_batch tiny_gap 0) 4.

(** Four batches whose three gaps are all 0.1 seconds. *)
Definition tenth_gap_store : list StoredBatch.t := repeat (example_batch 0.1 0) 4.

(** One batch that starts at [1e300]. *)
Definition far_future_store : list StoredBatch.t := [example_batch 1e300 1e300].

(** One batch that ends two hours before it starts. *)
Definition backwards_store : list StoredBatch.t := [example_batch 7300 100].

Definition day_request : AnalysisRequest.t := AnalysisRequest.mk "d1" (Some 24).

(** Twelve batches that follow each other without a gap. *)
Definition steady_store : list StoredBatch.t := repeat (example_batch 0 0) 12.

(** Two batches, 60 seconds apart. *)
Definition pair_store : list StoredBatch.t :=
  [example_batch 0 300; example_batch 360 660].

(** Two batches with finite timestamps whose gap overflows. *)
Definition overflow_pair_store : list StoredBatch.t :=
  [example_batch 0 (-1e308); example_batch 1e308 0].

(** The answers to [day_request] at clock readings 2000 and 2001. *)
Definition wide_gap_answer : AnalysisResponse.completed :=
  AnalysisResponse.mkCompleted
    "MODERATE" (0.1 + 0.2)%float 0.12%float 24 12 1200
    ["Unusual gap in telemetry at batch 10"]
    ["Investigate telemetry gaps for possible interference"]
    2001%float.

Definition steady_answer : AnalysisResponse.completed :=
  AnalysisResponse.mkCompleted
    "LOW" 0.2%float 0.12%float 24 12 1200
    [] ["Continue normal operation"] 2001%float.

Definition pair_answer : AnalysisResponse.completed :=
  AnalysisResponse.mkCompleted
    "LOW" 0.2%float 0.02%float 24 2 200
    [] ["Continue baseline collection for improved accuracy"] 2001%float.

(** An upload of device [d1] and one of device [d2]. *)
Definition d1_upload : Insert :=
  Upload (TelemetryBatch.mk "d1" "gAAAAAB" 0 300 100) 1000 1001.

Definition d2_upload : Insert :=
  Upload (TelemetryBatch.mk "d2" "gAAAAAB" 0 300 100) 1000 1001.

(** One batch whose sample count no float holds once divided by 10000, and
    one with a negative sample count, with the answer to [day_request]. *)
Definition huge_count_store : list StoredBatch.t :=
  [StoredBatch.mk "d1" "gAAAAAB" 0 300 (10000 * 2 ^ 1024) 1000].

Definition negative_count_store : list StoredBatch.t :=
  [StoredBatch.mk "d1" "gAAAAAB" 0 300 (-100) 1000].

Definition negative_count_answer : AnalysisResponse.completed :=
  AnalysisResponse.mkCompleted
    "LOW" 0.2%float (-0.01)%float 24 1 (-100)
    [] ["Continue baseline collection for improved accuracy"] 2001%float.

(** ** Binary64 constants and classes used in the proofs *)

Definition SF_1 : spec_float := S754_finite false 4503599627370496 (-52).
Definition SF_3 : spec_float := S754_finite false 6755399441055744 (-51).
Definition SF_10000 : spec_float := S754_finite false 5497558138880000 (-39).
Definition SF_0_1 : spec_float := S754_finite false 7205759403792794 (-56).
Definition SF_0_3 : spec_float := S754_finite false 5404319552844595 (-54).
Definition SF_0_95 : spec_float := S754_finite false 8556839292003942 (-53).

(** Zeros, NaN and the positive numbers. *)
Definition not_negative (x : spec_float) : bool :=
  match x with
  | S754_zero _ | S754_nan => true
  | S754_infinity s | S754_finite s _ _ => negb s
  end.

Definition zero_or_nan (x : spec_float) : bool :=
  match x with
  | S754_zero _ | S754_nan => true
  | _ => false
  end.

(** [Pos.compare_cont Eq] is the comparison of [positive]. *)
Ltac pos_compare :=
  repeat match goal with
         | |- context [PosDef.Pos.compare_cont Eq ?a ?b] =>
             change (PosDef.Pos.compare_cont Eq a b) with (Pos.compare a b)
         | H : context [PosDef.Pos.compare_cont Eq ?a ?b] |- _ =>
             change (PosDef.Pos.compare_cont Eq a b) with (Pos.compare a b) in H
         end.

(** ** Values and bounds used in the error analysis of the detector *)

(** The value of a positive finite binary64, scaled by [2^1200]. *)
Definition scaled (m : positive) (e : Z) : Z := Zpos m * 2 ^ (e + 1200).

(** [x] is [+infinity], or a positive number, normal or subnormal, whose
    value, scaled, is at least [v * (1 - 2^-52)^K]: what is left of [v]
    after [K] roundings to nearest of normal numbers. *)
Definition lower (K : nat) (x : spec_float) (v : Z) : Prop :=
  x = S754_infinity false
  \/ exists m e,
       x = S754_finite false m e
       /\ bounded prec emax m e = true
       /\ (2 ^ 52 - 1) ^ Z.of_nat K * v <= (2 ^ 52) ^ Z.of_nat K * scaled m e.

(** The same, or the zero a sum starts from. *)
Definition lower0 (K : nat) (x : spec_float) (v : Z) : Prop :=
  (x = S754_zero false /\ v = 0) \/ lower K x v.

(** A partial sum of [k] items of scaled value [D] or more each, after at
    most [K] roundings. *)
Definition sums (D : Z) (K k : nat) (x : float) : Prop :=
  lower0 K (Prim2SF x) (Z.of_nat k * D).

(** A partial sum of [k] items that are all [+infinity]. *)
Definition infinite_sum (K k : nat) (x : float) : Prop :=
  (k = 0%nat /\ x = 0%float) \/ (k <> 0%nat /\ Prim2SF x = S754_infinity false).

(** A partial sum of items that are all [+0.0]. *)
Definition zero_sum (K k : nat) (x : float) : Prop := Prim2SF x = S754_zero false.

(** What [k] shifts to the right leave of [q]: the mantissa, the round
    bit for the half of the last place, and the sticky bit for what is
    below it. *)
Definition shifted (q k : Z) (mrs : shr_record) : Prop :=
  exists t,
    q = shr_m mrs * 2 ^ k + (if shr_r mrs then 2 ^ (k - 1) else 0) + t
    /\ 0 <= shr_m mrs
    /\ 0 <= t
    /\ (t < 2 ^ (k - 1) \/ t = 0)
    /\ (shr_s mrs = false -> t = 0)
    /\ (shr_r mrs = true -> 1 <= k).

(** The square of [deviation] is lost: it is a zero although [deviation]
    is not. *)
Definition square_underflows (deviation : float) : bool :=
  ((deviation * deviation =? 0) && negb (deviation =? 0))%float.

(** Splits the hypotheses on a list that is given item by item. *)
Ltac forall_cons :=
  repeat match goal with
         | H : Forall _ (_ :: _) |- _ =>
             let H1 := fresh in
             let H2 := fresh in
             pose proof (Forall_inv H) as H1;
             pose proof (Forall_inv_tail H) as H2;
             clear H
         end.

(** * Properties *)

(** ** The result monad and the shape of a completed analysis *)

Lemma bind_Ok {A B} (r : Py.result A) (k : A -> Py.result B) (b : B) :
  (x <- r ;; k x) = Py.Ok b -> exists a, r = Py.Ok a /\ k a = Py.Ok b.
Proof. destruct r as [a | e]; simpl; intros H; [eauto | discriminate]. Qed.

Lemma checked_Ok (sf : spec_float) (f : float) :
  Py.checked sf = Py.Ok f -> f = SF2Prim sf.
Proof. destruct sf; intros H; try discriminate; injection H as <-; reflexivity. Qed.

(** A completed analysis went through every step of the handler. *)
Lemma request_analysis_complete store req now now' r :
  request_analysis store req now now' = Py.Ok (AnalysisResponse.complete r) ->
  exists time_range_hours window threat_score confidence,
    let device_batches :=
      device_batches_since store (AnalysisRequest.device_id req) (now - window)%float in
    let anomalies := detect_anomalies (batch_intervals device_batches) in
    AnalysisRequest.time_range_hours req = Some time_range_hours
    /\ Py.float_of_int (time_range_hours * 3600) = Py.Ok window
    /\ device_batches <> []
    /\ score_threat anomalies (Py.len device_batches) time_range_hours = Py.Ok threat_score
    /\ confidence_of (Py.sum (map StoredBatch.sample_count device_batches)) = Py.Ok confidence
    /\ r = AnalysisResponse.mkCompleted
             (threat_level_of threat_score) threat_score confidence
             time_range_hours (Py.len device_batches)
             (Py.sum (map StoredBatch.sample_count device_batches))
             anomalies
             (recommend anomalies (Py.len device_batches) (threat_level_of threat_score))
             now'.
Proof.
  unfold request_analysis.
  destruct (AnalysisRequest.time_range_hours req) as [h |]; [| discriminate].
  intros H. apply bind_Ok in H. destruct H as (window & Hw & H).
  exists h, window.
  destruct (device_batches_since store (AnalysisRequest.device_id req) (now - window)%float)
    as [| b bs] eqn:Hbs; [discriminate |].
  apply bind_Ok in H. destruct H as (score & Hs & H).
  apply bind_Ok in H. destruct H as (conf & Hc & H).
  exists score, conf. cbn zeta.
  injection H as <-.
  repeat split; try assumption; try reflexivity. discriminate.
Qed.

(** ** The recursion of [pairwise_sum] *)

Lemma pairwise_sum_rec_fuel (fuel : nat) :
  forall (a : list float) (fuel' : nat),
    (List.length a <= fuel)%nat -> (List.length a <= fuel')%nat ->
    Np.pairwise_sum_rec fuel a = Np.pairwise_sum_rec fuel' a.
Proof.
  induction fuel as [| fuel IH]; intros a fuel' H H'.
  - destruct a; [| cbn in H; lia]. destruct fuel'; reflexivity.
  - destruct fuel' as [| fuel'].
    + destruct a; [| cbn in H'; lia]. reflexivity.
    + cbn [Np.pairwise_sum_rec].
      destruct (Nat.ltb_spec (List.length a) 8) as [| H8]; [reflexivity |].
      destruct (Nat.leb_spec (List.length a) 128) as [| H128]; [reflexivity |].
      set (n2 := (List.length a / 2 - (List.length a / 2) mod 8)%nat).
      assert (Hn2 : (0 < n2 < List.length a)%nat).
      { unfold n2.
        pose proof (Nat.mod_upper_bound (List.length a / 2) 8 ltac:(lia)).
        pose proof (Nat.div_lt (List.length a) 2 ltac:(lia) ltac:(lia)).
        assert (64 <= List.length a / 2)%nat by (apply Nat.div_le_lower_bound; lia).
        lia. }
      f_equal; apply IH; rewrite ?length_firstn, ?length_skipn; lia.
Qed.

(** The fuel [pairwise_sum] gives the recursion is enough: more changes
    nothing. *)
Lemma pairwise_sum_fuel (a : list float) (fuel : nat) :
  (List.length a <= fuel)%nat -> Np.pairwise_sum_rec fuel a = Np.pairwise_sum a.
Proof.
  intros H. unfold Np.pairwise_sum. apply pairwise_sum_rec_fuel; [exact H | lia].
Qed.

(** ** Binary64: comparisons

    [SFcompare] orders two numbers by sign, exponent and mantissa and has
    no answer when one of them is a NaN. *)

Lemma SFcompare_antisym (x y : spec_float) :
  SFcompare y x = option_map CompOpp (SFcompare x y).
Proof.
  destruct x as [sx | sx | | sx mx ex], y as [sy | sy | | sy my ey];
    try destruct sx; try destruct sy; cbn; try reflexivity;
    pos_compare;
    rewrite (Z.compare_antisym ex ey), (Pos.compare_antisym mx my);
    destruct (ex ?= ey); cbn; try reflexivity;
    try rewrite CompOpp_involutive; reflexivity.
Qed.

Lemma SFcompare_refl (x : spec_float) :
  x <> S754_nan -> SFcompare x x = Some Eq.
Proof.
  destruct x as [s | s | | s m e]; try destruct s; cbn; try congruence;
    intros _; pos_compare; rewrite Z.compare_refl, Pos.compare_refl; reflexivity.
Qed.

Lemma SFcompare_nan_r x : SFcompare x S754_nan = None.
Proof. destruct x as [s | s | | s m e]; reflexivity. Qed.

Lemma is_nan_spec (x : float) : is_nan x = true <-> Prim2SF x = S754_nan.
Proof.
  unfold is_nan. rewrite eqb_spec. unfold SFeqb. split.
  - intros H. destruct (Prim2SF x) as [s | s | | s m e] eqn:E; try reflexivity;
      rewrite SFcompare_refl in H by discriminate; discriminate.
  - intros ->. reflexivity.
Qed.

Lemma ltb_not_nan (x y : float) :
  (x <? y)%float = true -> is_nan x = false /\ is_nan y = false.
Proof.
  rewrite ltb_spec. unfold SFltb. intros H.
  split; apply not_true_is_false; rewrite is_nan_spec; intros E; rewrite E in H.
  - discriminate.
  - rewrite SFcompare_nan_r in H. discriminate.
Qed.

(** Among numbers, "not greater" is "less or equal". *)
Lemma ltb_false_leb (x y : float) :
  is_nan x = false -> is_nan y = false ->
  (x <? y)%float = false -> (y <=? x)%float = true.
Proof.
  intros Hx Hy. rewrite ltb_spec, leb_spec. unfold SFltb, SFleb.
  rewrite (SFcompare_antisym (Prim2SF x) (Prim2SF y)).
  assert (Hx' : Prim2SF x <> S754_nan)
    by (intros E; apply is_nan_spec in E; congruence).
  assert (Hy' : Prim2SF y <> S754_nan)
    by (intros E; apply is_nan_spec in E; congruence).
  destruct (Prim2SF x) as [sx | sx | | sx mx ex], (Prim2SF y) as [sy | sy | | sy my ey];
    try congruence; try destruct sx; try destruct sy; cbn; try congruence;
    pos_compare;
    destruct (ex ?= ey); cbn; try congruence;
    destruct (mx ?= my)%positive; cbn; congruence.
Qed.

Lemma leb_ltb_false (x y : float) :
  (y <=? x)%float = true -> (x <? y)%float = false.
Proof.
  rewrite ltb_spec, leb_spec. unfold SFltb, SFleb.
  rewrite (SFcompare_antisym (Prim2SF x) (Prim2SF y)).
  destruct (SFcompare (Prim2SF x) (Prim2SF y)) as [[ | | ] |]; cbn; congruence.
Qed.

Lemma SFltb_trans (x y z : spec_float) :
  SFltb x y = true -> SFltb y z = true -> SFltb x z = true.
Proof.
  unfold SFltb.
  destruct x as [sx | sx | | sx mx ex], y as [sy | sy | | sy my ey],
           z as [sz | sz | | sz mz ez];
    try destruct sx; try destruct sy; try destruct sz; cbn; try congruence.
  all: destruct (Z.compare_spec ex ey); try congruence;
       destruct (Z.compare_spec ey ez); try congruence;
       destruct (Z.compare_spec ex ez); try congruence; try lia.
  all: pos_compare;
       destruct (Pos.compare_spec mx my); cbn; try congruence;
       destruct (Pos.compare_spec my mz); cbn; try congruence;
       destruct (Pos.compare_spec mx mz); cbn; try congruence; lia.
Qed.

Lemma ltb_trans (x y z : float) :
  (x <? y)%float = true -> (y <? z)%float = true -> (x <? z)%float = true.
Proof. rewrite !ltb_spec. apply SFltb_trans. Qed.

Lemma SFleb_trans (x y z : spec_float) :
  SFleb x y = true -> SFleb y z = true -> SFleb x z = true.
Proof.
  unfold SFleb.
  destruct x as [sx | sx | | sx mx ex], y as [sy | sy | | sy my ey],
           z as [sz | sz | | sz mz ez];
    try destruct sx; try destruct sy; try destruct sz; cbn; try congruence.
  all: destruct (Z.compare_spec ex ey); try congruence;
       destruct (Z.compare_spec ey ez); try congruence;
       destruct (Z.compare_spec ex ez); try congruence; try lia.
  all: pos_compare;
       destruct (Pos.compare_spec mx my); cbn; try congruence;
       destruct (Pos.compare_spec my mz); cbn; try congruence;
       destruct (Pos.compare_spec mx mz); cbn; try congruence; lia.
Qed.

Lemma leb_trans (x y z : float) :
  (x <=? y)%float = true -> (y <=? z)%float = true -> (x <=? z)%float = true.
Proof. rewrite !leb_spec. apply SFleb_trans. Qed.

Lemma leb_refl_l (x y : float) : (x <=? y)%float = true -> (x <=? x)%float = true.
Proof.
  rewrite !leb_spec. unfold SFleb. intros H.
  rewrite SFcompare_refl; [reflexivity |].
  intros E. rewrite E in H. discriminate.
Qed.

Lemma SFltb_irrefl (x : spec_float) : SFltb x x = false.
Proof.
  unfold SFltb. destruct x as [s | s | | s m e]; try destruct s; cbn; try reflexivity;
    pos_compare; rewrite Z.compare_refl, Pos.compare_refl; reflexivity.
Qed.

Lemma ltb_irrefl (x : float) : (x <? x)%float = false.
Proof. rewrite ltb_spec. apply SFltb_irrefl. Qed.

(** ** Binary64: operations that are exact *)

Lemma fexp_eq z : fexp prec emax z = Z.max (z - 53) (-1074).
Proof. reflexivity. Qed.

Lemma bounded_spec m e :
  bounded prec emax m e = true ->
  Z.max (Zpos (digits2_pos m) + e - 53) (-1074) = e /\ e <= 971.
Proof.
  unfold bounded, canonical_mantissa. rewrite fexp_eq.
  intros H. apply andb_prop in H. destruct H as [H1 H2].
  apply Z.eqb_eq in H1. apply Z.leb_le in H2. split; [exact H1 | exact H2].
Qed.

(** Rounding a mantissa that is already canonical and exact changes nothing. *)
Lemma binary_round_aux_canonical s m e :
  bounded prec emax m e = true ->
  binary_round_aux prec emax s (Zpos m) e loc_Exact = S754_finite s m e.
Proof.
  intros Hb. destruct (bounded_spec m e Hb) as [Hc He].
  unfold binary_round_aux, shr_fexp. cbn [Zdigits2 shr_record_of_loc].
  rewrite fexp_eq.
  replace (Z.max (Zpos (digits2_pos m) + e - 53) (-1074) - e) with 0 by lia.
  cbn [shr loc_of_shr_record shr_m round_nearest_even Zdigits2 shr_record_of_loc].
  rewrite fexp_eq.
  replace (Z.max (Zpos (digits2_pos m) + e - 53) (-1074) - e) with 0 by lia.
  cbn [shr shr_m].
  apply Z.leb_le in He. change (emax - prec) with 971. rewrite He. reflexivity.
Qed.

(** The same for twice that mantissa one exponent below. *)
Lemma binary_round_aux_double s m e :
  bounded prec emax m e = true -> -1074 < e ->
  binary_round_aux prec emax s (Zpos m~0) (e - 1) loc_Exact = S754_finite s m e.
Proof.
  intros Hb Hlt. destruct (bounded_spec m e Hb) as [Hc He].
  unfold binary_round_aux, shr_fexp. cbn [Zdigits2 shr_record_of_loc digits2_pos].
  rewrite fexp_eq. rewrite Pos2Z.inj_succ.
  replace (Z.max (Z.succ (Zpos (digits2_pos m)) + (e - 1) - 53) (-1074) - (e - 1)) with 1 by lia.
  cbn [shr iter_pos shr_1 orb loc_of_shr_record shr_m round_nearest_even Zdigits2 shr_record_of_loc].
  rewrite fexp_eq.
  replace (e - 1 + 1) with e by lia.
  replace (Z.max (Zpos (digits2_pos m) + e - 53) (-1074) - e) with 0 by lia.
  cbn [shr shr_m].
  apply Z.leb_le in He. change (emax - prec) with 971. rewrite He. reflexivity.
Qed.

Lemma div_eucl_exact a b : 0 < b -> Z.div_eucl (a * b) b = (a, 0).
Proof.
  intros Hb. pose proof (Z.div_mul a b) as Hd. pose proof (Z.mod_mul a b) as Hm.
  unfold Z.div, Z.modulo in Hd, Hm.
  destruct (Z.div_eucl (a * b) b) as [q r]. cbn in Hd, Hm.
  rewrite Hd, Hm by lia. reflexivity.
Qed.

(** Dividing a binary64 by 1.0 is exact. *)
Lemma SFdiv_one s m e :
  bounded prec emax m e = true ->
  SFdiv prec emax (S754_finite s m e) SF_1 = S754_finite s m e.
Proof.
  intros Hb. destruct (bounded_spec m e Hb) as [Hc He].
  unfold SFdiv, SF_1, SFdiv_core_binary.
  cbn [Zdigits2]. rewrite fexp_eq.
  change (Zpos (digits2_pos 4503599627370496)) with 53.
  rewrite xorb_false_r.
  destruct (Z_lt_le_dec (-1074) e) as [Hn | Hs].
  - (* a normal number above the smallest exponent *)
    replace (Z.min (Z.max (Zpos (digits2_pos m) + e - (53 + -52) - 53) (-1074)) (e - -52))
      with (e - 1) by lia.
    replace (e - -52 - (e - 1)) with 53 by lia.
    rewrite Z.shiftl_mul_pow2 by lia. change (2 ^ 53) with 9007199254740992.
    replace (Zpos m * 9007199254740992) with (Zpos m~0 * 4503599627370496) by lia.
    rewrite div_eucl_exact by lia.
    change (new_location 4503599627370496 0) with loc_Exact.
    apply binary_round_aux_double; assumption.
  - replace (Z.min (Z.max (Zpos (digits2_pos m) + e - (53 + -52) - 53) (-1074)) (e - -52))
      with e by lia.
    replace (e - -52 - e) with 52 by lia.
    rewrite Z.shiftl_mul_pow2 by lia. change (2 ^ 52) with 4503599627370496.
    rewrite div_eucl_exact by lia.
    change (new_location 4503599627370496 0) with loc_Exact.
    apply binary_round_aux_canonical; assumption.
Qed.

(** ** Binary64: signs *)

Lemma binary_round_aux_sign s m e l :
  match binary_round_aux prec emax s m e l with
  | S754_zero s' | S754_infinity s' | S754_finite s' _ _ => s' = s
  | S754_nan => True
  end.
Proof.
  unfold binary_round_aux.
  destruct (shr_fexp prec emax m e l) as [mrs' e'].
  destruct (shr_fexp prec emax _ e' loc_Exact) as [mrs'' e''].
  destruct (shr_m mrs''); [reflexivity | | exact I].
  destruct (e'' <=? emax - prec); reflexivity.
Qed.

Lemma SFsqrt_not_negative x : not_negative (SFsqrt prec emax x) = true.
Proof.
  destruct x as [s | [|] | | [|] m e]; try reflexivity.
  unfold SFsqrt. destruct (SFsqrt_core_binary prec emax (Zpos m) e) as [[mz ez] lz].
  pose proof (binary_round_aux_sign false mz ez lz) as H.
  destruct (binary_round_aux prec emax false mz ez lz); cbn; subst; reflexivity.
Qed.

Lemma SFmul_not_negative m e y :
  not_negative y = true ->
  not_negative (SFmul prec emax (S754_finite false m e) y) = true.
Proof.
  destruct y as [s | s | | s my ey]; cbn [not_negative SFmul xorb]; try (intros; reflexivity).
  - destruct s; [discriminate | reflexivity].
  - intros H. 
    pose proof (binary_round_aux_sign s (Zpos (m * my)) (e + ey) loc_Exact) as Hs.
    destruct (binary_round_aux prec emax s (Zpos (m * my)) (e + ey) loc_Exact);
      cbn; subst; try reflexivity; exact H.
Qed.

Lemma SFltb_zero_or_nan x y :
  not_negative x = true -> zero_or_nan y = true -> SFltb x y = false.
Proof.
  destruct x as [sx | [|] | | [|] mx ex], y as [sy | sy | | sy my ey];
    cbn; try discriminate; reflexivity.
Qed.

(** The difference of two equal numbers is a zero (or a NaN, for
    infinities); so is its absolute value. *)
Lemma SFsub_eqb x y :
  SFeqb x y = true -> zero_or_nan (SFabs (SFsub prec emax x y)) = true.
Proof.
  unfold SFeqb.
  destruct x as [sx | sx | | sx mx ex], y as [sy | sy | | sy my ey];
    try destruct sx; try destruct sy; cbn [SFcompare]; try discriminate;
    try reflexivity.
  all: destruct (Z.compare_spec ex ey) as [He | He | He]; try discriminate.
  all: change (PosDef.Pos.compare_cont Eq mx my) with (Pos.compare mx my).
  all: destruct (Pos.compare_spec mx my) as [Hm | Hm | Hm]; try discriminate.
  all: intros _; subst; unfold SFsub; rewrite Z.sub_diag; reflexivity.
Qed.

(** ** Binary64: rounding

    Digits, shifts, and a lower bound on what [binary_round_aux] returns
    for a mantissa of at least 53 bits. *)

Lemma digits2_pos_bounds (p : positive) :
  2 ^ (Zpos (digits2_pos p) - 1) <= Zpos p < 2 ^ Zpos (digits2_pos p).
Proof.
  induction p as [p IH | p IH |]; cbn [digits2_pos].
  - rewrite Pos2Z.inj_succ. change (Zpos p~1) with (2 * Zpos p + 1).
    replace (Z.succ (Zpos (digits2_pos p)) - 1) with (Z.succ (Zpos (digits2_pos p) - 1)) by lia.
    rewrite !Z.pow_succ_r by lia.
    destruct IH as [Hlo Hhi]. revert Hlo Hhi.
    generalize (2 ^ (Zpos (digits2_pos p) - 1)) (2 ^ Zpos (digits2_pos p)) (Zpos p).
    intros; lia.
  - rewrite Pos2Z.inj_succ. change (Zpos p~0) with (2 * Zpos p).
    replace (Z.succ (Zpos (digits2_pos p)) - 1) with (Z.succ (Zpos (digits2_pos p) - 1)) by lia.
    rewrite !Z.pow_succ_r by lia.
    destruct IH as [Hlo Hhi]. revert Hlo Hhi.
    generalize (2 ^ (Zpos (digits2_pos p) - 1)) (2 ^ Zpos (digits2_pos p)) (Zpos p).
    intros; lia.
  - cbn. lia.
Qed.

Lemma digits2_pos_unique (p : positive) (k : Z) :
  2 ^ (k - 1) <= Zpos p < 2 ^ k -> Zpos (digits2_pos p) = k.
Proof.
  intros [Hlo Hhi]. pose proof (digits2_pos_bounds p) as [Hlo' Hhi'].
  assert (Hk : 0 < k).
  { destruct (Z_lt_le_dec 0 k) as [| Hle]; [assumption |].
    exfalso.
    destruct (Z.eq_dec k 0) as [-> | Hne]; [cbn in Hhi; lia |].
    rewrite (Z.pow_neg_r 2 k) in Hhi by lia. lia. }
  destruct (Z.lt_trichotomy (Zpos (digits2_pos p)) k) as [Hlt | [Heq | Hgt]];
    [exfalso | exact Heq | exfalso].
  - assert (2 ^ Zpos (digits2_pos p) <= 2 ^ (k - 1)) by (apply Z.pow_le_mono_r; lia). lia.
  - assert (2 ^ k <= 2 ^ (Zpos (digits2_pos p) - 1)) by (apply Z.pow_le_mono_r; lia). lia.
Qed.

Lemma digits_small (p : positive) : Zpos p < 2 ^ 53 -> Zpos (digits2_pos p) <= 53.
Proof.
  intros H. pose proof (digits2_pos_bounds p) as [Hlo _].
  destruct (Z_le_gt_dec (Zpos (digits2_pos p)) 53) as [| Hgt]; [assumption | exfalso].
  assert (2 ^ 53 <= 2 ^ (Zpos (digits2_pos p) - 1)) by (apply Z.pow_le_mono_r; lia).
  lia.
Qed.

Lemma shr_1_m (mrs : shr_record) :
  0 <= shr_m mrs -> shr_m (shr_1 mrs) = shr_m mrs / 2.
Proof.
  destruct mrs as [m r s]. cbn [shr_m]. intros Hm.
  rewrite <- Z.div2_div.
  destruct m as [| [p | p |] | p]; try reflexivity. lia.
Qed.

Lemma iter_shr_1_m (n : positive) :
  forall mrs, 0 <= shr_m mrs ->
              shr_m (iter_pos shr_1 n mrs) = shr_m mrs / 2 ^ Zpos n.
Proof.
  induction n as [n IH | n IH |]; intros mrs Hm; cbn [iter_pos].
  - assert (H1 : 0 <= shr_m (shr_1 mrs)).
    { rewrite shr_1_m by exact Hm. apply Z.div_pos; lia. }
    assert (H2 : 0 <= shr_m (iter_pos shr_1 n (shr_1 mrs))).
    { rewrite IH by exact H1. apply Z.div_pos; [exact H1 | lia]. }
    rewrite IH by exact H2. rewrite IH by exact H1. rewrite shr_1_m by exact Hm.
    rewrite !Z.div_div by lia.
    f_equal. change (Zpos n~1) with (2 * Zpos n + 1).
    replace (2 * Zpos n + 1) with (1 + Zpos n + Zpos n) by lia.
    rewrite !Z.pow_add_r by lia. lia.
  - assert (H2 : 0 <= shr_m (iter_pos shr_1 n mrs)).
    { rewrite IH by exact Hm. apply Z.div_pos; [exact Hm | lia]. }
    rewrite IH by exact H2. rewrite IH by exact Hm.
    rewrite Z.div_div by lia.
    f_equal. change (Zpos n~0) with (2 * Zpos n).
    replace (2 * Zpos n) with (Zpos n + Zpos n) by lia.
    rewrite Z.pow_add_r by lia. reflexivity.
  - rewrite shr_1_m by exact Hm. reflexivity.
Qed.

Lemma shr_record_of_loc_m m l : shr_m (shr_record_of_loc m l) = m.
Proof. destruct l as [| [ | | ]]; reflexivity. Qed.

(** The mantissa and exponent after a shift by [n >= 0] places. *)
Lemma shr_m_e mrs e n :
  0 <= shr_m mrs -> 0 <= n ->
  shr_m (fst (shr mrs e n)) = shr_m mrs / 2 ^ n /\ snd (shr mrs e n) = e + n.
Proof.
  intros Hm Hn. destruct n as [| p | p]; cbn [shr fst snd]; [| | lia].
  - rewrite Z.div_1_r. lia.
  - split; [apply iter_shr_1_m; exact Hm | reflexivity].
Qed.

Lemma round_nearest_even_bounds m l :
  m <= round_nearest_even m l <= m + 1.
Proof.
  destruct l as [| [ | | ]]; cbn [round_nearest_even]; try lia.
  destruct (Z.even m); lia.
Qed.

Lemma bounded_53 (m : positive) (e : Z) :
  Zpos (digits2_pos m) = 53 -> -1074 <= e <= 971 -> bounded prec emax m e = true.
Proof.
  intros Hd He. unfold bounded, canonical_mantissa. rewrite fexp_eq, Hd.
  apply andb_true_intro. split; [apply Z.eqb_eq | apply Z.leb_le; cbn]; lia.
Qed.

(** Rounding a mantissa of at least 53 bits, away from the subnormals

    The result is an overflow or a valid normal number whose mantissa is
    the truncated one or its successor. *)
Lemma binary_round_aux_normal (s : bool) (q : positive) (e : Z) (l : location) :
  53 <= Zpos (digits2_pos q) ->
  -1074 <= e + Zpos (digits2_pos q) - 53 ->
  binary_round_aux prec emax s (Zpos q) e l = S754_infinity s
  \/ exists m e',
       binary_round_aux prec emax s (Zpos q) e l = S754_finite s m e'
       /\ bounded prec emax m e' = true
       /\ Zpos (digits2_pos m) = 53
       /\ ((e' = e + Zpos (digits2_pos q) - 53
            /\ Zpos q / 2 ^ (Zpos (digits2_pos q) - 53) <= Zpos m)
           \/ (e' = e + Zpos (digits2_pos q) - 53 + 1 /\ Zpos m = 2 ^ 52)).
Proof.
  intros Hd He.
  pose proof (digits2_pos_bounds q) as [Hlo Hhi].
  set (d := Zpos (digits2_pos q)) in *.
  set (n := d - 53).
  assert (Hn : 0 <= n) by (unfold n; lia).
  (* the truncated mantissa has 53 bits *)
  assert (Hm1 : 2 ^ 52 <= Zpos q / 2 ^ n < 2 ^ 53).
  { assert (Hp : 0 < 2 ^ n) by (apply Z.pow_pos_nonneg; lia).
    split.
    - apply Z.div_le_lower_bound; [exact Hp |].
      rewrite <- Z.pow_add_r by lia. replace (n + 52) with (d - 1) by (unfold n; lia).
      exact Hlo.
    - apply Z.div_lt_upper_bound; [exact Hp |].
      rewrite <- Z.pow_add_r by lia. replace (n + 53) with d by (unfold n; lia).
      exact Hhi. }
  unfold binary_round_aux, shr_fexp. cbn [Zdigits2]. fold d. rewrite fexp_eq.
  replace (Z.max (d + e - 53) (-1074) - e) with n by (unfold n; lia).
  pose proof (shr_m_e (shr_record_of_loc (Zpos q) l) e n) as Hshr.
  rewrite shr_record_of_loc_m in Hshr. specialize (Hshr ltac:(lia) Hn).
  destruct (shr (shr_record_of_loc (Zpos q) l) e n) as [mrs' e1].
  cbn [fst snd] in Hshr. destruct Hshr as [Hm' ->].
  pose proof (round_nearest_even_bounds (shr_m mrs') (loc_of_shr_record mrs')) as Hr.
  rewrite <- Hm' in Hm1 |- *. clear Hm'.
  change (2 ^ 52) with 4503599627370496 in *.
  change (2 ^ 53) with 9007199254740992 in *.
  revert Hm1 Hr. generalize (shr_m mrs'). intros m1 Hm1 Hr.
  destruct (round_nearest_even m1 (loc_of_shr_record mrs')) as [| m | m];
    [lia | | lia].
  destruct (Z_lt_le_dec (Zpos m) 9007199254740992) as [Hlt | Hge].
  - (* no carry *)
    assert (Hdm : Zpos (digits2_pos m) = 53).
    { apply digits2_pos_unique. change (2 ^ (53 - 1)) with 4503599627370496.
      change (2 ^ 53) with 9007199254740992. lia. }
    cbn [Zdigits2 shr_record_of_loc]. rewrite Hdm, fexp_eq.
    replace (Z.max (53 + (e + n) - 53) (-1074) - (e + n)) with 0 by (unfold n; lia).
    cbn [shr shr_m]. change (emax - prec) with 971.
    destruct (Z.leb_spec (e + n) 971) as [Hle | Hgt]; [right | left; reflexivity].
    exists m, (e + n). split; [reflexivity |].
    split; [apply bounded_53; [exact Hdm | unfold n; lia] |].
    split; [exact Hdm |].
    left. split; [unfold n; lia | lia].
  - (* the rounding carried into a 54th bit *)
    assert (Hm : Zpos m = 9007199254740992) by lia.
    injection Hm as ->.
    cbn [Zdigits2 shr_record_of_loc]. rewrite fexp_eq.
    change (Zpos (digits2_pos 9007199254740992)) with 54.
    replace (Z.max (54 + (e + n) - 53) (-1074) - (e + n)) with 1 by (unfold n; lia).
    cbn [shr iter_pos shr_1 shr_m orb]. change (emax - prec) with 971.
    destruct (Z.leb_spec (e + n + 1) 971) as [Hle | Hgt]; [right | left; reflexivity].
    exists 4503599627370496%positive, (e + n + 1). split; [reflexivity |].
    split; [apply bounded_53; [reflexivity | unfold n; lia] |].
    split; [reflexivity |].
    right. split; [unfold n; lia | reflexivity].
Qed.

Lemma SFltb_finite_false (m mc : positive) (e ec : Z) :
  ec < e \/ (e = ec /\ Zpos mc <= Zpos m) ->
  SFltb (S754_finite false m e) (S754_finite false mc ec) = false.
Proof.
  unfold SFltb. cbn [SFcompare].
  change (PosDef.Pos.compare_cont Eq m mc) with (Pos.compare m mc).
  intros [H | [-> H]].
  - destruct (Z.compare_spec e ec); try reflexivity; lia.
  - rewrite Z.compare_refl. destruct (Pos.compare_spec m mc); try reflexivity; lia.
Qed.

(** Rounding cannot take a value below a binary64 that it is at least
    equal to. *)
Lemma binary_round_aux_lower (q : positive) (e : Z) (l : location)
      (mc : positive) (ec : Z) :
  53 <= Zpos (digits2_pos q) ->
  -1074 <= ec ->
  Zpos (digits2_pos mc) = 53 ->
  (ec <= e /\ Zpos mc <= Zpos q * 2 ^ (e - ec))
  \/ (e < ec /\ Zpos mc * 2 ^ (ec - e) <= Zpos q) ->
  valid_binary (binary_round_aux prec emax false (Zpos q) e l) = true
  /\ SFltb (binary_round_aux prec emax false (Zpos q) e l)
           (S754_finite false mc ec) = false.
Proof.
  intros Hd Hec Hdc Hge.
  pose proof (digits2_pos_bounds q) as [Hlo Hhi].
  pose proof (digits2_pos_bounds mc) as [Hclo Hchi]. rewrite Hdc in Hclo, Hchi.
  change (2 ^ (53 - 1)) with 4503599627370496 in Hclo.
  set (d := Zpos (digits2_pos q)) in *.
  assert (Hexp : ec <= e + d - 53).
  { destruct Hge as [[H1 _] | [H1 H2]]; [lia |].
    destruct (Z_lt_le_dec (e + d - 53) ec) as [Hlt | ]; [exfalso | assumption].
    assert (Hp : 2 ^ d <= 2 ^ (52 + (ec - e))) by (apply Z.pow_le_mono_r; lia).
    rewrite Z.pow_add_r in Hp by lia. change (2 ^ 52) with 4503599627370496 in Hp.
    assert (0 < 2 ^ (ec - e)) by (apply Z.pow_pos_nonneg; lia).
    nia. }
  destruct (binary_round_aux_normal false q e l Hd ltac:(fold d; lia))
    as [-> | (m & e' & -> & Hb & Hdm & Hcase)]; [split; reflexivity |].
  split; [exact Hb |].
  apply SFltb_finite_false. fold d in Hcase.
  destruct Hcase as [[-> Hm] | [-> Hm]]; [| left; lia].
  destruct (Z.eq_dec (e + d - 53) ec) as [Heq | Hne]; [right | left; lia].
  split; [exact Heq |].
  eapply Z.le_trans; [| exact Hm].
  destruct Hge as [[H1 H2] | [H1 H2]].
  - assert (d = 53) by lia. assert (e = ec) by lia. subst e.
    replace (d - 53) with 0 by lia. rewrite Z.sub_diag in H2.
    rewrite Z.div_1_r. cbn in H2. lia.
  - replace (d - 53) with (ec - e) by lia.
    apply Z.div_le_lower_bound; [apply Z.pow_pos_nonneg; lia |].
    rewrite Z.mul_comm. exact H2.
Qed.

(** ** Binary64: integers, their quotient by 10000 and their tenth *)

Lemma iter_xO_spec (p k : positive) :
  Zpos (Pos.iter xO p k) = Zpos p * 2 ^ Zpos k
  /\ Zpos (digits2_pos (Pos.iter xO p k)) = Zpos (digits2_pos p) + Zpos k.
Proof.
  induction k as [| k [IH1 IH2]] using Pos.peano_ind.
  - cbn [Pos.iter digits2_pos]. rewrite Pos2Z.inj_succ.
    change (Zpos p~0) with (2 * Zpos p). change (2 ^ 1) with 2. lia.
  - rewrite Pos.iter_succ. cbn [digits2_pos]. rewrite !Pos2Z.inj_succ, IH2.
    change (Zpos (Pos.iter xO p k)~0) with (2 * Zpos (Pos.iter xO p k)).
    rewrite IH1, Z.pow_succ_r by lia. lia.
Qed.

(** An integer of [d <= 53] bits is the binary64 of mantissa
    [p * 2^(53-d)] and exponent [d - 53]. *)
Lemma binary_normalize_small (p : positive) :
  Zpos (digits2_pos p) <= 53 ->
  exists m : positive,
    binary_normalize prec emax (Zpos p) 0 false
    = S754_finite false m (Zpos (digits2_pos p) - 53)
    /\ Zpos m = Zpos p * 2 ^ (53 - Zpos (digits2_pos p))
    /\ Zpos (digits2_pos m) = 53.
Proof.
  intros Hd. unfold binary_normalize, binary_round, shl_align.
  rewrite fexp_eq.
  replace (Z.max (Zpos (digits2_pos p) + 0 - 53) (-1074) - 0)
    with (Zpos (digits2_pos p) - 53) by lia.
  replace (Z.max (Zpos (digits2_pos p) + 0 - 53) (-1074))
    with (Zpos (digits2_pos p) - 53) by lia.
  destruct (Zpos (digits2_pos p) - 53) as [| k | k] eqn:Ek; [| lia |].
  - exists p. assert (Hp : Zpos (digits2_pos p) = 53) by lia.
    rewrite binary_round_aux_canonical by (apply bounded_53; [exact Hp | lia]).
    rewrite Hp. cbn. split; [reflexivity |]. split; [lia | reflexivity].
  - destruct (iter_xO_spec p k) as [Hv Hdig].
    assert (Hk : Zpos k = 53 - Zpos (digits2_pos p)) by lia.
    exists (Pos.iter xO p k).
    rewrite binary_round_aux_canonical by (apply bounded_53; lia).
    rewrite <- Hk. split; [reflexivity |]. split; [exact Hv | lia].
Qed.

Lemma div_eucl_spec (a b : Z) : Z.div_eucl a b = (a / b, a mod b).
Proof. unfold Z.div, Z.modulo. destruct (Z.div_eucl a b); reflexivity. Qed.

(** Quotients by 10000 that are at least 0.95 *)

(** The doubles of two small integers. *)
Lemma SFdiv_10000_small (p : positive) :
  9500 <= Zpos p -> Zpos (digits2_pos p) <= 53 ->
  SFltb (SFdiv prec emax (binary_normalize prec emax (Zpos p) 0 false) SF_10000) SF_0_95
  = false.
Proof.
  intros Ht Hd.
  destruct (binary_normalize_small p Hd) as (m & -> & Hm & Hdm).
  pose proof (digits2_pos_bounds p) as [Hplo Hphi].
  set (d := Zpos (digits2_pos p)) in *.
  assert (Hd14 : 14 <= d).
  { destruct (Z_lt_le_dec d 14) as [Hlt |]; [exfalso | assumption].
    assert (2 ^ d <= 2 ^ 13) by (apply Z.pow_le_mono_r; lia).
    change (2 ^ 13) with 8192 in *. lia. }
  unfold SFdiv, SF_10000, SFdiv_core_binary. cbn [Zdigits2 xorb].
  rewrite Hdm, fexp_eq.
  change (Zpos (digits2_pos 5497558138880000)) with 53.
  replace (Z.min (Z.max (53 + (d - 53) - (53 + -39) - 53) (-1074)) (d - 53 - -39))
    with (d - 67) by lia.
  replace (d - 53 - -39 - (d - 67)) with 53 by lia.
  rewrite Z.shiftl_mul_pow2 by lia.
  rewrite div_eucl_spec.
  assert (Hmlo : 2 ^ 52 <= Zpos m).
  { pose proof (digits2_pos_bounds m) as [H _]. rewrite Hdm in H. exact H. }
  change (2 ^ 52) with 4503599627370496 in Hmlo.
  change (2 ^ 53) with 9007199254740992.
  assert (Hq : 4503599627370496 <= Zpos m * 9007199254740992 / 5497558138880000).
  { apply Z.div_le_lower_bound; lia. }
  destruct (Zpos m * 9007199254740992 / 5497558138880000) as [| q | q] eqn:Eq; [lia | | lia].
  apply binary_round_aux_lower; try reflexivity; try lia.
  - apply Z.le_trans with 53; [lia |].
    destruct (Z_lt_le_dec (Zpos (digits2_pos q)) 53) as [Hlt |]; [exfalso | assumption].
    pose proof (digits2_pos_bounds q) as [_ Hhi].
    assert (2 ^ Zpos (digits2_pos q) <= 2 ^ 52) by (apply Z.pow_le_mono_r; lia).
    change (2 ^ 52) with 4503599627370496 in *. lia.
  - left. split; [lia |].
    destruct (Z.eq_dec d 14) as [E14 | N14].
    + (* the binade of 0.95 *)
      replace (d - 67 - -53) with 0 by lia. rewrite Z.mul_1_r, <- Eq, Hm, E14.
      change (2 ^ (53 - 14)) with 549755813888.
      apply Z.div_le_lower_bound; lia.
    + assert (H2 : 2 ^ 1 <= 2 ^ (d - 67 - -53)) by (apply Z.pow_le_mono_r; lia).
      change (2 ^ 1) with 2 in H2. nia.
Qed.

(** The correctly rounded quotient of a larger integer. *)
Lemma SFdiv_10000_large (p : positive) :
  2 ^ 53 <= Zpos p ->
  valid_binary (SFdiv prec emax (S754_finite false p 0) (S754_finite false 10000 0)) = true
  /\ SFltb (SFdiv prec emax (S754_finite false p 0) (S754_finite false 10000 0)) SF_0_95
     = false.
Proof.
  intros Ht.
  pose proof (digits2_pos_bounds p) as [Hplo Hphi].
  set (d := Zpos (digits2_pos p)) in *.
  assert (Hd54 : 54 <= d).
  { destruct (Z_lt_le_dec d 54) as [Hlt |]; [exfalso | assumption].
    assert (2 ^ d <= 2 ^ 53) by (apply Z.pow_le_mono_r; lia). lia. }
  change (2 ^ 53) with 9007199254740992 in Ht.
  unfold SFdiv, SFdiv_core_binary. cbn [Zdigits2 xorb]. fold d.
  rewrite fexp_eq.
  change (Zpos (digits2_pos 10000)) with 14.
  replace (Z.min (Z.max (d + 0 - (14 + 0) - 53) (-1074)) (0 - 0))
    with (Z.min (d - 67) 0) by lia.
  assert (Hq : forall q : Z,
             4503599627370496 <= q ->
             exists q' : positive, q = Zpos q' /\ 53 <= Zpos (digits2_pos q')).
  { intros q Hq. destruct q as [| q' | q']; [lia | | lia].
    exists q'. split; [reflexivity |].
    destruct (Z_lt_le_dec (Zpos (digits2_pos q')) 53) as [Hlt |]; [exfalso | assumption].
    pose proof (digits2_pos_bounds q') as [_ Hhi].
    assert (2 ^ Zpos (digits2_pos q') <= 2 ^ 52) by (apply Z.pow_le_mono_r; lia).
    change (2 ^ 52) with 4503599627370496 in *. lia. }
  destruct (Z_lt_le_dec d 67) as [Hlt | Hge].
  - (* the dividend is shifted to 67 bits *)
    replace (Z.min (d - 67) 0) with (d - 67) by lia.
    replace (0 - 0 - (d - 67)) with (67 - d) by lia.
    destruct (67 - d) as [| k | k] eqn:Ek; [lia | | lia].
    rewrite Z.shiftl_mul_pow2 by lia. rewrite div_eucl_spec.
    assert (Hm' : 2 ^ 66 <= Zpos p * 2 ^ Zpos k).
    { replace 66 with ((d - 1) + Zpos k) by lia. rewrite Z.pow_add_r by lia.
      apply Z.mul_le_mono_nonneg_r; [apply Z.pow_nonneg; lia | exact Hplo]. }
    change (2 ^ 66) with 73786976294838206464 in Hm'.
    destruct (Hq (Zpos p * 2 ^ Zpos k / 10000)) as (q & -> & Hdq).
    { apply Z.div_le_lower_bound; lia. }
    apply binary_round_aux_lower; try reflexivity; try lia.
    left. split; [lia |].
    pose proof (digits2_pos_bounds q) as [Hqlo _].
    assert (H52 : 2 ^ 52 <= 2 ^ (Zpos (digits2_pos q) - 1)) by (apply Z.pow_le_mono_r; lia).
    assert (H2 : 2 ^ 1 <= 2 ^ (d - 67 - -53)) by (apply Z.pow_le_mono_r; lia).
    change (2 ^ 52) with 4503599627370496 in H52. change (2 ^ 1) with 2 in H2. nia.
  - replace (Z.min (d - 67) 0) with 0 by lia.
    cbn [Z.sub Z.opp Z.add]. rewrite div_eucl_spec.
    assert (Hp' : 2 ^ 66 <= Zpos p).
    { eapply Z.le_trans; [| exact Hplo]. apply Z.pow_le_mono_r; lia. }
    change (2 ^ 66) with 73786976294838206464 in Hp'.
    destruct (Hq (Zpos p / 10000)) as (q & -> & Hdq).
    { apply Z.div_le_lower_bound; lia. }
    apply binary_round_aux_lower; try reflexivity; lia.
Qed.

(** The binary64 of a positive integer, and its tenth *)
Lemma binary_normalize_pos (p : positive) :
  binary_normalize prec emax (Zpos p) 0 false = S754_infinity false
  \/ exists m e,
       binary_normalize prec emax (Zpos p) 0 false = S754_finite false m e
       /\ bounded prec emax m e = true
       /\ Zpos (digits2_pos m) = 53
       /\ ((e = Zpos (digits2_pos p) - 53
            /\ Zpos m = Zpos p * 2 ^ (53 - Zpos (digits2_pos p))
            /\ Zpos (digits2_pos p) <= 53)
           \/ 1 <= e).
Proof.
  destruct (Z_le_gt_dec (Zpos (digits2_pos p)) 53) as [Hd | Hd].
  - right. destruct (binary_normalize_small p Hd) as (m & E & Hm & Hdm).
    exists m, (Zpos (digits2_pos p) - 53). split; [exact E |].
    split; [apply bounded_53; [exact Hdm | lia] |].
    split; [exact Hdm |]. left. repeat split; assumption.
  - unfold binary_normalize, binary_round, shl_align. rewrite fexp_eq.
    replace (Z.max (Zpos (digits2_pos p) + 0 - 53) (-1074) - 0)
      with (Zpos (digits2_pos p) - 53) by lia.
    destruct (Zpos (digits2_pos p) - 53) as [| k | k] eqn:Ek; [lia | | lia].
    destruct (binary_round_aux_normal false p 0 loc_Exact ltac:(lia) ltac:(lia))
      as [-> | (m & e & -> & Hb & Hdm & Hcase)]; [left; reflexivity | right].
    exists m, e. repeat split; try assumption. right. lia.
Qed.

(** A tenth of the double of an integer from 3 on is not below 0.3. *)
Lemma SFmul_tenth_ge (p : positive) :
  3 <= Zpos p ->
  binary_normalize prec emax (Zpos p) 0 false = S754_infinity false
  \/ (valid_binary (binary_normalize prec emax (Zpos p) 0 false) = true
      /\ SFltb (SFmul prec emax (binary_normalize prec emax (Zpos p) 0 false) SF_0_1)
               SF_0_3 = false).
Proof.
  intros Hp.
  destruct (binary_normalize_pos p) as [-> | (m & e & -> & Hb & Hdm & Hcase)];
    [left; reflexivity | right].
  split; [exact Hb |].
  unfold SFmul, SF_0_1. cbn [xorb].
  pose proof (digits2_pos_bounds m) as [Hmlo _]. rewrite Hdm in Hmlo.
  change (2 ^ (53 - 1)) with 4503599627370496 in Hmlo.
  assert (Hq : 53 <= Zpos (digits2_pos (m * 7205759403792794))).
  { destruct (Z_lt_le_dec (Zpos (digits2_pos (m * 7205759403792794))) 53) as [Hlt |];
      [exfalso | assumption].
    pose proof (digits2_pos_bounds (m * 7205759403792794)) as [_ Hhi].
    assert (2 ^ Zpos (digits2_pos (m * 7205759403792794)) <= 2 ^ 52)
      by (apply Z.pow_le_mono_r; lia).
    change (2 ^ 52) with 4503599627370496 in *.
    rewrite Pos2Z.inj_mul in Hhi. nia. }
  apply binary_round_aux_lower; try reflexivity; try lia.
  rewrite Pos2Z.inj_mul.
  destruct (Z_le_gt_dec 2 e) as [He2 | He2].
  - left. split; [lia |].
    assert (H1 : 2 ^ 0 <= 2 ^ (e + -56 - -54)) by (apply Z.pow_le_mono_r; lia).
    change (2 ^ 0) with 1 in H1. nia.
  - right. split; [lia |].
    replace (-54 - (e + -56)) with (2 - e) by lia.
    destruct Hcase as [(-> & Hm & Hd) | He1].
    + rewrite Hm.
      replace (2 - (Zpos (digits2_pos p) - 53)) with (2 + (53 - Zpos (digits2_pos p))) by lia.
      rewrite Z.pow_add_r by lia. change (2 ^ 2) with 4.
      assert (0 < 2 ^ (53 - Zpos (digits2_pos p))) by (apply Z.pow_pos_nonneg; lia).
      nia.
    + assert (e = 1) by lia. subst e. change (2 ^ (2 - 1)) with 2. nia.
Qed.

(** ** The bounded stores *)

Section BoundedStore.

Context {A : Type}.
Variable cap : Z.
Hypothesis cap_pos : 0 < cap.

Lemma len_app (l l' : list A) : Py.len (l ++ l') = Py.len l + Py.len l'.
Proof. unfold Py.len. rewrite length_app. lia. Qed.

Lemma len_slice_last (n : Z) (l : list A) :
  0 <= n -> Py.len (Py.slice_last n l) = Z.min n (Py.len l).
Proof.
  intros Hn. unfold Py.slice_last, Py.len. rewrite length_skipn. lia.
Qed.

Lemma slice_last_short (n : Z) (l : list A) :
  Py.len l <= n -> Py.slice_last n l = l.
Proof.
  intros H. unfold Py.slice_last.
  replace (Z.to_nat (Py.len l - n)) with 0%nat by lia. reflexivity.
Qed.

(** Truncating after every append keeps what truncating once at the end
    keeps. *)
Lemma slice_last_snoc (l : list A) (x : A) :
  Py.slice_last cap (Py.slice_last cap l ++ [x]) = Py.slice_last cap (l ++ [x]).
Proof.
  unfold Py.slice_last at 1 3.
  rewrite !len_app, len_slice_last by lia.
  unfold Py.slice_last.
  assert (Hx : Py.len [x] = 1) by reflexivity. rewrite Hx.
  destruct (Z_le_gt_dec (Py.len l) cap) as [Hle | Hgt].
  - replace (Z.to_nat (Py.len l - cap)) with 0%nat by lia.
    rewrite Z.min_r by lia. reflexivity.
  - rewrite Z.min_l by lia.
    rewrite !skipn_app, skipn_skipn, length_skipn.
    f_equal; f_equal; unfold Py.len in *; lia.
Qed.

Lemma push_slice_last (l : list A) (x : A) :
  push cap (Py.slice_last cap l) x = Py.slice_last cap (l ++ [x]).
Proof.
  unfold push.
  destruct (Z.ltb_spec cap (Py.len (Py.slice_last cap l ++ [x]))) as [H | H].
  - apply slice_last_snoc.
  - rewrite <- slice_last_snoc. symmetry. apply slice_last_short. exact H.
Qed.

Lemma len_push (l : list A) (x : A) : Py.len (push cap l x) <= cap.
Proof.
  unfold push. destruct (Z.ltb_spec cap (Py.len (l ++ [x]))) as [H | H].
  - rewrite len_slice_last by lia. lia.
  - exact H.
Qed.

(** What [l[-cap:]] drops is the front of the list. *)
Lemma slice_last_evicts (l : list A) :
  exists evicted,
    l = evicted ++ Py.slice_last cap l
    /\ Py.len evicted = Z.max 0 (Py.len l - cap).
Proof.
  exists (firstn (Z.to_nat (Py.len l - cap)) l). split.
  - unfold Py.slice_last. symmetry. apply firstn_skipn.
  - unfold Py.len. rewrite length_firstn. lia.
Qed.

End BoundedStore.

Lemma upload_store (st : State) batch now now' :
  TELEMETRY_STORE (fst (upload_telemetry st batch now now'))
  = push 10000 (TELEMETRY_STORE st) (StoredBatch.of_batch batch now)
  /\ THREAT_DATABASE (fst (upload_telemetry st batch now now')) = THREAT_DATABASE st.
Proof. split; reflexivity. Qed.

Lemma report_store (st : State) threat now :
  THREAT_DATABASE (fst (report_threat st threat now))
  = push 1000 (THREAT_DATABASE st) (StoredThreat.of_report threat now)
  /\ TELEMETRY_STORE (fst (report_threat st threat now)) = TELEMETRY_STORE st.
Proof. split; reflexivity. Qed.

Lemma run_snoc (ops : list Insert) (op : Insert) :
  run (ops ++ [op]) = insert (run ops) op.
Proof. unfold run. rewrite fold_left_app. reflexivity. Qed.

Lemma uploaded_snoc ops op :
  uploaded (ops ++ [op]) =
  uploaded ops ++ match op with
                  | Upload batch now _ => [StoredBatch.of_batch batch now]
                  | Report _ _ => []
                  end.
Proof. unfold uploaded. rewrite flat_map_app. simpl. rewrite app_nil_r. reflexivity. Qed.

Lemma reported_snoc ops op :
  reported (ops ++ [op]) =
  reported ops ++ match op with
                  | Upload _ _ _ => []
                  | Report threat now => [StoredThreat.of_report threat now]
                  end.
Proof. unfold reported. rewrite flat_map_app. simpl. rewrite app_nil_r. reflexivity. Qed.

(** Each store holds the last entries of everything inserted into it. *)
Lemma run_stores (ops : list Insert) :
  TELEMETRY_STORE (run ops) = Py.slice_last 10000 (uploaded ops)
  /\ THREAT_DATABASE (run ops) = Py.slice_last 1000 (reported ops).
Proof.
  induction ops as [| op ops [IHt IHd]] using rev_ind.
  - split; reflexivity.
  - rewrite run_snoc, uploaded_snoc, reported_snoc.
    destruct op as [batch now now' | threat now]; cbn [insert].
    + destruct (upload_store (run ops) batch now now') as [-> ->].
      rewrite IHt, IHd, app_nil_r. split; [| reflexivity].
      apply push_slice_last. lia.
    + destruct (report_store (run ops) threat now) as [-> ->].
      rewrite IHt, IHd, app_nil_r. split; [reflexivity |].
      apply push_slice_last. lia.
Qed.

(** C5. Whatever was inserted before, the store an insert has written holds
    at most 10,000 batches, respectively 1,000 threats; after any sequence
    of inserts into the empty stores both bounds hold, each store is what
    remains of the inserted entries, in insertion order, once the oldest
    ones in excess of the capacity are dropped. *)
Theorem bounded_stores (ops : list Insert) :
  (forall st batch now now',
      Py.len (TELEMETRY_STORE (fst (upload_telemetry st batch now now'))) <= 10000)
  /\ (forall st threat now,
        Py.len (THREAT_DATABASE (fst (report_threat st threat now))) <= 1000)
  /\ Py.len (TELEMETRY_STORE (run ops)) <= 10000
  /\ Py.len (THREAT_DATABASE (run ops)) <= 1000
  /\ (exists evicted,
        uploaded ops = evicted ++ TELEMETRY_STORE (run ops)
        /\ Py.len evicted = Z.max 0 (Py.len (uploaded ops) - 10000))
  /\ (exists evicted,
        reported ops = evicted ++ THREAT_DATABASE (run ops)
        /\ Py.len evicted = Z.max 0 (Py.len (reported ops) - 1000)).
Proof.
  destruct (run_stores ops) as [Ht Hd]. rewrite Ht, Hd.
  split; [| split]; [| | split; [| split; [| split]]].
  - intros st batch now now'.
    destruct (upload_store st batch now now') as [-> _]. apply len_push. lia.
  - intros st threat now.
    destruct (report_store st threat now) as [-> _]. apply len_push. lia.
  - rewrite len_slice_last by lia. lia.
  - rewrite len_slice_last by lia. lia.
  - apply slice_last_evicts. lia.
  - apply slice_last_evicts. lia.
Qed.

(** ** The interval anomaly detector *)

(** The loop that appends is the comprehension that filters. *)
Lemma detection_loop (test : float -> bool) (l : list float) :
  forall (k : nat) (acc : list string),
    fold_left
      (fun anomalies '(i, interval) =>
         if test interval then anomalies ++ [gap_message i] else anomalies)
      (combine (seq k (List.length l)) l) acc
    = acc ++ map (fun p => gap_message (fst p))
                 (filter (fun p => test (snd p)) (combine (seq k (List.length l)) l)).
Proof.
  induction l as [| x l IH]; intros k acc.
  - cbn. now rewrite app_nil_r.
  - cbn [List.length seq combine fold_left filter snd].
    rewrite IH. destruct (test x).
    + cbn [map fst]. now rewrite <- app_assoc.
    + reflexivity.
Qed.

Lemma detect_anomalies_outliers intervals :
  detect_anomalies intervals = map (fun p => gap_message (fst p)) (outliers intervals).
Proof.
  unfold detect_anomalies, outliers.
  destruct intervals as [| x l] eqn:E; [reflexivity |].
  rewrite <- E. unfold Py.enumerate.
  apply (detection_loop (is_outlier (Np.mean intervals) (Np.std intervals)) intervals 0 []).
Qed.

Lemma enumerate_nth_error {A} (l : list A) :
  forall k i x, nth_error l i = Some x ->
                nth_error (combine (seq k (List.length l)) l) i = Some ((k + i)%nat, x).
Proof.
  induction l as [| y l IH]; intros k i x.
  - destruct i; discriminate.
  - destruct i as [| i]; cbn.
    + intros [= <-]. do 2 f_equal. lia.
    + intros H. rewrite (IH (S k) i x H). do 2 f_equal. lia.
Qed.

Lemma map_fst_filter_enumerate {A} (f : nat * A -> bool) (l : list A) :
  forall k, StronglySorted lt (map fst (filter f (combine (seq k (List.length l)) l))).
Proof.
  induction l as [| x l IH]; intros k; cbn; [constructor |].
  destruct (f (k, x)); cbn; [constructor |]; try apply IH.
  apply Forall_forall. intros i Hi. apply in_map_iff in Hi.
  destruct Hi as ([i' y] & <- & Hin). apply filter_In in Hin. destruct Hin as [Hin _].
  apply in_combine_l in Hin. apply in_seq in Hin. cbn. lia.
Qed.

(** A deviation from a mean that equals the interval is never an outlier,
    whatever the variance. *)
Lemma is_outlier_mean_exact (mean_interval variance interval : float) :
  (mean_interval =? interval)%float = true ->
  is_outlier mean_interval (sqrt variance) interval = false.
Proof.
  intros H. unfold is_outlier.
  rewrite ltb_spec, mul_spec, sqrt_spec, abs_spec, sub_spec.
  apply SFltb_zero_or_nan.
  - change (Prim2SF 3) with SF_3.
    apply SFmul_not_negative, SFsqrt_not_negative.
  - apply SFsub_eqb. rewrite eqb_spec in H.
    unfold SFeqb in *. rewrite SFcompare_antisym.
    destruct (SFcompare (Prim2SF mean_interval) (Prim2SF interval)) as [[ | | ] |];
      cbn; congruence.
Qed.

Lemma is_outlier_nan (mean_interval variance interval : float) :
  is_nan interval = true ->
  is_outlier mean_interval (sqrt variance) interval = false.
Proof.
  intros H. apply is_nan_spec in H. unfold is_outlier.
  rewrite ltb_spec, mul_spec, sqrt_spec, abs_spec, sub_spec, H.
  apply SFltb_zero_or_nan; [| reflexivity].
  change (Prim2SF 3) with SF_3.
  apply SFmul_not_negative, SFsqrt_not_negative.
Qed.

Lemma filter_none {A} (f : A -> bool) (l : list A) :
  (forall x, In x l -> f x = false) -> filter f l = [].
Proof.
  induction l as [| a l IH]; intros H; [reflexivity |].
  cbn. rewrite (H a (or_introl eq_refl)). apply IH.
  intros x Hx. apply H. right. exact Hx.
Qed.

Lemma outliers_none intervals :
  Forall (fun x => is_outlier (Np.mean intervals) (Np.std intervals) x = false) intervals ->
  detect_anomalies intervals = [].
Proof.
  intros H. rewrite detect_anomalies_outliers. unfold outliers.
  rewrite filter_none; [reflexivity |].
  intros [i x] Hin. cbn [snd].
  unfold Py.enumerate in Hin. apply in_combine_r in Hin.
  rewrite Forall_forall in H. exact (H x Hin).
Qed.

Lemma batch_intervals_short device_batches :
  Py.len device_batches < 2 -> batch_intervals device_batches = [].
Proof.
  destruct device_batches as [| b1 [| b2 l]]; try reflexivity.
  unfold Py.len. cbn [List.length]. lia.
Qed.

Lemma len_batch_intervals device_batches :
  Py.len (batch_intervals device_batches) = Z.max 0 (Py.len device_batches - 1).
Proof.
  unfold Py.len.
  induction device_batches as [| prev rest IH]; [reflexivity |].
  destruct rest as [| cur rest']; [reflexivity |].
  cbn [batch_intervals List.length] in *. lia.
Qed.

(** One interval. *)
Lemma mean_single (g : float) : Np.mean [g] = ((0 + (0 + g)) / 1)%float.
Proof. reflexivity. Qed.

Lemma std_single (g : float) :
  Np.std [g] =
  sqrt ((0 + (0 + (g - Np.mean [g]) * (g - Np.mean [g])) ) / 1)%float.
Proof. reflexivity. Qed.

Lemma mean_single_eqb (g : float) :
  is_nan g = false -> (Np.mean [g] =? g)%float = true.
Proof.
  intros Hn. rewrite mean_single, eqb_spec, div_spec, !add_spec.
  change (Prim2SF 0) with (S754_zero false).
  change (Prim2SF 1) with SF_1.
  pose proof (Prim2SF_valid g) as Hv.
  assert (Hg : Prim2SF g <> S754_nan).
  { intros E. apply is_nan_spec in E. congruence. }
  unfold SF64div, SF64add.
  destruct (Prim2SF g) as [[|] | [|] | | s m e]; try reflexivity; try congruence.
  cbn [SFadd]. rewrite SFdiv_one by exact Hv.
  unfold SFeqb. rewrite SFcompare_refl by discriminate. reflexivity.
Qed.

Lemma is_outlier_single (g : float) :
  is_outlier (Np.mean [g]) (Np.std [g]) g = false.
Proof.
  unfold Np.std. destruct (is_nan g) eqn:Hn.
  - apply is_outlier_nan. exact Hn.
  - apply is_outlier_mean_exact, mean_single_eqb. exact Hn.
Qed.

Lemma detect_anomalies_single (g : float) : detect_anomalies [g] = [].
Proof.
  apply outliers_none. constructor; [apply is_outlier_single | constructor].
Qed.

Lemma is_finite_spec (x : float) :
  is_finite x = true ->
  (exists s, Prim2SF x = S754_zero s) \/ (exists s m e, Prim2SF x = S754_finite s m e).
Proof.
  unfold is_finite, is_infinity. intros H. apply negb_true_iff, orb_false_elim in H.
  destruct H as [Hn Hi].
  rewrite eqb_spec, abs_spec in Hi.
  change (Prim2SF infinity) with (S754_infinity false) in Hi.
  destruct (Prim2SF x) as [s | s | | s m e] eqn:E; eauto.
  - destruct s; discriminate.
  - apply (proj2 (is_nan_spec x)) in E. congruence.
Qed.

(** With one finite interval the standard deviation is exactly 0. *)
Lemma std_single_zero (g : float) : is_finite g = true -> Np.std [g] = 0%float.
Proof.
  intros Hf. apply Prim2SF_inj.
  rewrite std_single, mean_single.
  rewrite sqrt_spec, div_spec, !add_spec, mul_spec, sub_spec, div_spec, !add_spec.
  change (Prim2SF 0) with (S754_zero false).
  change (Prim2SF 1) with SF_1.
  pose proof (Prim2SF_valid g) as Hv.
  unfold SF64sqrt, SF64div, SF64add, SF64mul, SF64sub.
  destruct (is_finite_spec g Hf) as [[s E] | (s & m & e & E)]; rewrite E in *.
  - destruct s; reflexivity.
  - cbn [SFadd]. rewrite SFdiv_one by exact Hv.
    unfold SFsub. rewrite Z.sub_diag. reflexivity.
Qed.

(** With one interval that is an infinity or a NaN it is a NaN. *)
Lemma std_single_nan (g : float) : is_finite g = false -> is_nan (Np.std [g]) = true.
Proof.
  intros Hf. apply is_nan_spec.
  rewrite std_single, mean_single.
  rewrite sqrt_spec, div_spec, !add_spec, mul_spec, sub_spec, div_spec, !add_spec.
  change (Prim2SF 0) with (S754_zero false).
  change (Prim2SF 1) with SF_1.
  assert (Hg : Prim2SF g = S754_nan \/ exists s, Prim2SF g = S754_infinity s).
  { destruct (Prim2SF g) as [s | s | | s m e] eqn:E; eauto; exfalso.
    - assert (H : is_finite g = true); [| congruence].
      unfold is_finite, is_infinity. rewrite eqb_spec, abs_spec, E.
      replace (is_nan g) with false; [destruct s; reflexivity |].
      symmetry. apply not_true_is_false. rewrite is_nan_spec, E. discriminate.
    - assert (H : is_finite g = true); [| congruence].
      unfold is_finite, is_infinity. rewrite eqb_spec, abs_spec, E.
      replace (is_nan g) with false; [destruct s; reflexivity |].
      symmetry. apply not_true_is_false. rewrite is_nan_spec, E. discriminate. }
  destruct Hg as [-> | [s ->]]; [reflexivity | destruct s; reflexivity].
Qed.

Lemma neq_of_Leibniz (x y : float) : PrimFloat.Leibniz.eqb x y = false -> x <> y.
Proof.
  intros H E. apply FloatAxioms.Leibniz.eqb_spec in E. congruence.
Qed.

(** C2, as the code has it. The indicators are the messages of the outlying
    gaps in gap order, and the number in a message is the position of the
    gap counted from 0, as [enumerate] counts: gap [i] lies between batch
    [i] and batch [i + 1] of the matched sequence. *)
Theorem indicators_number_gaps_from_zero (intervals : list float) :
  detect_anomalies intervals = map (fun p => gap_message (fst p)) (outliers intervals)
  /\ (forall i interval,
        nth_error intervals i = Some interval ->
        (is_outlier (Np.mean intervals) (Np.std intervals) interval = true
         <-> In (i, interval) (outliers intervals)))
  /\ StronglySorted lt (map fst (outliers intervals))
  /\ (forall store req now now' r,
        request_analysis store req now now' = Py.Ok (AnalysisResponse.complete r) ->
        exists device_batches,
          matched_batches store req now = Py.Ok device_batches
          /\ AnalysisResponse.indicators r
             = detect_anomalies (batch_intervals device_batches)).
Proof.
  split; [apply detect_anomalies_outliers |].
  split; [| split].
  - intros i interval Hi. unfold outliers, Py.enumerate. rewrite filter_In. cbn [snd].
    split.
    + intros Ho. split; [| exact Ho].
      apply (nth_error_In _ i). rewrite (enumerate_nth_error _ 0 i interval Hi).
      reflexivity.
    + intros [_ Ho]. exact Ho.
  - apply map_fst_filter_enumerate.
  - intros store req now now' r H. apply request_analysis_complete in H.
    destruct H as (h & w & s & c & Hh & Hw & _ & _ & _ & ->).
    exists (device_batches_since store (AnalysisRequest.device_id req) (now - w)%float).
    split; [| reflexivity].
    unfold matched_batches. rewrite Hh, Hw. reflexivity.
Qed.

(** C2 as stated fails. In [wide_gap_store] the only outlier is the
    eleventh gap, which is gap 10 counted from 0; the indicator says 10,
    and there is no indicator that says 11. *)
Lemma eleventh_gap_reported_as_10 :
  request_analysis wide_gap_store day_request 2000 2001
  = Py.Ok (AnalysisResponse.complete wide_gap_answer)
  /\ AnalysisResponse.indicators wide_gap_answer
     = ["Unusual gap in telemetry at batch 10"]
  /\ outliers (batch_intervals wide_gap_store) = [(10%nat, 11%float)]
  /\ nth_error (batch_intervals wide_gap_store) 10 = Some 11%float
  /\ ~ In (gap_message 11) (AnalysisResponse.indicators wide_gap_answer).
Proof.
  split; [vm_compute; reflexivity |].
  split; [reflexivity |]. split; [vm_compute; reflexivity |].
  split; [vm_compute; reflexivity |].
  intros [H | []]. vm_compute in H. discriminate H.
Qed.

(** ** Error analysis: identical gaps *)

Lemma scaled_pos m e : -1200 <= e -> 0 < scaled m e.
Proof.
  intros He. unfold scaled.
  assert (0 < 2 ^ (e + 1200)) by (apply Z.pow_pos_nonneg; lia). nia.
Qed.

Lemma pow_factors (K : nat) :
  0 < (2 ^ 52 - 1) ^ Z.of_nat K <= (2 ^ 52) ^ Z.of_nat K.
Proof.
  split.
  - apply Z.pow_pos_nonneg; [reflexivity | lia].
  - apply Z.pow_le_mono_l. split; [discriminate | discriminate].
Qed.

Lemma lower_weaken (K K' : nat) x v v' :
  (K <= K')%nat -> 0 <= v' <= v -> lower K x v -> lower K' x v'.
Proof.
  intros HK [Hv' Hv] [-> | (m & e & -> & Hb & H)]; [left; reflexivity | right].
  exists m, e. repeat split; try assumption.
  replace (Z.of_nat K') with (Z.of_nat (K' - K) + Z.of_nat K) by lia.
  rewrite !Z.pow_add_r by lia.
  pose proof (pow_factors K) as [Hc Hcb].
  pose proof (pow_factors (K' - K)) as [Hc' Hcb'].
  revert H Hc Hcb Hc' Hcb'.
  generalize ((2 ^ 52 - 1) ^ Z.of_nat K) ((2 ^ 52) ^ Z.of_nat K)
             ((2 ^ 52 - 1) ^ Z.of_nat (K' - K)) ((2 ^ 52) ^ Z.of_nat (K' - K))
             (scaled m e).
  intros c b c' b' V H Hc Hcb Hc' Hcb'.
  assert (0 <= V) by nia.
  assert (c * v' <= b * V) by nia.
  assert (c' * (c * v') <= c' * (b * V)) by nia.
  assert (c' * (b * V) <= b' * (b * V)) by nia.
  nia.
Qed.

(** Rounding to nearest loses at most one part in [2^52]. *)
Lemma round_lower (q : positive) (e : Z) (l : location) :
  53 <= Zpos (digits2_pos q) -> -1200 <= e ->
  -1074 <= e + Zpos (digits2_pos q) - 53 ->
  lower 1 (binary_round_aux prec emax false (Zpos q) e l) (Zpos q * 2 ^ (e + 1200)).
Proof.
  intros Hd He Hn.
  destruct (binary_round_aux_normal false q e l Hd Hn)
    as [-> | (m & e' & -> & Hb & Hdm & Hcase)]; [left; reflexivity | right].
  exists m, e'. repeat split; try assumption.
  change (Z.of_nat 1) with 1. rewrite !Z.pow_1_r. unfold scaled.
  pose proof (digits2_pos_bounds q) as [Hlo Hhi].
  set (k := Zpos (digits2_pos q) - 53) in *.
  assert (Hk : 0 <= k) by (unfold k; lia).
  assert (Hp : 0 < 2 ^ (e + 1200)) by (apply Z.pow_pos_nonneg; lia).
  assert (Hpk : 0 < 2 ^ k) by (apply Z.pow_pos_nonneg; lia).
  replace (Zpos (digits2_pos q) - 1) with (k + 52) in Hlo by (unfold k; lia).
  replace (Zpos (digits2_pos q)) with (k + 53) in Hhi by (unfold k; lia).
  rewrite Z.pow_add_r in Hlo, Hhi by lia.
  change (2 ^ 52) with 4503599627370496 in *.
  change (2 ^ 53) with 9007199254740992 in *.
  destruct Hcase as [[-> Hm] | [-> Hm]].
  - replace (e + Zpos (digits2_pos q) - 53 + 1200) with (k + (e + 1200)) by (unfold k; lia).
    rewrite (Z.pow_add_r 2 k (e + 1200)) by lia.
    fold k in Hm.
    assert (Hdiv : Zpos q < (Zpos q / 2 ^ k + 1) * 2 ^ k).
    { pose proof (Z.mul_succ_div_gt (Zpos q) (2 ^ k) Hpk). lia. }
    revert Hlo Hhi Hm Hdiv Hp Hpk.
    generalize (Zpos m) (Zpos q) (2 ^ (e + 1200)) (2 ^ k) (Zpos q / 2 ^ k).
    intros M Q S P t Hlo Hhi Hm Hdiv Hp Hpk.
    assert (H1 : t * P <= M * P) by (apply Z.mul_le_mono_nonneg_r; lia).
    assert (H2 : 4503599627370495 * Q <= 4503599627370496 * (M * P)) by lia.
    apply Z.mul_le_mono_nonneg_r with (p := S) in H2; [| lia].
    lia.
  - replace (e + Zpos (digits2_pos q) - 53 + 1 + 1200) with (k + 1 + (e + 1200))
      by (unfold k; lia).
    rewrite (Z.pow_add_r 2 (k + 1) (e + 1200)), (Z.pow_add_r 2 k 1) by lia.
    rewrite Hm. change (2 ^ 1) with 2.
    change (2 ^ 52) with 4503599627370496.
    revert Hlo Hhi Hp Hpk.
    generalize (2 ^ k) (2 ^ (e + 1200)) (Zpos q).
    intros P S Q Hlo Hhi Hp Hpk.
    assert (H2 : 4503599627370495 * Q <= 4503599627370496 * (4503599627370496 * (P * 2)))
      by lia.
    apply Z.mul_le_mono_nonneg_r with (p := S) in H2; [| lia].
    lia.
Qed.

(** ** Sums of one repeated value

    What [pairwise_sum] keeps of a property of partial sums that every
    addition preserves: [P K k x] reads "[x] stands for [k] items and went
    through at most [K] roundings". *)
Section PairwiseSum.

Variable P : nat -> nat -> float -> Prop.
Variable K0 : nat.
Hypothesis P_zero : forall K, P K 0 0%float.
Hypothesis P_weaken : forall K K' k x, (K <= K')%nat -> P K k x -> P K' k x.
Hypothesis P_add :
  forall K j k x y, P K j x -> P K k y -> P (S K) (j + k) (x + y)%float.

Lemma accumulate_P (a : list float) :
  forall res K k,
    (K0 <= K)%nat -> P K k res -> Forall (P K0 1) a ->
    P (K + List.length a) (k + List.length a) (Np.accumulate res a).
Proof.
  unfold Np.accumulate.
  induction a as [| x a IH]; intros res K k HK Hres Ha; cbn [fold_left List.length].
  - rewrite !Nat.add_0_r. exact Hres.
  - inversion Ha as [| ? ? Hx Ha']; subst.
    replace (K + S (List.length a))%nat with (S K + List.length a)%nat by lia.
    replace (k + S (List.length a))%nat with ((k + 1) + List.length a)%nat by lia.
    apply IH; [lia | | exact Ha'].
    apply P_add; [exact Hres | apply (P_weaken K0); assumption].
Qed.

Lemma lanes_P (n : nat) :
  forall a r K k,
    (List.length a <= n)%nat -> List.length r = 8%nat -> (K0 <= K)%nat ->
    Forall (P K k) r -> Forall (P K0 1) a ->
    exists j,
      List.length (fst (Np.lanes r a)) = 8%nat
      /\ Forall (P (K + j) (k + j)) (fst (Np.lanes r a))
      /\ Forall (P K0 1) (snd (Np.lanes r a))
      /\ List.length a = (8 * j + List.length (snd (Np.lanes r a)))%nat.
Proof.
  induction n as [| n IH]; intros a r K k Hn Hr HK HPr Ha.
  - destruct a; [| cbn in Hn; lia]. exists 0%nat. cbn. rewrite !Nat.add_0_r. auto.
  - destruct a as [| a0 [| a1 [| a2 [| a3 [| a4 [| a5 [| a6 [| a7 rest]]]]]]]];
      try (exists 0%nat; cbn [Np.lanes fst snd]; rewrite !Nat.add_0_r;
           repeat split; assumption).
    destruct r as [| r0 [| r1 [| r2 [| r3 [| r4 [| r5 [| r6 [| r7 [| r8 r']]]]]]]]];
      try discriminate Hr.
    cbn [Np.lanes].
    forall_cons.
    destruct (IH rest [r0 + a0; r1 + a1; r2 + a2; r3 + a3;
                       r4 + a4; r5 + a5; r6 + a6; r7 + a7]%float (S K) (k + 1)%nat)
      as (j & Hlen & HP & Htail & Hcount).
    + cbn [List.length] in Hn. lia.
    + reflexivity.
    + lia.
    + repeat constructor;
        (apply P_add; [assumption | apply (P_weaken K0); assumption]).
    + assumption.
    + exists (S j).
      replace (K + S j)%nat with (S K + j)%nat by lia.
      replace (k + S j)%nat with (k + 1 + j)%nat by lia.
      repeat split; try assumption.
      cbn [List.length]. lia.
Qed.

Lemma block_sum_P (a : list float) :
  Forall (P K0 1) a ->
  P (K0 + List.length a) (List.length a) (Np.block_sum a).
Proof.
  intros Ha. unfold Np.block_sum.
  destruct a as [| a0 [| a1 [| a2 [| a3 [| a4 [| a5 [| a6 [| a7 rest]]]]]]]];
    try exact (accumulate_P _ 0%float K0 0%nat (Nat.le_refl _) (P_zero _) Ha).
  forall_cons.
  destruct (lanes_P (List.length rest) rest [a0; a1; a2; a3; a4; a5; a6; a7] K0 1%nat)
    as (j & Hlen & HP & Htail & Hcount);
    [lia | reflexivity | lia | repeat constructor; assumption | assumption |].
  destruct (Np.lanes [a0; a1; a2; a3; a4; a5; a6; a7] rest) as [r tail].
  cbn [fst snd] in *.
  destruct r as [| r0 [| r1 [| r2 [| r3 [| r4 [| r5 [| r6 [| r7 [| r8 r']]]]]]]]];
    try discriminate Hlen.
  forall_cons.
  assert (Htree : P (K0 + j + 3) (8 * (1 + j))
                    (((r0 + r1) + (r2 + r3)) + ((r4 + r5) + (r6 + r7)))%float).
  { replace (K0 + j + 3)%nat with (S (S (S (K0 + j)))) by lia.
    replace (8 * (1 + j))%nat
      with ((((1 + j) + (1 + j)) + ((1 + j) + (1 + j)))
            + (((1 + j) + (1 + j)) + ((1 + j) + (1 + j))))%nat by lia.
    repeat apply P_add; assumption. }
  apply (P_weaken (K0 + j + 3 + List.length tail)); [cbn [List.length]; lia |].
  replace (List.length (a0 :: a1 :: a2 :: a3 :: a4 :: a5 :: a6 :: a7 :: rest))
    with (8 * (1 + j) + List.length tail)%nat by (cbn [List.length]; lia).
  apply accumulate_P; [lia | exact Htree | exact Htail].
Qed.

Lemma pairwise_sum_rec_P (fuel : nat) :
  forall a, Forall (P K0 1) a ->
            P (K0 + List.length a) (List.length a) (Np.pairwise_sum_rec fuel a).
Proof.
  induction fuel as [| fuel IH]; intros a Ha; cbn [Np.pairwise_sum_rec]; cbv zeta.
  - destruct (List.length a <? 8)%nat;
      [exact (accumulate_P a 0%float K0 0%nat (Nat.le_refl _) (P_zero _) Ha) |].
    destruct (List.length a <=? 128)%nat; [apply block_sum_P; exact Ha |].
    exact (accumulate_P a 0%float K0 0%nat (Nat.le_refl _) (P_zero _) Ha).
  - destruct (Nat.ltb_spec (List.length a) 8) as [| H8];
      [exact (accumulate_P a 0%float K0 0%nat (Nat.le_refl _) (P_zero _) Ha) |].
    destruct (Nat.leb_spec (List.length a) 128) as [| H128];
      [apply block_sum_P; exact Ha |].
    set (n2 := (List.length a / 2 - (List.length a / 2) mod 8)%nat).
    assert (Hn2 : (0 < n2 < List.length a)%nat).
    { unfold n2.
      pose proof (Nat.mod_upper_bound (List.length a / 2) 8 ltac:(lia)).
      pose proof (Nat.div_lt (List.length a) 2 ltac:(lia) ltac:(lia)).
      assert (64 <= List.length a / 2)%nat by (apply Nat.div_le_lower_bound; lia).
      lia. }
    assert (Hsplit : Forall (P K0 1) (firstn n2 a) /\ Forall (P K0 1) (skipn n2 a)).
    { rewrite <- (firstn_skipn n2 a) in Ha. apply Forall_app in Ha. exact Ha. }
    destruct Hsplit as [Hl Hr].
    pose proof (IH _ Hl) as Pl. pose proof (IH _ Hr) as Pr.
    rewrite length_firstn in Pl. rewrite length_skipn in Pr.
    replace (Nat.min n2 (List.length a)) with n2 in Pl by lia.
    replace (K0 + List.length a)%nat with (S (K0 + (List.length a - 1)))%nat by lia.
    replace (List.length a) with (n2 + (List.length a - n2))%nat at 2 by lia.
    apply P_add; [apply (P_weaken (K0 + n2)) | apply (P_weaken (K0 + (List.length a - n2)))];
      try assumption; lia.
Qed.

Lemma add_reduce_P (a : list float) :
  Forall (P K0 1) a -> P (S (K0 + List.length a)) (List.length a) (Np.add_reduce a).
Proof.
  intros Ha. unfold Np.add_reduce, Np.pairwise_sum.
  change (List.length a) with (0 + List.length a)%nat at 2.
  apply P_add; [apply P_zero | apply pairwise_sum_rec_P; exact Ha].
Qed.

End PairwiseSum.

(** ** Binary64: the sum of two positive numbers *)

Lemma digits_ge_53 (q : Z) :
  2 ^ 52 <= q -> exists q' : positive, q = Zpos q' /\ 53 <= Zpos (digits2_pos q').
Proof.
  intros Hq. change (2 ^ 52) with 4503599627370496 in Hq.
  destruct q as [| q' | q']; [lia | | lia].
  exists q'. split; [reflexivity |].
  destruct (Z_lt_le_dec (Zpos (digits2_pos q')) 53) as [Hlt |]; [exfalso | assumption].
  pose proof (digits2_pos_bounds q') as [_ Hhi].
  assert (2 ^ Zpos (digits2_pos q') <= 2 ^ 52) by (apply Z.pow_le_mono_r; lia).
  change (2 ^ 52) with 4503599627370496 in *. lia.
Qed.

Lemma mantissa_53 (m : positive) :
  Zpos (digits2_pos m) = 53 -> 2 ^ 52 <= Zpos m < 2 ^ 53.
Proof.
  intros Hd. pose proof (digits2_pos_bounds m) as H. rewrite Hd in H. exact H.
Qed.

Lemma bounded_exponent m e : bounded prec emax m e = true -> -1074 <= e <= 971.
Proof. intros H. apply bounded_spec in H. lia. Qed.

Lemma shl_align_fst (m : positive) (e ez : Z) :
  ez <= e -> Zpos (fst (shl_align m e ez)) = Zpos m * 2 ^ (e - ez).
Proof.
  intros H. unfold shl_align.
  destruct (ez - e) as [| d | d] eqn:E; cbn [fst].
  - replace (e - ez) with 0 by lia. lia.
  - lia.
  - destruct (iter_xO_spec m d) as [-> _]. f_equal. f_equal. lia.
Qed.

Lemma binary_round_exact_shape (q : positive) (e : Z) :
  53 <= Zpos (digits2_pos q) -> -1074 <= e ->
  binary_round prec emax false q e = binary_round_aux prec emax false (Zpos q) e loc_Exact.
Proof.
  intros Hd He. unfold binary_round, shl_align. rewrite fexp_eq.
  destruct (Z.max (Zpos (digits2_pos q) + e - 53) (-1074) - e) as [| k | k] eqn:E;
    [reflexivity | reflexivity | lia].
Qed.

Lemma bounded_digits (m : positive) (e : Z) :
  bounded prec emax m e = true -> -1074 < e -> Zpos (digits2_pos m) = 53.
Proof. intros H He. apply bounded_spec in H. lia. Qed.

Lemma bounded_unit (m : positive) :
  Zpos m < 2 ^ 53 -> bounded prec emax m (-1074) = true.
Proof.
  intros Hm. pose proof (digits_small m Hm) as Hd.
  unfold bounded, canonical_mantissa. rewrite fexp_eq.
  apply andb_true_intro. split; [apply Z.eqb_eq; lia | reflexivity].
Qed.

(** A sum that stays below [2^53] units of the last place of the
    subnormal numbers is exact. *)
Lemma binary_round_unit (q : positive) :
  Zpos (digits2_pos q) <= 53 ->
  binary_round prec emax false q (-1074) = S754_finite false q (-1074).
Proof.
  intros Hd. unfold binary_round, shl_align. rewrite fexp_eq.
  replace (Z.max (Zpos (digits2_pos q) + -1074 - 53) (-1074) - -1074) with 0 by lia.
  apply binary_round_aux_canonical.
  unfold bounded, canonical_mantissa. rewrite fexp_eq.
  apply andb_true_intro. split; [apply Z.eqb_eq; lia | reflexivity].
Qed.

Lemma SFadd_lower (K : nat) (x y : spec_float) (v w : Z) :
  0 <= v -> 0 <= w -> lower K x v -> lower K y w ->
  lower (S K) (SFadd prec emax x y) (v + w).
Proof.
  intros Hv Hw [-> | (mx & ex & -> & Hbx & Hx)] [-> | (my & ey & -> & Hby & Hy)];
    try (left; reflexivity).
  pose proof (bounded_exponent _ _ Hbx) as Hex.
  pose proof (bounded_exponent _ _ Hby) as Hey.
  cbn [SFadd cond_Zopp]. set (ez := Z.min ex ey).
  pose proof (shl_align_fst mx ex ez ltac:(unfold ez; lia)) as Ex.
  pose proof (shl_align_fst my ey ez ltac:(unfold ez; lia)) as Ey.
  set (qx := fst (shl_align mx ex ez)) in *.
  set (qy := fst (shl_align my ey ez)) in *.
  change (Zpos qx + Zpos qy) with (Zpos (qx + qy)).
  cbn [binary_normalize].
  assert (Hpx : 1 <= 2 ^ (ex - ez)) by (apply (Z.pow_le_mono_r 2 0); unfold ez; lia).
  assert (Hpy : 1 <= 2 ^ (ey - ez)) by (apply (Z.pow_le_mono_r 2 0); unfold ez; lia).
  assert (Esum : Zpos (qx + qy) * 2 ^ (ez + 1200) = scaled mx ex + scaled my ey).
  { unfold scaled. rewrite Pos2Z.inj_add, Ex, Ey.
    replace (ex + 1200) with ((ex - ez) + (ez + 1200)) by lia.
    replace (ey + 1200) with ((ey - ez) + (ez + 1200)) by lia.
    rewrite (Z.pow_add_r 2 (ex - ez) (ez + 1200)), (Z.pow_add_r 2 (ey - ez) (ez + 1200))
      by (unfold ez; lia).
    ring. }
  assert (Hr : lower 1 (binary_round prec emax false (qx + qy) ez)
                     (scaled mx ex + scaled my ey)).
  { rewrite <- Esum.
    destruct (Z_le_gt_dec 53 (Zpos (digits2_pos (qx + qy)))) as [Hq | Hq].
    - (* the sum is rounded as a normal number *)
      rewrite binary_round_exact_shape by (unfold ez; lia).
      apply round_lower; unfold ez; lia.
    - (* the sum is a subnormal number, and exact *)
      assert (Hez : ez = -1074).
      { destruct (Z.eq_dec ez (-1074)) as [| Hne]; [assumption | exfalso].
        pose proof (mantissa_53 _ (bounded_digits _ _ Hbx ltac:(unfold ez in Hne; lia)))
          as Hmx.
        destruct (digits_ge_53 (Zpos (qx + qy))) as (q' & Eq & Hq').
        { rewrite Pos2Z.inj_add, Ex, Ey. nia. }
        injection Eq as <-. lia. }
      rewrite Hez, binary_round_unit by lia.
      right. exists (qx + qy)%positive, (-1074). split; [reflexivity |].
      split.
      + apply bounded_unit. pose proof (digits2_pos_bounds (qx + qy)) as [_ Hhi].
        eapply Z.lt_le_trans; [exact Hhi |]. apply Z.pow_le_mono_r; lia.
      + unfold scaled. change (Z.of_nat 1) with 1. rewrite !Z.pow_1_r.
        apply Z.mul_le_mono_nonneg_r; [| discriminate].
        apply Z.mul_nonneg_nonneg; [lia | apply Z.pow_nonneg; lia]. }
  destruct Hr as [-> | (m & e & -> & Hb & Hr)]; [left; reflexivity | right].
  exists m, e. repeat split; try assumption.
  rewrite Nat2Z.inj_succ, !Z.pow_succ_r by lia.
  change (Z.of_nat 1) with 1 in Hr. rewrite !Z.pow_1_r in Hr.
  pose proof (pow_factors K) as [Hc Hcb].
  revert Hx Hy Hr Hc Hcb.
  generalize ((2 ^ 52 - 1) ^ Z.of_nat K) ((2 ^ 52) ^ Z.of_nat K)
             (scaled mx ex) (scaled my ey) (scaled m e).
  change (2 ^ 52) with 4503599627370496.
  intros c b Vx Vy V Hx Hy Hr Hc Hcb.
  assert (H1 : c * (v + w) <= b * (Vx + Vy)) by lia.
  assert (H2 : (4503599627370496 - 1) * (c * (v + w))
               <= (4503599627370496 - 1) * (b * (Vx + Vy)))
    by (apply Z.mul_le_mono_nonneg_l; lia).
  assert (H3 : b * ((4503599627370496 - 1) * (Vx + Vy)) <= b * (4503599627370496 * V))
    by (apply Z.mul_le_mono_nonneg_l; lia).
  lia.
Qed.

Lemma lower0_weaken (K K' : nat) x v :
  (K <= K')%nat -> 0 <= v -> lower0 K x v -> lower0 K' x v.
Proof.
  intros HK Hv [H | H]; [left; exact H | right].
  apply (lower_weaken K K' x v v); [exact HK | lia | exact H].
Qed.

Lemma SFadd_lower0 (K : nat) (x y : spec_float) (v w : Z) :
  0 <= v -> 0 <= w -> lower0 K x v -> lower0 K y w ->
  lower0 (S K) (SFadd prec emax x y) (v + w).
Proof.
  intros Hv Hw [[-> ->] | Hx] [[-> ->] | Hy].
  - left. split; reflexivity.
  - right. rewrite Z.add_0_l.
    replace (SFadd prec emax (S754_zero false) y) with y.
    + apply (lower_weaken K (S K) y w w); [lia | lia | exact Hy].
    + destruct Hy as [-> | (m & e & -> & _)]; reflexivity.
  - right. rewrite Z.add_0_r.
    replace (SFadd prec emax x (S754_zero false)) with x.
    + apply (lower_weaken K (S K) x v v); [lia | lia | exact Hx].
    + destruct Hx as [-> | (m & e & -> & _)]; reflexivity.
  - right. apply SFadd_lower; assumption.
Qed.

(** [(1 - 2^-52)^k] is at least [1 - k * 2^-52]. *)
Lemma bernoulli_factor (k : nat) :
  Z.of_nat k <= 2 ^ 52 ->
  (2 ^ 52) ^ Z.of_nat k * (2 ^ 52 - Z.of_nat k) <= (2 ^ 52 - 1) ^ Z.of_nat k * 2 ^ 52.
Proof.
  induction k as [| k IH]; intros Hk; [cbn; lia |].
  rewrite Nat2Z.inj_succ in *. rewrite !Z.pow_succ_r by lia.
  specialize (IH ltac:(lia)).
  pose proof (pow_factors k) as [Hc Hcb].
  revert IH Hc Hcb Hk.
  generalize (Z.of_nat k) ((2 ^ 52 - 1) ^ Z.of_nat k) ((2 ^ 52) ^ Z.of_nat k).
  change (2 ^ 52) with 4503599627370496.
  intros n c b IH Hc Hcb Hk.
  assert (H1 : (4503599627370496 - 1) * (b * (4503599627370496 - n))
               <= (4503599627370496 - 1) * (c * 4503599627370496))
    by (apply Z.mul_le_mono_nonneg_l; lia).
  assert (H2 : 0 <= b * n) by nia.
  nia.
Qed.

(** After at most [2^49] roundings at least seven eighths of the value are
    left. *)
Lemma most_factor (K : nat) :
  Z.of_nat K <= 2 ^ 49 -> 7 * (2 ^ 52) ^ Z.of_nat K <= 8 * (2 ^ 52 - 1) ^ Z.of_nat K.
Proof.
  intros HK. change (2 ^ 49) with 562949953421312 in HK.
  pose proof (bernoulli_factor K ltac:(change (2 ^ 52) with 4503599627370496; lia)) as G.
  pose proof (pow_factors K) as [Hc Hcb].
  revert G Hc Hcb HK.
  generalize (Z.of_nat K) ((2 ^ 52 - 1) ^ Z.of_nat K) ((2 ^ 52) ^ Z.of_nat K).
  change (2 ^ 52) with 4503599627370496.
  intros n c b G Hc Hcb HK.
  assert (H1 : b * (7 * 562949953421312) <= b * (4503599627370496 - n))
    by (apply Z.mul_le_mono_nonneg_l; lia).
  lia.
Qed.

Lemma lower_most (K : nat) (x : spec_float) (v : Z) :
  Z.of_nat K <= 2 ^ 49 -> 0 <= v -> lower K x v ->
  x = S754_infinity false
  \/ exists m e,
       x = S754_finite false m e
       /\ bounded prec emax m e = true
       /\ 7 * v <= 8 * scaled m e.
Proof.
  intros HK Hv [-> | (m & e & -> & Hb & H)]; [left; reflexivity | right].
  exists m, e. repeat split; try assumption.
  pose proof (most_factor K HK) as Hh.
  pose proof (pow_factors K) as [Hc Hcb].
  pose proof (scaled_pos m e ltac:(pose proof (bounded_exponent _ _ Hb); lia)) as HV.
  revert H Hh Hc Hcb HV.
  generalize ((2 ^ 52 - 1) ^ Z.of_nat K) ((2 ^ 52) ^ Z.of_nat K) (scaled m e).
  intros c b V H Hh Hc Hcb HV.
  destruct (Z_le_gt_dec (7 * v) (8 * V)) as [| Hgt]; [assumption | exfalso].
  assert (c * (8 * V + 1) <= c * (7 * v)) by (apply Z.mul_le_mono_nonneg_l; lia).
  assert (7 * (b * V) <= 8 * c * V) by nia.
  nia.
Qed.

(** ** The sum of [n] copies of one square *)

Section RepeatedSquare.

Variable D : Z.
Hypothesis D_nonneg : 0 <= D.

Lemma sums_zero K : sums D K 0 0%float.
Proof. left. split; reflexivity. Qed.

Lemma sums_weaken K K' k x : (K <= K')%nat -> sums D K k x -> sums D K' k x.
Proof. intros HK. apply lower0_weaken; [exact HK | nia]. Qed.

Lemma sums_add K j k x y :
  sums D K j x -> sums D K k y -> sums D (S K) (j + k) (x + y)%float.
Proof.
  unfold sums. intros Hx Hy. rewrite add_spec, Nat2Z.inj_add, Z.mul_add_distr_r.
  apply SFadd_lower0; try assumption; nia.
Qed.

Lemma add_reduce_sums (a : list float) :
  0 < D -> Forall (fun x => lower 1 (Prim2SF x) D) a -> a <> [] ->
  lower (S (S (List.length a))) (Prim2SF (Np.add_reduce a)) (Z.of_nat (List.length a) * D).
Proof.
  intros HD Ha Hne.
  assert (Hitems : Forall (sums D 1 1) a).
  { apply Forall_impl with (2 := Ha). intros x Hx. unfold sums.
    right. change (Z.of_nat 1 * D) with (1 * D). rewrite Z.mul_1_l. exact Hx. }
  pose proof (add_reduce_P (sums D) 1 sums_zero sums_weaken sums_add a Hitems) as H.
  destruct H as [[_ H] | H]; [| exact H].
  exfalso. destruct a; [congruence |]. cbn [List.length] in H. nia.
Qed.

End RepeatedSquare.

(** ** The sum of infinities *)

Lemma infinite_sum_add K j k x y :
  infinite_sum K j x -> infinite_sum K k y -> infinite_sum (S K) (j + k) (x + y)%float.
Proof.
  unfold infinite_sum.
  intros [[-> ->] | [Hj Hx]] [[-> ->] | [Hk Hy]].
  - left. split; reflexivity.
  - right. split; [lia |]. rewrite add_spec, Hy. reflexivity.
  - right. split; [lia |]. rewrite add_spec, Hx. reflexivity.
  - right. split; [lia |]. rewrite add_spec, Hx, Hy. reflexivity.
Qed.

Lemma add_reduce_infinite (a : list float) :
  Forall (fun x => Prim2SF x = S754_infinity false) a -> a <> [] ->
  Prim2SF (Np.add_reduce a) = S754_infinity false.
Proof.
  intros Ha Hne.
  assert (Hitems : Forall (infinite_sum 0 1) a).
  { apply Forall_impl with (2 := Ha). intros x Hx. right. split; [discriminate | exact Hx]. }
  pose proof (add_reduce_P infinite_sum 0
                           (fun K => or_introl (conj eq_refl eq_refl))
                           (fun K K' k x _ H => H)
                           infinite_sum_add a Hitems) as H.
  destruct H as [[H _] | [_ H]]; [| exact H].
  destruct a; [congruence | discriminate H].
Qed.

(** ** Binary64: rounding into the subnormal range *)

Lemma pow_half (k : Z) : 0 <= k -> 2 * 2 ^ (k - 1) <= 2 ^ k.
Proof.
  intros Hk. destruct (Z.eq_dec k 0) as [-> | Hne]; [cbn; lia |].
  replace k with (Z.succ (k - 1)) at 2 by lia. rewrite Z.pow_succ_r by lia. lia.
Qed.

Lemma pow_half_eq (k : Z) : 1 <= k -> 2 * 2 ^ (k - 1) = 2 ^ k.
Proof.
  intros Hk. replace k with (Z.succ (k - 1)) at 2 by lia.
  rewrite Z.pow_succ_r by lia. reflexivity.
Qed.

Lemma shr_1_bits (mrs : shr_record) :
  0 <= shr_m mrs ->
  shr_m mrs = 2 * shr_m (shr_1 mrs) + (if shr_r (shr_1 mrs) then 1 else 0)
  /\ 0 <= shr_m (shr_1 mrs)
  /\ shr_s (shr_1 mrs) = shr_r mrs || shr_s mrs.
Proof.
  destruct mrs as [m r s]. cbn [shr_m shr_r shr_s]. intros Hm.
  destruct m as [| [p | p |] | p]; cbn [shr_1 shr_m shr_r shr_s]; try lia.
  all: repeat split; try reflexivity; lia.
Qed.

Lemma shr_1_shifted (q k : Z) (mrs : shr_record) :
  0 <= k -> shifted q k mrs -> shifted q (k + 1) (shr_1 mrs).
Proof.
  intros Hk (t & Eq & Hm & Ht & Hlt & Hs & Hr).
  destruct (shr_1_bits mrs Hm) as (Em & Hm' & Es).
  exists ((if shr_r mrs then 2 ^ (k - 1) else 0) + t).
  replace (k + 1 - 1) with k by lia.
  assert (Hp : 0 < 2 ^ k) by (apply Z.pow_pos_nonneg; lia).
  assert (Hh : 0 <= 2 ^ (k - 1)) by (apply Z.pow_nonneg; lia).
  pose proof (pow_half k Hk) as Hhalf.
  split.
  - rewrite Eq, Em at 1. rewrite Z.pow_add_r by lia. change (2 ^ 1) with 2.
    destruct (shr_r (shr_1 mrs)); ring.
  - split; [exact Hm' |]. split; [destruct (shr_r mrs); lia |].
    split; [| split].
    + destruct (shr_r mrs) eqn:Er.
      * specialize (Hr eq_refl). left. rewrite <- (pow_half_eq k Hr). lia.
      * destruct Hlt as [Hlt | ->]; [left; lia | right; reflexivity].
    + rewrite Es. intros H. apply orb_false_elim in H. destruct H as [-> H].
      rewrite (Hs H). reflexivity.
    + intros _. lia.
Qed.

Lemma iter_shr_1_shifted (q : Z) (n : positive) :
  forall k mrs, 0 <= k -> shifted q k mrs ->
                shifted q (k + Zpos n) (iter_pos shr_1 n mrs).
Proof.
  induction n as [n IH | n IH |]; intros k mrs Hk H; cbn [iter_pos].
  - replace (k + Zpos n~1) with (k + 1 + Zpos n + Zpos n) by lia.
    apply IH; [lia |]. apply IH; [lia |]. apply shr_1_shifted; assumption.
  - replace (k + Zpos n~0) with (k + Zpos n + Zpos n) by lia.
    apply IH; [lia |]. apply IH; assumption.
  - apply shr_1_shifted; assumption.
Qed.

Lemma shr_shifted (q : Z) (e n : Z) :
  0 <= q -> 0 <= n ->
  shifted q n (fst (shr (shr_record_of_loc q loc_Exact) e n))
  /\ snd (shr (shr_record_of_loc q loc_Exact) e n) = e + n.
Proof.
  intros Hq Hn.
  assert (H0 : shifted q 0 (shr_record_of_loc q loc_Exact)).
  { exists 0. cbn [shr_record_of_loc shr_m shr_r shr_s].
    repeat split; try lia; try discriminate. }
  destruct n as [| p | p]; cbn [shr fst snd]; [| | lia].
  - split; [exact H0 | lia].
  - split; [| reflexivity].
    apply (iter_shr_1_shifted q p 0 _ (Z.le_refl 0) H0).
Qed.

(** Rounding to nearest what the shifts left. *)
Lemma round_shifted (q k : Z) (mrs : shr_record) :
  0 <= k -> shifted q k mrs ->
  let m1 := round_nearest_even (shr_m mrs) (loc_of_shr_record mrs) in
  shr_m mrs <= m1 <= shr_m mrs + 1
  /\ shr_m mrs * 2 ^ k <= q < (shr_m mrs + 1) * 2 ^ k
  /\ 2 * q <= 2 * m1 * 2 ^ k + 2 ^ k
  /\ (1 <= m1 -> 2 ^ k <= 2 * q).
Proof.
  intros Hk (t & Eq & Hm & Ht & Hlt & Hs & Hr). cbv zeta.
  pose proof (round_nearest_even_bounds (shr_m mrs) (loc_of_shr_record mrs)) as Hb.
  assert (Hp : 0 < 2 ^ k) by (apply Z.pow_pos_nonneg; lia).
  assert (Hh : 0 <= 2 ^ (k - 1)) by (apply Z.pow_nonneg; lia).
  pose proof (pow_half k Hk) as Hhalf.
  split; [exact Hb |].
  destruct mrs as [m [|] s]; cbn [shr_m shr_r shr_s loc_of_shr_record] in *.
  - specialize (Hr eq_refl). pose proof (pow_half_eq k Hr) as Heq.
    split; [nia |].
    destruct s; cbn [round_nearest_even] in *.
    + split; [nia |]. intros _. nia.
    + rewrite (Hs eq_refl) in *. split; [nia |]. intros _. nia.
  - destruct s; cbn [round_nearest_even] in *.
    + split; [nia |]. split; [nia |]. intros H1. nia.
    + rewrite (Hs eq_refl) in *. split; [nia |]. split; [nia |]. intros H1. nia.
Qed.

Lemma shr_fexp_unit (M : Z) :
  0 <= M <= 2 ^ 52 ->
  shr_fexp prec emax M (-1074) loc_Exact
  = ({| shr_m := M; shr_r := false; shr_s := false |}, -1074).
Proof.
  intros HM. unfold shr_fexp. rewrite fexp_eq.
  assert (Hd : Zdigits2 M <= 53).
  { destruct M as [| p | p]; cbn [Zdigits2]; [lia | | lia].
    apply digits_small. change (2 ^ 52) with 4503599627370496 in HM.
    change (2 ^ 53) with 9007199254740992. lia. }
  replace (Z.max (Zdigits2 M + -1074 - 53) (-1074) - -1074) with 0 by lia.
  reflexivity.
Qed.

(** The result of a rounding whose mantissa, once at the exponent of the
    subnormal numbers, has at most 52 bits. *)
Lemma binary_round_aux_unit (q : Z) (l : location) :
  0 <= q < 2 ^ 52 ->
  binary_round_aux prec emax false q (-1074) l
  = match round_nearest_even q l with
    | Zpos m => S754_finite false m (-1074)
    | _ => S754_zero false
    end.
Proof.
  intros Hq. unfold binary_round_aux.
  assert (E1 : shr_fexp prec emax q (-1074) l = (shr_record_of_loc q l, -1074)).
  { unfold shr_fexp. rewrite fexp_eq.
    assert (Hd : Zdigits2 q <= 53).
    { destruct q as [| p | p]; cbn [Zdigits2]; [lia | | lia].
      apply digits_small. change (2 ^ 52) with 4503599627370496 in Hq.
      change (2 ^ 53) with 9007199254740992. lia. }
    replace (Z.max (Zdigits2 q + -1074 - 53) (-1074) - -1074) with 0 by lia.
    reflexivity. }
  rewrite E1.
  assert (Hloc : loc_of_shr_record (shr_record_of_loc q l) = l)
    by (destruct l as [| [ | | ]]; reflexivity).
  rewrite shr_record_of_loc_m, Hloc.
  pose proof (round_nearest_even_bounds q l) as Hb.
  rewrite shr_fexp_unit by lia. cbn [shr_m].
  destruct (round_nearest_even q l) as [| m | m]; [reflexivity | reflexivity | lia].
Qed.

Lemma binary_round_aux_small (q : positive) (e : Z) :
  e <= -1074 -> Zpos q < 2 ^ (52 + (-1074 - e)) ->
  exists m1 : Z,
    0 <= m1 <= 2 ^ 52
    /\ 2 * Zpos q <= 2 * m1 * 2 ^ (-1074 - e) + 2 ^ (-1074 - e)
    /\ (1 <= m1 -> 2 ^ (-1074 - e) <= 2 * Zpos q)
    /\ binary_round_aux prec emax false (Zpos q) e loc_Exact
       = match m1 with
         | Zpos m => S754_finite false m (-1074)
         | _ => S754_zero false
         end.
Proof.
  intros He Hq. set (n := -1074 - e) in *.
  assert (Hn : 0 <= n) by (unfold n; lia).
  pose proof (digits2_pos_bounds q) as [Hlo Hhi].
  assert (Hd : Zpos (digits2_pos q) <= 52 + n).
  { destruct (Z_le_gt_dec (Zpos (digits2_pos q)) (52 + n)) as [| Hgt]; [assumption |].
    exfalso.
    assert (2 ^ (52 + n) <= 2 ^ (Zpos (digits2_pos q) - 1)) by (apply Z.pow_le_mono_r; lia).
    lia. }
  unfold binary_round_aux, shr_fexp at 1. cbn [Zdigits2]. rewrite fexp_eq.
  replace (Z.max (Zpos (digits2_pos q) + e - 53) (-1074) - e) with n by (unfold n; lia).
  destruct (shr_shifted (Zpos q) e n ltac:(lia) Hn) as [Hsh He'].
  destruct (shr (shr_record_of_loc (Zpos q) loc_Exact) e n) as [mrs' e1].
  cbn [fst snd] in Hsh, He'. subst e1.
  destruct (round_shifted (Zpos q) n mrs' Hn Hsh) as (Hb & Hq' & Hup & Hone).
  set (m1 := round_nearest_even (shr_m mrs') (loc_of_shr_record mrs')) in *.
  assert (Hp : 0 < 2 ^ n) by (apply Z.pow_pos_nonneg; lia).
  assert (Hm : 0 <= shr_m mrs' < 2 ^ 52).
  { destruct Hsh as (t & _ & Hm & _). split; [exact Hm |].
    rewrite Z.pow_add_r in Hq by lia.
    destruct (Z_lt_le_dec (shr_m mrs') (2 ^ 52)) as [| Hge]; [assumption | exfalso].
    assert (2 ^ 52 * 2 ^ n <= shr_m mrs' * 2 ^ n) by (apply Z.mul_le_mono_nonneg_r; lia).
    lia. }
  exists m1. split; [lia |]. split; [exact Hup |]. split; [exact Hone |].
  replace (e + n) with (-1074) by (unfold n; lia).
  rewrite shr_fexp_unit by lia. cbn [shr_m].
  destruct m1 as [| m | m]; [reflexivity | reflexivity | lia].
Qed.

(** ** Binary64: a sum divided by the number of its items *)

(** The quotient and the location of the remainder, rounded to nearest,
    are at most half a unit below the exact quotient. *)
Lemma new_location_round (nb k q : Z) :
  0 < nb -> 0 <= k < nb -> 0 <= q ->
  2 * (q * nb + k) <= 2 * round_nearest_even q (new_location nb k) * nb + nb.
Proof.
  intros Hnb Hk Hq. unfold new_location, new_location_even, new_location_odd.
  destruct (Z.even nb); destruct (Z.eqb_spec k 0) as [-> | Hk0];
    cbn [round_nearest_even]; try lia.
  - destruct (Z.compare_spec (2 * k) nb) as [E | E | E]; cbn [round_nearest_even].
    + destruct (Z.even q); nia.
    + nia.
    + nia.
  - destruct (Z.compare_spec (2 * k + 1) nb) as [E | E | E]; cbn [round_nearest_even]; nia.
Qed.

Lemma SFdiv_count_lower (mS : positive) (eS : Z) (n : positive) :
  bounded prec emax mS eS = true ->
  Zpos n < 2 ^ 53 ->
  3 * Zpos n * 2 ^ 126 <= 4 * scaled mS eS ->
  SFdiv prec emax (S754_finite false mS eS) (binary_normalize prec emax (Zpos n) 0 false)
  = S754_infinity false
  \/ exists m e,
       SFdiv prec emax (S754_finite false mS eS)
             (binary_normalize prec emax (Zpos n) 0 false)
       = S754_finite false m e
       /\ bounded prec emax m e = true
       /\ scaled mS eS <= 4 * Zpos n * scaled m e.
Proof.
  intros Hb Hn Hbig.
  pose proof (bounded_exponent _ _ Hb) as HeS.
  pose proof (bounded_spec _ _ Hb) as [Hcan _].
  pose proof (digits2_pos_bounds mS) as [HmSlo HmShi].
  destruct (binary_normalize_small n (digits_small n Hn)) as (mn & -> & Hmn & Hdn).
  pose proof (mantissa_53 _ Hdn) as Hmn53.
  pose proof (digits_small n Hn) as Hdn53.
  assert (Hdn1 : 1 <= Zpos (digits2_pos n)) by lia.
  set (dn := Zpos (digits2_pos n)) in *.
  set (dS := Zpos (digits2_pos mS)) in *.
  set (w := 53 - dn) in *.
  unfold SFdiv, SFdiv_core_binary. cbn [Zdigits2 xorb]. fold dS. rewrite Hdn, fexp_eq.
  set (t := eS - (dn - 53)).
  replace (Z.min (Z.max (dS + eS - (53 + (dn - 53)) - 53) (-1074)) t)
    with (Z.max (dS + eS - 53 - dn) (-1074)) by (unfold t; lia).
  set (e' := Z.max (dS + eS - 53 - dn) (-1074)).
  set (s := t - e').
  assert (Hs : 0 <= s <= 53) by (unfold s, e', t; lia).
  assert (Em' : match s with
                | 0 => Zpos mS
                | Zpos _ => Z.shiftl (Zpos mS) s
                | Zneg _ => 0
                end = Zpos mS * 2 ^ s).
  { destruct s as [| p | p] eqn:Es; [cbn; lia | | lia].
    rewrite Z.shiftl_mul_pow2 by lia. reflexivity. }
  rewrite Em', div_eucl_spec.
  assert (Hps : 0 < 2 ^ s) by (apply Z.pow_pos_nonneg; lia).
  assert (Hpw : 0 < 2 ^ w) by (apply Z.pow_pos_nonneg; unfold w; lia).
  assert (Hpe : 0 < 2 ^ (e' + 1200)) by (apply Z.pow_pos_nonneg; unfold e'; lia).
  (* the scaled values *)
  assert (EV : scaled mS eS * 2 ^ w = Zpos mS * 2 ^ s * 2 ^ (e' + 1200)).
  { unfold scaled. rewrite <- !Z.mul_assoc. f_equal.
    rewrite <- !Z.pow_add_r by (unfold w, s, e', t; lia).
    f_equal. unfold w, s, t. lia. }
  assert (HN : 0 < Zpos n) by lia.
  pose proof (Z.div_mod (Zpos mS * 2 ^ s) (Zpos mn) ltac:(lia)) as Hdm.
  pose proof (Z.mod_pos_bound (Zpos mS * 2 ^ s) (Zpos mn) ltac:(lia)) as Hrem.
  assert (Hq0 : 0 <= Zpos mS * 2 ^ s / Zpos mn) by (apply Z.div_pos; lia).
  destruct (Z_le_gt_dec (2 ^ 52) (Zpos mS * 2 ^ s / Zpos mn)) as [Hq52 | Hq52].
  - (* the quotient has at least 53 bits *)
    destruct (digits_ge_53 (Zpos mS * 2 ^ s / Zpos mn) Hq52) as (q & Eq & Hq).
    rewrite Eq.
    match goal with
    | |- context [binary_round_aux _ _ _ _ _ ?l] =>
        pose proof (round_lower q e' l Hq ltac:(unfold e'; lia) ltac:(unfold e'; lia)) as Hr
    end.
    destruct Hr as [-> | (m & e & -> & Hbm & Hr)]; [left; reflexivity | right].
    exists m, e. repeat split; try assumption.
    change (Z.of_nat 1) with 1 in Hr. rewrite !Z.pow_1_r in Hr.
    (* the quotient is more than the exact one less one *)
    assert (Hdiv : Zpos mS * 2 ^ s < (Zpos q + 1) * Zpos mn).
    { rewrite <- Eq. pose proof (Z.mul_succ_div_gt (Zpos mS * 2 ^ s) (Zpos mn) ltac:(lia)).
      lia. }
    pose proof (scaled_pos m e ltac:(pose proof (bounded_exponent _ _ Hbm); lia)) as HV.
    apply Z.mul_le_mono_pos_r with (p := 2 ^ w); [exact Hpw |].
    rewrite EV. rewrite Hmn in Hdiv. fold w in Hdiv.
    assert (Hq1 : 2 ^ 52 <= Zpos q) by (rewrite <- Eq; exact Hq52).
    change (2 ^ 52) with 4503599627370496 in *.
    revert Hr Hdiv HV Hpw Hpe Hq1 HN.
    generalize (scaled m e) (2 ^ (e' + 1200)) (2 ^ w) (Zpos mS * 2 ^ s) (Zpos q) (Zpos n).
    intros V Pe Pw M Q N Hr Hdiv HV Hpw Hpe Hq1 HN.
    clear -Hr Hdiv HV Hpw Hpe Hq1 HN.
    assert (H1 : M * Pe <= (Q + 1) * (N * Pw) * Pe).
    { apply Z.mul_le_mono_nonneg_r; [lia | exact (Z.lt_le_incl _ _ Hdiv)]. }
    assert (H2 : (Q + 1) * Pe <= 4 * V).
    { assert (Q * Pe <= 2 * V) by nia. nia. }
    assert (H3 : (Q + 1) * Pe * (N * Pw) <= 4 * V * (N * Pw)).
    { apply Z.mul_le_mono_nonneg_r; [| exact H2].
      destruct (Z_le_gt_dec 0 (N * Pw)) as [| Hneg]; [assumption | exfalso]. nia. }
    nia.
  - (* the quotient is a subnormal number *)
    assert (He' : e' = -1074).
    { destruct (Z.eq_dec e' (-1074)) as [| Hne]; [assumption | exfalso].
      assert (HdS : dS = 53) by (unfold e' in Hne; lia).
      assert (Hs53 : s = 53) by (unfold s, e', t in *; lia).
      rewrite Hs53 in *. rewrite HdS in HmSlo.
      change (2 ^ (53 - 1)) with 4503599627370496 in HmSlo.
      change (2 ^ 52) with 4503599627370496 in *.
      change (2 ^ 53) with 9007199254740992 in *.
      assert (4503599627370496 * Zpos mn <= Zpos mS * 9007199254740992) by nia.
      assert (4503599627370496 <= Zpos mS * 9007199254740992 / Zpos mn)
        by (apply Z.div_le_lower_bound; lia).
      lia. }
    assert (Hround : 2 * (Zpos mS * 2 ^ s)
                     <= 2 * round_nearest_even
                              (Zpos mS * 2 ^ s / Zpos mn)
                              (new_location (Zpos mn) (Zpos mS * 2 ^ s mod Zpos mn))
                        * Zpos mn + Zpos mn).
    { pose proof (new_location_round (Zpos mn) (Zpos mS * 2 ^ s mod Zpos mn)
                                     (Zpos mS * 2 ^ s / Zpos mn)
                                     ltac:(lia) Hrem Hq0) as H.
      lia. }
    clearbody e'. subst e'.
    rewrite binary_round_aux_unit by lia.
    change (2 ^ (-1074 + 1200)) with (2 ^ 126) in *.
    (* three quarters of a unit are enough for the quotient not to vanish *)
    assert (Hthree : 3 * Zpos mn <= 4 * (Zpos mS * 2 ^ s)).
    { apply Z.mul_le_mono_pos_r with (p := 2 ^ 126); [reflexivity |].
      replace (4 * (Zpos mS * 2 ^ s) * 2 ^ 126) with (4 * (Zpos mS * 2 ^ s * 2 ^ 126))
        by ring.
      rewrite <- EV, Hmn. fold w.
      replace (3 * (Zpos n * 2 ^ w) * 2 ^ 126) with (3 * Zpos n * 2 ^ 126 * 2 ^ w) by ring.
      replace (4 * (scaled mS eS * 2 ^ w)) with (4 * scaled mS eS * 2 ^ w) by ring.
      apply Z.mul_le_mono_nonneg_r; [lia | exact Hbig]. }
    pose proof (round_nearest_even_bounds (Zpos mS * 2 ^ s / Zpos mn)
                  (new_location (Zpos mn) (Zpos mS * 2 ^ s mod Zpos mn))) as Hb1.
    destruct (round_nearest_even (Zpos mS * 2 ^ s / Zpos mn)
                (new_location (Zpos mn) (Zpos mS * 2 ^ s mod Zpos mn))) as [| m1 | m1];
      [exfalso; lia | | exfalso; lia].
    right. exists m1, (-1074). split; [reflexivity |].
    split; [apply bounded_unit; change (2 ^ 53) with 9007199254740992;
            change (2 ^ 52) with 4503599627370496 in Hq52; lia |].
    apply Z.mul_le_mono_pos_r with (p := 2 ^ w); [exact Hpw |].
    rewrite EV. unfold scaled. change (2 ^ (-1074 + 1200)) with (2 ^ 126).
    rewrite Hmn in Hround. fold w in Hround.
    replace (4 * Zpos n * (Zpos m1 * 2 ^ 126) * 2 ^ w)
      with (4 * Zpos m1 * (Zpos n * 2 ^ w) * 2 ^ 126) by ring.
    apply Z.mul_le_mono_nonneg_r; [discriminate |].
    assert (HM1 : 0 < Zpos m1) by reflexivity.
    assert (HN2 : 0 < Zpos n * 2 ^ w) by (apply Z.mul_pos_pos; assumption).
    revert Hround HM1 HN2. generalize (Zpos mS * 2 ^ s) (Zpos n * 2 ^ w) (Zpos m1).
    clear. intros M N2 M1 Hround HM1 HN2.
    assert (N2 <= M1 * N2) by nia.
    lia.
Qed.

(** ** Binary64: the square root of a positive number *)

Lemma SFsqrt_lower (mv : positive) (ev : Z) :
  bounded prec emax mv ev = true ->
  SFsqrt prec emax (S754_finite false mv ev) = S754_infinity false
  \/ exists m e (q : positive) e',
       SFsqrt prec emax (S754_finite false mv ev) = S754_finite false m e
       /\ bounded prec emax m e = true
       /\ Zpos (digits2_pos m) = 53
       /\ -600 <= e'
       /\ 2 ^ 52 <= Zpos q
       /\ Zpos q * 2 ^ (e' + 1200) <= scaled m e
       /\ scaled mv ev * 2 ^ 1200
          < ((Zpos q + 1) * 2 ^ (e' + 1200)) * ((Zpos q + 1) * 2 ^ (e' + 1200)).
Proof.
  intros Hb.
  pose proof (bounded_exponent _ _ Hb) as Hev.
  pose proof (bounded_spec _ _ Hb) as [Hcan _].
  pose proof (digits2_pos_bounds mv) as [Hlo Hhi].
  unfold SFsqrt, SFsqrt_core_binary. cbn [Zdigits2].
  set (dv := Zpos (digits2_pos mv)) in *.
  assert (Hdv : 1 <= dv <= 53) by (unfold dv; lia).
  rewrite fexp_eq, !Z.div2_div.
  set (h := (dv + ev + 1) / 2).
  assert (Hh : dv + ev + 1 = 2 * h + (dv + ev + 1) mod 2)
    by (unfold h; apply Z.div_mod; lia).
  pose proof (Z.mod_pos_bound (dv + ev + 1) 2 ltac:(lia)) as Hmod.
  assert (Hh2 : ev = 2 * (ev / 2) + ev mod 2) by (apply Z.div_mod; lia).
  pose proof (Z.mod_pos_bound ev 2 ltac:(lia)) as Hmod2.
  replace (Z.min (Z.max (h - 53) (-1074)) (ev / 2)) with (h - 53) by lia.
  set (e' := h - 53).
  set (s := ev - 2 * e').
  assert (Hs : 105 - dv <= s <= 106 - dv) by (unfold s, e'; lia).
  assert (Em' : match s with
                | 0 => Zpos mv
                | Zpos _ => Z.shiftl (Zpos mv) s
                | Zneg _ => 0
                end = Zpos mv * 2 ^ s).
  { destruct s as [| p | p] eqn:Es; [lia | | lia].
    rewrite Z.shiftl_mul_pow2 by lia. reflexivity. }
  rewrite Em'.
  assert (Hm' : 2 ^ 104 <= Zpos mv * 2 ^ s < 2 ^ 106).
  { assert (Hps : 0 < 2 ^ s) by (apply Z.pow_pos_nonneg; lia).
    split.
    - apply Z.le_trans with (2 ^ (dv - 1) * 2 ^ s).
      + rewrite <- Z.pow_add_r by lia. apply Z.pow_le_mono_r; lia.
      + apply Z.mul_le_mono_nonneg_r; lia.
    - apply Z.lt_le_trans with (2 ^ dv * 2 ^ s).
      + apply Z.mul_lt_mono_pos_r; lia.
      + rewrite <- Z.pow_add_r by lia. apply Z.pow_le_mono_r; lia. }
  pose proof (Z.sqrtrem_spec (Zpos mv * 2 ^ s) ltac:(lia)) as Hsq.
  destruct (Z.sqrtrem (Zpos mv * 2 ^ s)) as [q r].
  destruct Hsq as [Eq Hr].
  assert (Hq : 2 ^ 52 <= q < 2 ^ 53).
  { change (2 ^ 104) with (2 ^ 52 * 2 ^ 52) in Hm'.
    change (2 ^ 106) with (2 ^ 53 * 2 ^ 53) in Hm'.
    change (2 ^ 52) with 4503599627370496 in *.
    change (2 ^ 53) with 9007199254740992 in *.
    rewrite Eq in Hm'. clear -Hm' Hr. nia. }
  destruct q as [| q | q]; [exfalso | | exfalso];
    [change (2 ^ 52) with 4503599627370496 in Hq; lia | | lia].
  assert (Hdq : Zpos (digits2_pos q) = 53).
  { apply digits2_pos_unique. exact Hq. }
  match goal with
  | |- context [binary_round_aux _ _ _ _ _ ?l] =>
      destruct (binary_round_aux_normal false q e' l ltac:(lia) ltac:(unfold e'; lia))
        as [-> | (m & e & -> & Hbm & Hdm & Hcase)]
  end; [left; reflexivity | right].
  exists m, e, q, e'. split; [reflexivity |].
  split; [exact Hbm |]. split; [exact Hdm |]. split; [unfold e'; lia |].
  split; [apply Hq |].
  assert (Hpe : 0 < 2 ^ (e' + 1200)) by (apply Z.pow_pos_nonneg; unfold e'; lia).
  split.
  - unfold scaled. rewrite Hdq in Hcase.
    destruct Hcase as [[-> Hm] | [-> Hm]].
    + replace (53 - 53) with 0 in Hm by lia. rewrite Z.div_1_r in Hm.
      replace (e' + 53 - 53 + 1200) with (e' + 1200) by lia.
      apply Z.mul_le_mono_nonneg_r; lia.
    + replace (e' + 53 - 53 + 1 + 1200) with (1 + (e' + 1200)) by lia.
      rewrite (Z.pow_add_r 2 1 (e' + 1200)) by (unfold e'; lia). rewrite Hm.
      change (2 ^ 1) with 2. change (2 ^ 52) with 4503599627370496.
      change (2 ^ 53) with 9007199254740992 in Hq. nia.
  - assert (EV : scaled mv ev * 2 ^ 1200
                 = Zpos mv * 2 ^ s * (2 ^ (e' + 1200) * 2 ^ (e' + 1200))).
    { unfold scaled. rewrite <- !Z.mul_assoc. f_equal.
      rewrite <- !Z.pow_add_r by (unfold s, e'; lia). f_equal. unfold s. lia. }
    rewrite EV, Eq.
    revert Hr Hpe. generalize (2 ^ (e' + 1200)) (Zpos q). clear. intros P Q Hr Hpe.
    assert (Q * Q + r < (Q + 1) * (Q + 1)) by nia.
    assert (0 < P * P) by nia.
    replace ((Q + 1) * P * ((Q + 1) * P)) with ((Q + 1) * (Q + 1) * (P * P)) by ring.
    apply Z.mul_lt_mono_pos_r; assumption.
Qed.

(** ** Binary64: the square of a number *)

Lemma scaled_le_split (a b : positive) (ea eb : Z) :
  -1200 <= ea -> -1200 <= eb ->
  scaled a ea <= scaled b eb ->
  (ea <= eb /\ Zpos a <= Zpos b * 2 ^ (eb - ea))
  \/ (eb < ea /\ Zpos a * 2 ^ (ea - eb) <= Zpos b).
Proof.
  unfold scaled. intros Ha Hb H.
  destruct (Z_le_gt_dec ea eb) as [Hle | Hgt]; [left | right]; (split; [lia |]).
  - replace (eb + 1200) with ((eb - ea) + (ea + 1200)) in H by lia.
    rewrite (Z.pow_add_r 2 (eb - ea) (ea + 1200)) in H by lia.
    assert (Hp : 0 < 2 ^ (ea + 1200)) by (apply Z.pow_pos_nonneg; lia).
    rewrite Z.mul_assoc in H. apply Z.mul_le_mono_pos_r in H; assumption.
  - replace (ea + 1200) with ((ea - eb) + (eb + 1200)) in H by lia.
    rewrite (Z.pow_add_r 2 (ea - eb) (eb + 1200)) in H by lia.
    assert (Hp : 0 < 2 ^ (eb + 1200)) by (apply Z.pow_pos_nonneg; lia).
    rewrite Z.mul_assoc in H. apply Z.mul_le_mono_pos_r in H; assumption.
Qed.

Lemma digits_at_least (p : positive) (k : Z) :
  0 <= k -> 2 ^ k <= Zpos p -> k + 1 <= Zpos (digits2_pos p).
Proof.
  intros Hk H. pose proof (digits2_pos_bounds p) as [_ Hhi].
  destruct (Z_lt_le_dec (Zpos (digits2_pos p)) (k + 1)) as [Hlt |]; [exfalso | assumption].
  assert (2 ^ Zpos (digits2_pos p) <= 2 ^ k) by (apply Z.pow_le_mono_r; lia).
  lia.
Qed.

Lemma rcount_positive (a : list float) (p : positive) :
  Py.len a = Zpos p -> Zpos p < 2 ^ 53 ->
  Prim2SF (Np.rcount a) = binary_normalize prec emax (Zpos p) 0 false
  /\ exists m e, binary_normalize prec emax (Zpos p) 0 false = S754_finite false m e.
Proof.
  intros Hlen Hp. unfold Np.rcount. rewrite Hlen.
  destruct (binary_normalize_small p (digits_small p Hp)) as (m & E & Hm & Hd).
  rewrite E. split; [| eauto].
  apply Prim2SF_SF2Prim. apply bounded_53; [exact Hd |].
  pose proof (digits2_pos_bounds p). pose proof (digits_small p Hp). lia.
Qed.

(** The square of a binary64: a zero when it underflows, and otherwise
    at least two thirds of the exact square, of a normal number. *)
Lemma square_lower (sd : bool) (md : positive) (ed : Z) :
  bounded prec emax md ed = true ->
  SFmul prec emax (S754_finite sd md ed) (S754_finite sd md ed) = S754_zero false
  \/ (Zpos (digits2_pos md) = 53
      /\ -590 <= ed
      /\ (SFmul prec emax (S754_finite sd md ed) (S754_finite sd md ed)
          = S754_infinity false
          \/ exists m e,
               SFmul prec emax (S754_finite sd md ed) (S754_finite sd md ed)
               = S754_finite false m e
               /\ bounded prec emax m e = true
               /\ 2 * (Zpos (md * md) * 2 ^ (ed + ed + 1200)) <= 3 * scaled m e)).
Proof.
  intros Hb. cbn [SFmul]. rewrite xorb_nilpotent.
  pose proof (bounded_exponent _ _ Hb) as Hed.
  pose proof (bounded_spec _ _ Hb) as [Hcan _].
  pose proof (digits2_pos_bounds md) as [Hmlo Hmhi].
  pose proof (digits2_pos_bounds (md * md)) as [Hqlo Hqhi].
  set (dq := Zpos (digits2_pos (md * md))) in *.
  assert (Hm53 : Zpos md < 2 ^ 53).
  { eapply Z.lt_le_trans; [exact Hmhi |]. apply Z.pow_le_mono_r; lia. }
  assert (Hq106 : Zpos (md * md) < 2 ^ 106).
  { rewrite Pos2Z.inj_mul. change (2 ^ 106) with (2 ^ 53 * 2 ^ 53).
    change (2 ^ 53) with 9007199254740992 in *. nia. }
  assert (Hdq : dq <= 106).
  { destruct (Z_le_gt_dec dq 106) as [| Hgt]; [assumption | exfalso].
    assert (2 ^ 106 <= 2 ^ (dq - 1)) by (apply Z.pow_le_mono_r; lia). lia. }
  assert (Hnormal : -1074 < ed -> Zpos (digits2_pos md) = 53 /\ 105 <= dq).
  { intros H. pose proof (bounded_digits _ _ Hb H) as Hd. split; [exact Hd |].
    pose proof (mantissa_53 _ Hd) as Hmd.
    apply (digits_at_least (md * md) 104); [lia |].
    rewrite Pos2Z.inj_mul. change (2 ^ 104) with (2 ^ 52 * 2 ^ 52).
    change (2 ^ 52) with 4503599627370496 in *. nia. }
  destruct (Z_lt_le_dec (-1074) ed) as [Hn | Hsub].
  - destruct (Hnormal Hn) as [Hd53 Hdq105].
    destruct (Z_le_gt_dec (-1074) (ed + ed + dq - 53)) as [Hbig | Hsmall].
    + (* the square is a normal number *)
      right. split; [exact Hd53 |]. split; [lia |].
      destruct (round_lower (md * md) (ed + ed) loc_Exact ltac:(fold dq; lia) ltac:(lia)
                            ltac:(fold dq; lia))
        as [-> | (m & e & -> & Hbm & Hr)]; [left; reflexivity | right].
      exists m, e. split; [reflexivity |]. split; [exact Hbm |].
      change (Z.of_nat 1) with 1 in Hr. rewrite !Z.pow_1_r in Hr.
      pose proof (scaled_pos m e ltac:(pose proof (bounded_exponent _ _ Hbm); lia)) as HV.
      change (2 ^ 52) with 4503599627370496 in Hr. lia.
    + (* the square is a subnormal number or a zero *)
      destruct (binary_round_aux_small (md * md) (ed + ed) ltac:(lia))
        as (m1 & Hm1 & Hup & Hone & ->).
      { eapply Z.lt_le_trans; [exact Hqhi |]. apply Z.pow_le_mono_r; lia. }
      destruct m1 as [| m | m]; [left; reflexivity | right | left; reflexivity].
      split; [exact Hd53 |].
      assert (Hshift : -1074 - (ed + ed) <= 106).
      { destruct (Z_le_gt_dec (-1074 - (ed + ed)) 106) as [| Hgt]; [assumption | exfalso].
        specialize (Hone ltac:(lia)).
        assert (2 ^ 107 <= 2 ^ (-1074 - (ed + ed))) by (apply Z.pow_le_mono_r; lia).
        change (2 ^ 107) with (2 * 2 ^ 106) in *. lia. }
      split; [lia |]. right. exists m, (-1074). split; [reflexivity |].
      split; [apply bounded_unit; change (2 ^ 53) with 9007199254740992;
              change (2 ^ 52) with 4503599627370496 in Hm1; lia |].
      unfold scaled. change (-1074 + 1200) with 126.
      replace 126 with ((-1074 - (ed + ed)) + (ed + ed + 1200)) by lia.
      rewrite (Z.pow_add_r 2 (-1074 - (ed + ed)) (ed + ed + 1200)) by lia.
      assert (Hp : 0 < 2 ^ (-1074 - (ed + ed))) by (apply Z.pow_pos_nonneg; lia).
      assert (Hpe : 0 <= 2 ^ (ed + ed + 1200)) by (apply Z.pow_nonneg; lia).
      revert Hup Hp Hpe.
      generalize (2 ^ (-1074 - (ed + ed))) (2 ^ (ed + ed + 1200)) (Zpos (md * md)).
      assert (HM : 1 <= Zpos m) by lia. revert HM. generalize (Zpos m). clear.
      intros M HM P E Q Hup Hp Hpe.
      assert (H1 : 2 * Q <= 3 * (M * P)) by nia.
      replace (2 * (Q * E)) with (2 * Q * E) by ring.
      replace (3 * (M * (P * E))) with (3 * (M * P) * E) by ring.
      apply Z.mul_le_mono_nonneg_r; assumption.
  - (* the square of a subnormal number is a zero *)
    assert (Hed' : ed = -1074) by lia. subst ed.
    destruct (binary_round_aux_small (md * md) (-1074 + -1074) ltac:(lia))
      as (m1 & Hm1 & Hup & Hone & ->).
    { eapply Z.lt_le_trans; [exact Hq106 |]. apply Z.pow_le_mono_r; lia. }
    destruct m1 as [| m | m]; [left; reflexivity | exfalso | left; reflexivity].
    specialize (Hone ltac:(lia)).
    change (-1074 - (-1074 + -1074)) with 1074 in Hone.
    assert (2 ^ 107 <= 2 ^ 1074) by (apply Z.pow_le_mono_r; lia).
    change (2 ^ 107) with (2 * 2 ^ 106) in *. lia.
Qed.

(** ** The sum of zeros *)

Lemma zero_sum_add K j k x y :
  zero_sum K j x -> zero_sum K k y -> zero_sum (S K) (j + k) (x + y)%float.
Proof.
  unfold zero_sum. intros Hx Hy. rewrite add_spec, Hx, Hy. reflexivity.
Qed.

Lemma add_reduce_zero (a : list float) :
  Forall (fun x => Prim2SF x = S754_zero false) a ->
  Prim2SF (Np.add_reduce a) = S754_zero false.
Proof.
  intros Ha.
  exact (add_reduce_P zero_sum 0 (fun K => eq_refl) (fun K K' k x _ H => H)
                      zero_sum_add a Ha).
Qed.

(** ** Identical gaps *)

(** The test on a deviation whose square is not a zero, when the squares
    of the deviations are all its square: three standard deviations are
    not below it. *)
Lemma deviation_within_three_std (deviation : float) (squares : list float) :
  Forall (fun x => x = (deviation * deviation)%float) squares -> squares <> [] ->
  Py.len squares <= 2 ^ 40 ->
  (deviation * deviation =? 0)%float = false ->
  (3 * sqrt (Np.add_reduce squares / Np.rcount squares) <? abs deviation)%float = false.
Proof.
  intros Hall Hne Hlen Hdev.
  set (n := List.length squares).
  assert (Hn : (1 <= n)%nat) by (unfold n; destruct squares; [congruence | cbn; lia]).
  assert (Hn40 : Z.of_nat n <= 2 ^ 40) by exact Hlen.
  destruct (Z.of_nat n) as [| p | p] eqn:Ep; try lia.
  assert (Hp53 : Zpos p < 2 ^ 53).
  { eapply Z.le_lt_trans; [exact Hn40 | reflexivity]. }
  destruct (rcount_positive squares p Ep Hp53) as (Ercount & mn & en & Emn).
  rewrite eqb_spec, mul_spec in Hdev.
  change (Prim2SF 0) with (S754_zero false) in Hdev.
  pose proof (Prim2SF_valid deviation) as Hvalid.
  rewrite ltb_spec, mul_spec, sqrt_spec, div_spec, abs_spec, Ercount.
  change (Prim2SF 3) with SF_3.
  assert (Hinf : Prim2SF (deviation * deviation) = S754_infinity false ->
                 SFltb (SF64mul SF_3
                          (SF64sqrt (SF64div (Prim2SF (Np.add_reduce squares))
                                             (binary_normalize prec emax (Zpos p) 0 false))))
                       (SFabs (Prim2SF deviation)) = false).
  { intros Hsq.
    assert (HS : Prim2SF (Np.add_reduce squares) = S754_infinity false).
    { apply add_reduce_infinite; [| exact Hne].
      apply Forall_impl with (2 := Hall). intros x ->. exact Hsq. }
    rewrite HS, Emn. cbn [SF64div SFdiv xorb SF64sqrt SFsqrt SF64mul SFmul SF_3].
    unfold SFltb. destruct (SFabs (Prim2SF deviation)) as [s | [|] | | s m e]; reflexivity. }
  destruct (Prim2SF deviation) as [sd | sd | | sd md ed] eqn:Ed.
  - (* a zero *)
    destruct sd; discriminate Hdev.
  - (* an infinity: every square is an infinity *)
    apply Hinf. rewrite mul_spec, Ed. destruct sd; reflexivity.
  - (* a NaN *)
    unfold SFltb. cbn [SFabs]. rewrite SFcompare_nan_r. reflexivity.
  - (* a finite deviation *)
    cbn [valid_binary] in Hvalid. unfold SF64mul in Hdev.
    destruct (square_lower sd md ed Hvalid) as [Ez | (Hdd & Hed & Hsq)].
    { rewrite Ez in Hdev. discriminate Hdev. }
    pose proof (bounded_spec _ _ Hvalid) as [Hcan Hemax].
    pose proof (mantissa_53 _ Hdd) as Hmd.
    destruct Hsq as [Esq | (mi & ei & Esq & Hbi & Hi)].
    { apply Hinf. rewrite mul_spec, Ed. exact Esq. }
    cbn [SFabs].
    set (D := Zpos (md * md) * 2 ^ (ed + ed + 1200)) in *.
    pose proof (bounded_exponent _ _ Hbi) as Hei.
    pose proof (scaled_pos mi ei ltac:(lia)) as HVi.
    assert (HU : 2 ^ 126 <= scaled mi ei).
    { unfold scaled.
      assert (2 ^ 126 <= 2 ^ (ei + 1200)) by (apply Z.pow_le_mono_r; lia).
      nia. }
    assert (Hitem : lower 1 (Prim2SF (deviation * deviation)) (scaled mi ei)).
    { rewrite mul_spec, Ed. unfold SF64mul. rewrite Esq. right. exists mi, ei.
      split; [reflexivity |]. split; [exact Hbi |].
      apply Z.mul_le_mono_nonneg_r; [lia |]. apply pow_factors. }
    assert (HS : lower (S (S n)) (Prim2SF (Np.add_reduce squares))
                       (Z.of_nat n * scaled mi ei)).
    { apply add_reduce_sums; [lia | exact HVi | | exact Hne].
      apply Forall_impl with (2 := Hall). intros x ->. exact Hitem. }
    rewrite Ep in HS.
    apply lower_most in HS;
      [| rewrite !Nat2Z.inj_succ, Ep;
         apply Z.le_trans with (2 ^ 40 + 2); [lia | discriminate]
       | lia].
    destruct HS as [-> | (mS & eS & -> & HbS & HVS)];
      [rewrite Emn; cbn [SF64div SFdiv xorb SF64sqrt SFsqrt SF64mul SFmul SF_3];
       reflexivity |].
    (* the variance *)
    destruct (SFdiv_count_lower mS eS p HbS Hp53) as [Ev | (mv & ev & Ev & Hbv & HVv)].
    { clear -HU HVS. nia. }
    { unfold SF64div. rewrite Ev. reflexivity. }
    unfold SF64div. rewrite Ev.
    (* the standard deviation *)
    destruct (SFsqrt_lower mv ev Hbv)
      as [Es | (ms & es & q & e' & Es & Hbs & Hds & He' & Hq & HVs & HX)].
    { unfold SF64sqrt. rewrite Es. reflexivity. }
    unfold SF64sqrt. rewrite Es.
    cbn [SF64mul SFmul SF_3 xorb].
    pose proof (bounded_exponent _ _ Hbs) as Hes.
    pose proof (mantissa_53 _ Hds) as Hms.
    apply binary_round_aux_lower.
    + destruct (digits_ge_53 (Zpos (6755399441055744 * ms))) as (q3 & Eq3 & Hq3).
      { rewrite Pos2Z.inj_mul. change (2 ^ 52) with 4503599627370496 in *. nia. }
      injection Eq3 as Eq3. rewrite <- Eq3 in Hq3. exact Hq3.
    + lia.
    + exact Hdd.
    + apply scaled_le_split; [lia | lia |].
      (* three standard deviations are not below the deviation *)
      assert (E3 : scaled (6755399441055744 * ms) (-51 + es) = 3 * scaled ms es).
      { unfold scaled. rewrite Pos2Z.inj_mul.
        replace (es + 1200) with (51 + (-51 + es + 1200)) by lia.
        rewrite (Z.pow_add_r 2 51 (-51 + es + 1200)) by lia.
        change (2 ^ 51) with 2251799813685248. lia. }
      rewrite E3.
      assert (ED : scaled md ed * scaled md ed = D * 2 ^ 1200).
      { unfold scaled, D. rewrite Pos2Z.inj_mul.
        assert (Epow : 2 ^ (ed + ed + 1200) * 2 ^ 1200
                       = 2 ^ (ed + 1200) * 2 ^ (ed + 1200)).
        { rewrite <- !Z.pow_add_r by lia. f_equal. lia. }
        rewrite <- !Z.mul_assoc, Epow. ring. }
      pose proof (scaled_pos md ed ltac:(lia)) as HVd.
      pose proof (scaled_pos ms es ltac:(lia)) as HVs0.
      assert (Hpe : 0 < 2 ^ (e' + 1200)) by (apply Z.pow_pos_nonneg; lia).
      assert (Hp1200 : 0 < 2 ^ 1200) by (apply Z.pow_pos_nonneg; lia).
      change (2 ^ 52) with 4503599627370496 in Hq.
      assert (HN : 0 < Zpos p) by lia.
      revert ED HVd HVs0 Hpe Hp1200 HVS HVv HVs HX Hq HN Hi HVi.
      generalize (scaled md ed) (scaled ms es) (scaled mv ev) (scaled mS eS)
                 (scaled mi ei) (2 ^ (e' + 1200)) (2 ^ 1200) (Zpos q) (Zpos p) D.
      clear.
      intros Vd Vs Vv VS Vi P T Q N D ED HVd HVs0 Hpe HT HVS HVv HVs HX Hq HN Hi HVi.
      (* D <= 8 Vv *)
      assert (H1 : 7 * (N * Vi) <= 32 * (N * Vv)) by lia.
      assert (H1' : N * (7 * Vi) <= N * (32 * Vv)) by lia.
      assert (H1'' : 7 * Vi <= 32 * Vv) by (apply Z.mul_le_mono_pos_l in H1'; assumption).
      assert (H2 : D <= 8 * Vv) by lia.
      assert (H3 : Vd * Vd <= 8 * (Vv * T)).
      { rewrite ED. replace (8 * (Vv * T)) with (8 * Vv * T) by ring.
        apply Z.mul_le_mono_nonneg_r; lia. }
      set (X := (Q + 1) * P) in *.
      assert (H4 : Vd * Vd < 8 * (X * X)) by lia.
      assert (H5 : 8 * (X * X) <= (3 * (Q * P)) * (3 * (Q * P))).
      { unfold X. assert (8 * ((Q + 1) * (Q + 1)) <= 9 * (Q * Q)) by nia.
        replace (8 * ((Q + 1) * P * ((Q + 1) * P)))
          with (8 * ((Q + 1) * (Q + 1)) * (P * P)) by ring.
        replace (3 * (Q * P) * (3 * (Q * P))) with (9 * (Q * Q) * (P * P)) by ring.
        apply Z.mul_le_mono_nonneg_r; [nia | assumption]. }
      assert (H6 : 3 * (Q * P) <= 3 * Vs) by lia.
      destruct (Z_le_gt_dec Vd (3 * Vs)) as [| Hgt]; [assumption | exfalso].
      assert (0 <= Q * P) by nia.
      assert ((3 * (Q * P)) * (3 * (Q * P)) <= (3 * Vs) * (3 * Vs)) by nia.
      assert ((3 * Vs) * (3 * Vs) < Vd * Vd) by nia.
      lia.
Qed.

(** The test on a deviation whose square is a zero while it is not: the
    standard deviation is a zero, and the deviation is above three times
    that. *)
Lemma deviation_beyond_three_std (deviation : float) (squares : list float) :
  Forall (fun x => x = (deviation * deviation)%float) squares -> squares <> [] ->
  Py.len squares <= 2 ^ 40 ->
  square_underflows deviation = true ->
  (3 * sqrt (Np.add_reduce squares / Np.rcount squares) <? abs deviation)%float = true.
Proof.
  intros Hall Hne Hlen Hdev.
  set (n := List.length squares).
  assert (Hn : (1 <= n)%nat) by (unfold n; destruct squares; [congruence | cbn; lia]).
  assert (Hn40 : Z.of_nat n <= 2 ^ 40) by exact Hlen.
  destruct (Z.of_nat n) as [| p | p] eqn:Ep; try lia.
  assert (Hp53 : Zpos p < 2 ^ 53).
  { eapply Z.le_lt_trans; [exact Hn40 | reflexivity]. }
  destruct (rcount_positive squares p Ep Hp53) as (Ercount & mn & en & Emn).
  unfold square_underflows in Hdev. apply andb_prop in Hdev. destruct Hdev as [Hsq Hnz].
  apply negb_true_iff in Hnz.
  rewrite eqb_spec in Hsq, Hnz. rewrite mul_spec in Hsq.
  change (Prim2SF 0) with (S754_zero false) in Hsq, Hnz.
  rewrite ltb_spec, mul_spec, sqrt_spec, div_spec, abs_spec, Ercount.
  change (Prim2SF 3) with SF_3.
  destruct (Prim2SF deviation) as [sd | sd | | sd md ed] eqn:Ed;
    try (destruct sd; discriminate Hsq); try discriminate Hsq; try discriminate Hnz.
  assert (Ez : Prim2SF (deviation * deviation) = S754_zero false).
  { rewrite mul_spec, Ed. unfold SF64mul in *. cbn [SFmul] in *.
    rewrite xorb_nilpotent in *.
    pose proof (binary_round_aux_sign false (Zpos (md * md)) (ed + ed) loc_Exact) as Hs.
    destruct (binary_round_aux prec emax false (Zpos (md * md)) (ed + ed) loc_Exact)
      as [s | s | | s m e];
      try (destruct s; discriminate Hsq); try discriminate Hsq.
    rewrite Hs. reflexivity. }
  assert (HS : Prim2SF (Np.add_reduce squares) = S754_zero false).
  { apply add_reduce_zero. apply Forall_impl with (2 := Hall). intros x ->. exact Ez. }
  rewrite HS, Emn. reflexivity.
Qed.

(** A deviation that is a zero is no outlier. *)
Lemma is_outlier_deviation_zero (mean_interval variance interval : float) :
  (interval - mean_interval =? 0)%float = true ->
  is_outlier mean_interval (sqrt variance) interval = false.
Proof.
  intros H. unfold is_outlier. rewrite eqb_spec in H.
  rewrite ltb_spec, mul_spec, sqrt_spec, abs_spec.
  apply SFltb_zero_or_nan.
  - change (Prim2SF 3) with SF_3.
    apply SFmul_not_negative, SFsqrt_not_negative.
  - change (Prim2SF 0) with (S754_zero false) in H.
    destruct (Prim2SF (interval - mean_interval)) as [s | s | | s m e];
      try reflexivity; destruct s; discriminate H.
Qed.

(** A deviation that is a NaN is no outlier. *)
Lemma is_outlier_deviation_nan (mean_interval std_interval interval : float) :
  is_nan (interval - mean_interval) = true ->
  is_outlier mean_interval std_interval interval = false.
Proof.
  rewrite is_nan_spec. intros H. unfold is_outlier.
  rewrite ltb_spec, abs_spec, H. unfold SFltb. cbn [SFabs].
  rewrite SFcompare_nan_r. reflexivity.
Qed.

(** Gaps that are all [g]: each is flagged exactly when the square of its
    deviation from the computed mean underflows. *)
Lemma is_outlier_identical (intervals : list float) (g : float) :
  Forall (fun interval => interval = g) intervals -> intervals <> [] ->
  Py.len intervals <= 2 ^ 40 ->
  is_outlier (Np.mean intervals) (Np.std intervals) g
  = square_underflows (g - Np.mean intervals).
Proof.
  intros Hall Hne Hlen.
  destruct (square_underflows (g - Np.mean intervals)) eqn:Hu.
  - unfold is_outlier, Np.std, Np.var. cbv zeta. fold (Np.mean intervals).
    set (squares := map (fun v => v * v)%float
                        (map (fun v => v - Np.mean intervals)%float intervals)).
    assert (Hlen' : Py.len squares = Py.len intervals).
    { unfold squares, Py.len. rewrite !length_map. reflexivity. }
    replace (Np.rcount intervals) with (Np.rcount squares)
      by (unfold Np.rcount; rewrite Hlen'; reflexivity).
    apply deviation_beyond_three_std.
    + unfold squares. rewrite Forall_map, Forall_map.
      apply Forall_impl with (2 := Hall). intros x ->. reflexivity.
    + unfold squares. destruct intervals; [congruence | discriminate].
    + rewrite Hlen'. exact Hlen.
    + exact Hu.
  - unfold square_underflows in Hu. apply andb_false_elim in Hu.
    destruct Hu as [Hsq | Hz].
    + unfold is_outlier, Np.std, Np.var. cbv zeta. fold (Np.mean intervals).
      set (squares := map (fun v => v * v)%float
                          (map (fun v => v - Np.mean intervals)%float intervals)).
      assert (Hlen' : Py.len squares = Py.len intervals).
      { unfold squares, Py.len. rewrite !length_map. reflexivity. }
      replace (Np.rcount intervals) with (Np.rcount squares)
        by (unfold Np.rcount; rewrite Hlen'; reflexivity).
      apply deviation_within_three_std.
      * unfold squares. rewrite Forall_map, Forall_map.
        apply Forall_impl with (2 := Hall). intros x ->. reflexivity.
      * unfold squares. destruct intervals; [congruence | discriminate].
      * rewrite Hlen'. exact Hlen.
      * exact Hsq.
    + apply negb_false_iff in Hz. unfold Np.std.
      apply is_outlier_deviation_zero. exact Hz.
Qed.

(** The detection loop when every gap passes the test. *)
Lemma outliers_all intervals :
  Forall (fun x => is_outlier (Np.mean intervals) (Np.std intervals) x = true) intervals ->
  detect_anomalies intervals = map gap_message (seq 0 (List.length intervals)).
Proof.
  intros H. rewrite detect_anomalies_outliers. unfold outliers, Py.enumerate.
  generalize (is_outlier (Np.mean intervals) (Np.std intervals)) H. intros test Ht. clear H.
  generalize 0%nat.
  induction Ht as [| x l Hx Hl IH]; intros k; [reflexivity |].
  cbn [List.length seq combine filter snd]. rewrite Hx. cbn [map fst].
  f_equal. apply IH.
Qed.

(** C4, as the code has it. No anomaly is reported for fewer than two
    batches. When all the gaps are one value [g], none is reported if the
    computed mean of the gaps is [g], or if the deviation of [g] from the
    computed mean is a NaN. In general the computed mean of identical
    gaps is not their value, and for two to [2^40] batches no anomaly is
    reported exactly when the square of the deviation is not lost to
    underflow: three computed standard deviations are then not below the
    deviation. When the square of a deviation that is not a zero is a
    zero, so is the standard deviation, and every gap is reported. *)
Theorem no_anomaly_without_spread (device_batches : list StoredBatch.t) (g : float) :
  (Py.len device_batches < 2 -> detect_anomalies (batch_intervals device_batches) = [])
  /\ (Forall (fun interval => interval = g) (batch_intervals device_batches) ->
      ((Np.mean (batch_intervals device_batches) =? g)%float = true
       \/ is_nan (g - Np.mean (batch_intervals device_batches)) = true ->
       detect_anomalies (batch_intervals device_batches) = [])
      /\ (2 <= Py.len device_batches <= 2 ^ 40 ->
          (detect_anomalies (batch_intervals device_batches) = []
           <-> square_underflows (g - Np.mean (batch_intervals device_batches)) = false)
          /\ (square_underflows (g - Np.mean (batch_intervals device_batches)) = true ->
              detect_anomalies (batch_intervals device_batches)
              = map gap_message
                    (seq 0 (List.length (batch_intervals device_batches)))))).
Proof.
  split.
  { intros Hshort. rewrite batch_intervals_short by exact Hshort. reflexivity. }
  intros Hall. split.
  - intros Hdev. apply outliers_none.
    apply Forall_impl with (2 := Hall). intros y ->.
    destruct Hdev as [Hmean | Hnan].
    + unfold Np.std. apply is_outlier_mean_exact. exact Hmean.
    + apply is_outlier_deviation_nan. exact Hnan.
  - intros Hlen.
    pose proof (len_batch_intervals device_batches) as Hn.
    assert (Hne : batch_intervals device_batches <> []).
    { intros E. rewrite E in Hn. unfold Py.len in Hn, Hlen. cbn [List.length] in Hn. lia. }
    pose proof (is_outlier_identical (batch_intervals device_batches) g Hall Hne
                                     ltac:(lia)) as Hout.
    destruct (square_underflows (g - Np.mean (batch_intervals device_batches))).
    + assert (Hflag : detect_anomalies (batch_intervals device_batches)
                      = map gap_message
                            (seq 0 (List.length (batch_intervals device_batches)))).
      { apply outliers_all. apply Forall_impl with (2 := Hall). intros y ->. exact Hout. }
      split; [| intros _; exact Hflag].
      split; [| discriminate].
      rewrite Hflag. destruct (batch_intervals device_batches); [congruence | discriminate].
    + assert (Hnone : detect_anomalies (batch_intervals device_batches) = []).
      { apply outliers_none. apply Forall_impl with (2 := Hall). intros y ->. exact Hout. }
      split; [| discriminate].
      split; [reflexivity | intros _; exact Hnone].
Qed.

Lemma no_anomaly_without_spread_witness :
  detect_anomalies (batch_intervals tenth_gap_store) = [].
Proof.
  destruct (no_anomaly_without_spread tenth_gap_store 0.1%float) as [_ H].
  destruct (H ltac:(repeat constructor)) as [_ H2].
  destruct (H2 ltac:(vm_compute; split; discriminate)) as [[_ H3] _].
  apply H3. vm_compute. reflexivity.
Defined.

(** C4 as stated fails. The three gaps of [tiny_gap_store] are identical;
    their sum rounds up, the mean is one unit in the last place above the
    gap, the square of that deviation underflows to 0, and so does the
    standard deviation: [|gap - mean| > 3 * 0] flags every gap. *)
Lemma identical_gaps_all_flagged :
  Forall (fun interval => interval = tiny_gap) (batch_intervals tiny_gap_store)
  /\ Np.std (batch_intervals tiny_gap_store) = 0%float
  /\ (tiny_gap <? Np.mean (batch_intervals tiny_gap_store))%float = true
  /\ square_underflows (tiny_gap - Np.mean (batch_intervals tiny_gap_store)) = true
  /\ detect_anomalies (batch_intervals tiny_gap_store)
     = ["Unusual gap in telemetry at batch 0";
        "Unusual gap in telemetry at batch 1";
        "Unusual gap in telemetry at batch 2"].
Proof.
  split; [repeat constructor |]. split; [vm_compute; reflexivity |].
  split; [vm_compute; reflexivity |].
  split; vm_compute; reflexivity.
Qed.

(** C10, as the code has it. An analysis of exactly two matched batches
    reports no anomaly. Whatever the single gap is, it is no outlier. When
    it is finite, the mean equals it and the standard deviation is exactly
    0; when it is an infinity or a NaN, the standard deviation is a NaN,
    not 0, and the comparison fails all the same. *)
Theorem two_batches_no_anomaly store req now now' r :
  request_analysis store req now now' = Py.Ok (AnalysisResponse.complete r) ->
  AnalysisResponse.batches_analyzed r = 2 ->
  AnalysisResponse.indicators r = []
  /\ forall gap : float,
       detect_anomalies [gap] = []
       /\ is_outlier (Np.mean [gap]) (Np.std [gap]) gap = false
       /\ (is_finite gap = true ->
           (Np.mean [gap] =? gap)%float = true /\ Np.std [gap] = 0%float)
       /\ (is_finite gap = false -> is_nan (Np.std [gap]) = true).
Proof.
  intros H Hn. apply request_analysis_complete in H.
  destruct H as (h & w & s & c & _ & _ & _ & _ & _ & ->).
  cbn [AnalysisResponse.batches_analyzed AnalysisResponse.indicators] in *.
  split.
  - destruct (device_batches_since store _ _) as [| b1 [| b2 [| b3 l]]];
      unfold Py.len in Hn; cbn [List.length] in Hn; try lia.
    apply detect_anomalies_single.
  - intros gap. split; [apply detect_anomalies_single |].
    split; [apply is_outlier_single |].
    split; [| apply std_single_nan].
    intros Hf. split; [| apply std_single_zero; exact Hf].
    apply mean_single_eqb.
    unfold is_finite in Hf. apply negb_true_iff, orb_false_elim in Hf. tauto.
Qed.

Lemma two_batches_no_anomaly_witness :
  AnalysisResponse.indicators pair_answer = []
  /\ forall gap : float,
       detect_anomalies [gap] = []
       /\ is_outlier (Np.mean [gap]) (Np.std [gap]) gap = false
       /\ (is_finite gap = true ->
           (Np.mean [gap] =? gap)%float = true /\ Np.std [gap] = 0%float)
       /\ (is_finite gap = false -> is_nan (Np.std [gap]) = true).
Proof.
  apply (two_batches_no_anomaly pair_store day_request 2000 2001 pair_answer).
  - vm_compute. reflexivity.
  - reflexivity.
Defined.

(** C10 as stated fails. The two batches of [overflow_pair_store] carry
    finite timestamps, the first ends at [-1e308] and the second starts at
    [1e308]: their difference overflows, the single gap is an infinity, the
    mean is that infinity, and the standard deviation is a NaN, not 0. The
    analysis completes on the two batches and lists no indicator. *)
Lemma two_batches_std_not_zero :
  request_analysis overflow_pair_store day_request 2000 2001
  = Py.Ok (AnalysisResponse.complete pair_answer)
  /\ AnalysisResponse.batches_analyzed pair_answer = 2
  /\ Forall (fun b => is_finite (StoredBatch.batch_start b) = true
                      /\ is_finite (StoredBatch.batch_end b) = true)
            overflow_pair_store
  /\ batch_intervals overflow_pair_store = [infinity]
  /\ Np.mean [infinity] = infinity
  /\ is_nan (Np.std [infinity]) = true
  /\ Np.std [infinity] <> 0%float.
Proof.
  split; [vm_compute; reflexivity |]. split; [reflexivity |].
  split; [repeat constructor |]. split; [vm_compute; reflexivity |].
  split; [vm_compute; reflexivity |]. split; [vm_compute; reflexivity |].
  apply neq_of_Leibniz. vm_compute. reflexivity.
Qed.

(** ** The threat scorer *)

(** The anomaly term of three messages or more is the cap. *)
Lemma anomaly_term_cap (anomalies : list string) (a : float) :
  3 <= Py.len anomalies -> anomaly_term anomalies = Py.Ok a -> a = 0.3%float.
Proof.
  intros Hn H. unfold anomaly_term in H. apply bind_Ok in H.
  destruct H as (f & Hf & [= <-]).
  unfold Py.float_of_int in Hf.
  destruct (Py.len anomalies) as [| p | p]; try lia.
  destruct (SFmul_tenth_ge p Hn) as [E | [Hv Hlt]].
  - rewrite E in Hf. discriminate.
  - apply checked_Ok in Hf. subst f.
    unfold Py.min. rewrite ltb_spec, mul_spec, Prim2SF_SF2Prim by exact Hv.
    change (Prim2SF 0.1) with SF_0_1. change (Prim2SF 0.3) with SF_0_3.
    unfold SF64mul. rewrite Hlt. reflexivity.
Qed.

Lemma anomaly_term_values (anomalies : list string) (a : float) :
  anomalies <> [] -> anomaly_term anomalies = Py.Ok a ->
  (Py.len anomalies = 1 /\ a = 0.1%float)
  \/ (Py.len anomalies = 2 /\ a = 0.2%float)
  \/ (3 <= Py.len anomalies /\ a = 0.3%float).
Proof.
  intros Hne H.
  destruct anomalies as [| x1 [| x2 [| x3 l]]]; [congruence | | |].
  - left. split; [reflexivity |]. vm_compute in H. congruence.
  - right. left. split; [reflexivity |]. vm_compute in H. congruence.
  - right. right.
    assert (Hn : 3 <= Py.len (x1 :: x2 :: x3 :: l)).
    { unfold Py.len. cbn [List.length]. lia. }
    split; [exact Hn | exact (anomaly_term_cap _ a Hn H)].
Qed.

(** What the two increments add up to. *)
Lemma score_threat_values anomalies batch_count time_range_hours threat_score :
  score_threat anomalies batch_count time_range_hours = Py.Ok threat_score ->
  exists anomaly density : float,
    threat_score = (anomaly + density)%float
    /\ match anomalies with
       | [] => anomaly = 0%float
       | _ => anomaly_term anomalies = Py.Ok anomaly
       end
    /\ density = (if batch_count <? time_range_hours * 6 then 0.2%float else 0%float)
    /\ In threat_score scores
    /\ (0.5 <? threat_score)%float = false
    /\ In (threat_level_of threat_score) ["LOW"; "MODERATE"].
Proof.
  unfold score_threat, density_shortfall. intros H.
  apply bind_Ok in H. destruct H as (s0 & Hs0 & [= <-]).
  destruct anomalies as [| x l] eqn:E.
  - injection Hs0 as <-.
    exists 0%float, (if batch_count <? time_range_hours * 6 then 0.2%float else 0%float).
    destruct (batch_count <? time_range_hours * 6);
      (split; [reflexivity |]); (split; [reflexivity |]); (split; [reflexivity |]);
      vm_compute; intuition congruence.
  - rewrite <- E in *. apply bind_Ok in Hs0. destruct Hs0 as (a & Ha & [= <-]).
    exists a, (if batch_count <? time_range_hours * 6 then 0.2%float else 0%float).
    assert (Hne : anomalies <> []) by (subst; discriminate).
    destruct (anomaly_term_values anomalies a Hne Ha) as [[_ ->] | [[_ ->] | [_ ->]]];
      destruct (batch_count <? time_range_hours * 6);
      (split; [reflexivity |]); (split; [subst anomalies; exact Ha |]);
      (split; [reflexivity |]);
      vm_compute; intuition congruence.
Qed.

(** C1, as the code has it. The score of a completed analysis is the sum of
    the anomaly term, [min(0.3, len(anomalies) * 0.1)] or 0 without
    anomalies, and the density term, 0.2 when
    [batch_count < time_range_hours * 6] and 0 otherwise. It is one of 0,
    0.1, 0.2, 0.3, the binary64 sum [0.1 + 0.2], 0.4 and 0.5; it never
    exceeds 0.5, so the level is LOW or MODERATE. *)
Theorem threat_score_values store req now now' r :
  request_analysis store req now now' = Py.Ok (AnalysisResponse.complete r) ->
  exists anomaly density : float,
    AnalysisResponse.threat_score r = (anomaly + density)%float
    /\ match AnalysisResponse.indicators r with
       | [] => anomaly = 0%float
       | _ => anomaly_term (AnalysisResponse.indicators r) = Py.Ok anomaly
       end
    /\ density = (if AnalysisResponse.batches_analyzed r <? AnalysisResponse.hours r * 6
                  then 0.2%float else 0%float)
    /\ In (AnalysisResponse.threat_score r) scores
    /\ (0.5 <? AnalysisResponse.threat_score r)%float = false
    /\ In (AnalysisResponse.threat_level r) ["LOW"; "MODERATE"].
Proof.
  intros H. apply request_analysis_complete in H.
  destruct H as (h & w & s & c & _ & _ & _ & Hs & _ & ->).
  cbn [AnalysisResponse.threat_score AnalysisResponse.indicators
       AnalysisResponse.batches_analyzed AnalysisResponse.hours
       AnalysisResponse.threat_level].
  exact (score_threat_values _ _ _ _ Hs).
Qed.

Lemma threat_score_values_witness :
  exists anomaly density : float,
    AnalysisResponse.threat_score wide_gap_answer = (anomaly + density)%float
    /\ match AnalysisResponse.indicators wide_gap_answer with
       | [] => anomaly = 0%float
       | _ => anomaly_term (AnalysisResponse.indicators wide_gap_answer) = Py.Ok anomaly
       end
    /\ density = (if AnalysisResponse.batches_analyzed wide_gap_answer
                     <? AnalysisResponse.hours wide_gap_answer * 6
                  then 0.2%float else 0%float)
    /\ In (AnalysisResponse.threat_score wide_gap_answer) scores
    /\ (0.5 <? AnalysisResponse.threat_score wide_gap_answer)%float = false
    /\ In (AnalysisResponse.threat_level wide_gap_answer) ["LOW"; "MODERATE"].
Proof.
  apply (threat_score_values wide_gap_store day_request 2000 2001 wide_gap_answer).
  vm_compute. reflexivity.
Defined.

(** C1 as stated fails. With one anomaly and a sparse upload history the
    score of [wide_gap_store] is [0.1 + 0.2], which is none of 0.0, 0.1,
    0.2, 0.3, 0.4 and 0.5: it is above 0.3, and the level is MODERATE. *)
Lemma score_between_the_listed_values :
  request_analysis wide_gap_store day_request 2000 2001
  = Py.Ok (AnalysisResponse.complete wide_gap_answer)
  /\ AnalysisResponse.threat_score wide_gap_answer = (0.1 + 0.2)%float
  /\ ~ In (AnalysisResponse.threat_score wide_gap_answer)
          [0; 0.1; 0.2; 0.3; 0.4; 0.5]%float
  /\ (0.3 <? AnalysisResponse.threat_score wide_gap_answer)%float = true
  /\ AnalysisResponse.threat_level wide_gap_answer = "MODERATE".
Proof.
  split; [vm_compute; reflexivity |].
  split; [reflexivity |]. split; [| split; reflexivity].
  intros H. cbn [In AnalysisResponse.threat_score wide_gap_answer] in H.
  repeat (destruct H as [H | H]; [revert H; apply neq_of_Leibniz; reflexivity |]).
  exact H.
Qed.

(** "Greater than [lo] and not greater than [hi]" is the interval
    [(lo, hi]]. *)
Lemma between (lo hi s : float) :
  is_nan hi = false ->
  ((hi <? s)%float = false /\ (lo <? s)%float = true <-> (lo <? s)%float = true /\ (s <=? hi)%float = true).
Proof.
  intros Hn. split.
  - intros [Hhi Hlo]. split; [exact Hlo |].
    destruct (ltb_not_nan _ _ Hlo) as [_ Hs].
    apply ltb_false_leb; assumption.
  - intros [Hlo Hle]. split; [apply leb_ltb_false; exact Hle | exact Hlo].
Qed.

(** C3. The level of a score is decided by strict comparisons in order:
    above 0.7 CRITICAL, else above 0.5 HIGH, else above 0.3 MODERATE, else
    LOW; so HIGH is the interval (0.5, 0.7], MODERATE is (0.3, 0.5], a score
    of exactly 0.3 is LOW and one of exactly 0.5 is MODERATE. The level of
    a completed analysis is the level of its score. *)
Theorem threat_level_thresholds (threat_score : float) :
  (threat_level_of threat_score = "CRITICAL" <-> (0.7 <? threat_score)%float = true)
  /\ (threat_level_of threat_score = "HIGH"
      <-> (0.5 <? threat_score)%float = true /\ (threat_score <=? 0.7)%float = true)
  /\ (threat_level_of threat_score = "MODERATE"
      <-> (0.3 <? threat_score)%float = true /\ (threat_score <=? 0.5)%float = true)
  /\ (threat_level_of threat_score = "LOW" <-> (0.3 <? threat_score)%float = false)
  /\ threat_level_of 0.3%float = "LOW"
  /\ threat_level_of 0.5%float = "MODERATE"
  /\ (forall store req now now' r,
        request_analysis store req now now' = Py.Ok (AnalysisResponse.complete r) ->
        AnalysisResponse.threat_level r
        = threat_level_of (AnalysisResponse.threat_score r)).
Proof.
  assert (H57 : forall s, (0.7 <? s)%float = true -> (0.5 <? s)%float = true).
  { intros s. apply ltb_trans. reflexivity. }
  assert (H35 : forall s, (0.5 <? s)%float = true -> (0.3 <? s)%float = true).
  { intros s. apply ltb_trans. reflexivity. }
  pose proof (between 0.5 0.7 threat_score eq_refl)%float as B57.
  pose proof (between 0.3 0.5 threat_score eq_refl)%float as B35.
  specialize (H57 threat_score). specialize (H35 threat_score).
  unfold threat_level_of.
  destruct (0.7 <? threat_score)%float eqn:E7;
    destruct (0.5 <? threat_score)%float eqn:E5;
    destruct (0.3 <? threat_score)%float eqn:E3;
    try (specialize (H57 eq_refl); discriminate);
    try (specialize (H35 eq_refl); discriminate).
  all: repeat split; try reflexivity; try discriminate; try tauto;
    try (intros [Hlt _]; discriminate Hlt);
    try (intros [_ Hle]; apply leb_ltb_false in Hle; congruence);
    try (intros st req now now' r Hr; apply request_analysis_complete in Hr;
         destruct Hr as (h & w & s & c & _ & _ & _ & _ & _ & ->); reflexivity).
Qed.

Lemma recommend_listed anomalies batch_count level :
  recommend anomalies batch_count level =
  match listed_recommendations anomalies batch_count level with
  | [] => ["Continue normal operation"]
  | l => l
  end.
Proof.
  unfold recommend, listed_recommendations, in_strings. cbn [existsb].
  rewrite orb_false_r.
  destruct anomalies as [| a l]; destruct (batch_count <? 10);
    destruct (String.eqb level "HIGH" || String.eqb level "CRITICAL"); reflexivity.
Qed.

Lemma recommend_nonempty anomalies batch_count level :
  recommend anomalies batch_count level <> [].
Proof.
  rewrite recommend_listed.
  destruct (listed_recommendations anomalies batch_count level); discriminate.
Qed.

(** C8. The recommendations of a completed analysis are never empty: they
    are the entries of the conditions that hold, each appended on its own
    and in the fixed order, or the single entry "Continue normal operation"
    when no condition holds. *)
Theorem recommendations_never_empty store req now now' r :
  request_analysis store req now now' = Py.Ok (AnalysisResponse.complete r) ->
  AnalysisResponse.recommendations r <> []
  /\ AnalysisResponse.recommendations r =
     match listed_recommendations (AnalysisResponse.indicators r)
                                  (AnalysisResponse.batches_analyzed r)
                                  (AnalysisResponse.threat_level r) with
     | [] => ["Continue normal operation"]
     | l => l
     end.
Proof.
  intros H. apply request_analysis_complete in H.
  destruct H as (h & w & s & c & _ & _ & _ & _ & _ & ->). cbn.
  split; [apply recommend_nonempty | apply recommend_listed].
Qed.

Lemma recommendations_never_empty_witness :
  AnalysisResponse.recommendations steady_answer <> []
  /\ AnalysisResponse.recommendations steady_answer =
     match listed_recommendations (AnalysisResponse.indicators steady_answer)
                                  (AnalysisResponse.batches_analyzed steady_answer)
                                  (AnalysisResponse.threat_level steady_answer) with
     | [] => ["Continue normal operation"]
     | l => l
     end.
Proof.
  apply (recommendations_never_empty steady_store day_request 2000 2001 steady_answer).
  vm_compute. reflexivity.
Defined.

(** ** The confidence *)

Lemma Prim2SF_float_of_small (p : positive) :
  Zpos p < 2 ^ 53 ->
  Prim2SF (Py.float_of_small (Zpos p)) = binary_normalize prec emax (Zpos p) 0 false.
Proof.
  intros H. unfold Py.float_of_small. cbn [Z.ltb Z.compare Z.abs].
  rewrite of_uint63_spec, Uint63.of_Z_spec. f_equal.
  apply Z.mod_small. change wB with (2 ^ 63). split; [lia |].
  eapply Z.lt_trans; [exact H | reflexivity].
Qed.

(** From 9500 samples on, the quotient is not below 0.95. *)
Lemma int_truediv_10000_ge (t : Z) (q : float) :
  9500 <= t -> Py.int_truediv t 10000 = Py.Ok q -> (q <? 0.95)%float = false.
Proof.
  intros Ht. unfold Py.int_truediv. cbn [Z.eqb].
  destruct t as [| p | p]; try lia.
  change (Py.is_small 10000) with true. rewrite andb_true_r.
  unfold Py.is_small. cbn [Z.abs].
  destruct (Z.ltb_spec (Zpos p) (2 ^ 53)) as [Hs | Hl].
  - intros [= <-]. rewrite ltb_spec, div_spec, Prim2SF_float_of_small by exact Hs.
    change (Prim2SF (Py.float_of_small 10000)) with SF_10000.
    change (Prim2SF 0.95) with SF_0_95.
    apply SFdiv_10000_small; [exact Ht | apply digits_small; exact Hs].
  - cbn [Py.spec_of_int]. destruct (SFdiv_10000_large p Hl) as [Hv Hlt].
    intros H. apply checked_Ok in H. subst q.
    rewrite ltb_spec, Prim2SF_SF2Prim by exact Hv. exact Hlt.
Qed.

Lemma confidence_of_ge (t : Z) (c : float) :
  9500 <= t -> confidence_of t = Py.Ok c -> c = 0.95%float.
Proof.
  intros Ht H. unfold confidence_of in H. apply bind_Ok in H.
  destruct H as (q & Hq & [= <-]).
  unfold Py.min. rewrite (int_truediv_10000_ge t q Ht Hq). reflexivity.
Qed.

Lemma confidence_of_small (t : Z) :
  0 <= t < 2 ^ 53 -> confidence_of t = Py.Ok (small_confidence t).
Proof.
  intros Ht. unfold confidence_of, Py.int_truediv, small_confidence.
  cbn [Z.eqb]. change (Py.is_small 10000) with true. rewrite andb_true_r.
  unfold Py.is_small. rewrite Z.abs_eq by lia.
  destruct (Z.ltb_spec t (2 ^ 53)) as [_ | H]; [reflexivity | lia].
Qed.

Lemma rising_9500 : rising (Z.to_nat 9500) 0 (small_confidence 0) = true.
Proof. vm_compute. reflexivity. Qed.

Lemma rising_step (n : nat) :
  forall t k,
    rising n t (small_confidence t) = true -> 0 <= k < Z.of_nat n ->
    (0 <=? small_confidence (t + k))%float = true
    /\ (small_confidence (t + k) <=? small_confidence (t + k + 1))%float = true
    /\ (small_confidence (t + k + 1) <=? 0.95)%float = true.
Proof.
  induction n as [| n IH]; intros t k H Hk; [lia |].
  cbn [rising] in H. cbv zeta in H.
  apply andb_prop in H. destruct H as [H Hr].
  apply andb_prop in H. destruct H as [H H3].
  apply andb_prop in H. destruct H as [H1 H2].
  destruct (Z.eq_dec k 0) as [-> | Hne].
  - rewrite Z.add_0_r. auto.
  - replace (t + k) with (t + 1 + (k - 1)) by lia. apply IH; [exact Hr | lia].
Qed.

Lemma small_confidence_step (t : Z) :
  0 <= t < 9500 ->
  (0 <=? small_confidence t)%float = true
  /\ (small_confidence t <=? small_confidence (t + 1))%float = true
  /\ (small_confidence (t + 1) <=? 0.95)%float = true.
Proof.
  intros Ht. apply (rising_step _ 0 t rising_9500). lia.
Qed.

Lemma small_confidence_mono (d : nat) :
  forall t,
    0 <= t -> t + Z.of_nat d <= 9500 ->
    (small_confidence t <=? small_confidence (t + Z.of_nat d))%float = true.
Proof.
  induction d as [| d IH]; intros t Ht Hd.
  - rewrite Z.add_0_r. destruct (Z.eq_dec t 9500) as [-> | Hne]; [reflexivity |].
    destruct (small_confidence_step t ltac:(lia)) as (_ & H & _).
    exact (leb_refl_l _ _ H).
  - eapply leb_trans; [apply (IH t); lia |].
    replace (t + Z.of_nat (S d)) with (t + Z.of_nat d + 1) by lia.
    apply small_confidence_step. lia.
Qed.

Lemma small_confidence_range (t : Z) :
  0 <= t <= 9500 ->
  (0 <=? small_confidence t)%float = true
  /\ (small_confidence t <=? 0.95)%float = true.
Proof.
  intros Ht. destruct (Z.eq_dec t 9500) as [-> | Hne].
  - split; reflexivity.
  - destruct (small_confidence_step t ltac:(lia)) as (H0 & H1 & H2).
    split; [exact H0 | exact (leb_trans _ _ _ H1 H2)].
Qed.

(** The confidence of a non-negative total. *)
Lemma confidence_of_cases (t : Z) (c : float) :
  0 <= t -> confidence_of t = Py.Ok c ->
  (t < 9500 /\ c = small_confidence t) \/ (9500 <= t /\ c = 0.95%float).
Proof.
  intros Ht H. destruct (Z_lt_le_dec t 9500) as [Hlt | Hge].
  - left. split; [exact Hlt |].
    rewrite confidence_of_small in H; [congruence |].
    split; [lia |]. eapply Z.lt_trans; [exact Hlt | reflexivity].
  - right. split; [exact Hge | exact (confidence_of_ge t c Hge H)].
Qed.

Lemma confidence_of_range (t : Z) (c : float) :
  0 <= t -> confidence_of t = Py.Ok c ->
  (0 <=? c)%float = true /\ (c <=? 0.95)%float = true.
Proof.
  intros Ht H. destruct (confidence_of_cases t c Ht H) as [[Hlt ->] | [Hge ->]].
  - apply small_confidence_range. lia.
  - split; reflexivity.
Qed.

Lemma confidence_of_mono (t t' : Z) (c c' : float) :
  0 <= t <= t' ->
  confidence_of t = Py.Ok c -> confidence_of t' = Py.Ok c' ->
  (c <=? c')%float = true.
Proof.
  intros [Ht Htt'] H H'.
  destruct (confidence_of_cases t' c' ltac:(lia) H') as [[Hlt' ->] | [Hge' ->]].
  - destruct (confidence_of_cases t c Ht H) as [[Hlt ->] | [Hge ->]]; [| lia].
    replace t' with (t + Z.of_nat (Z.to_nat (t' - t))) by lia.
    apply small_confidence_mono; lia.
  - apply (confidence_of_range t c Ht H).
Qed.

Lemma sum_nonneg (l : list Z) : Forall (fun z => 0 <= z) l -> 0 <= Py.sum l.
Proof.
  unfold Py.sum. intros H.
  assert (G : forall acc, 0 <= acc -> 0 <= fold_left Z.add l acc).
  { induction H as [| z l Hz _ IH]; intros acc Hacc; cbn; [exact Hacc | apply IH; lia]. }
  apply G. lia.
Qed.

(** C9. The confidence of a completed analysis is
    [min(0.95, total_samples / 10000)]. When no stored sample count is
    negative it lies between 0 and 0.95, and the confidence of a larger
    total is never smaller. *)
Theorem confidence_bounded_and_monotone store req now now' r :
  request_analysis store req now now' = Py.Ok (AnalysisResponse.complete r) ->
  Forall (fun b => 0 <= StoredBatch.sample_count b) store ->
  (exists q, Py.int_truediv (AnalysisResponse.total_samples r) 10000 = Py.Ok q
             /\ AnalysisResponse.confidence r = Py.min 0.95 q)
  /\ (0 <=? AnalysisResponse.confidence r)%float = true
  /\ (AnalysisResponse.confidence r <=? 0.95)%float = true
  /\ (forall t' c',
        AnalysisResponse.total_samples r <= t' -> confidence_of t' = Py.Ok c' ->
        (AnalysisResponse.confidence r <=? c')%float = true)
  /\ (forall t' c',
        0 <= t' <= AnalysisResponse.total_samples r -> confidence_of t' = Py.Ok c' ->
        (c' <=? AnalysisResponse.confidence r)%float = true).
Proof.
  intros H Hnn. apply request_analysis_complete in H.
  destruct H as (h & w & s & c & _ & _ & _ & _ & Hc & ->).
  cbn [AnalysisResponse.total_samples AnalysisResponse.confidence].
  set (bs := device_batches_since store (AnalysisRequest.device_id req) (now - w)%float) in *.
  assert (Hsum : 0 <= Py.sum (map StoredBatch.sample_count bs)).
  { apply sum_nonneg. apply Forall_map. unfold bs, device_batches_since.
    rewrite Forall_forall in *. intros b Hb. apply filter_In in Hb. apply Hnn, Hb. }
  destruct (confidence_of_range _ _ Hsum Hc) as [H0 H1].
  repeat split; try assumption.
  - unfold confidence_of in Hc. apply bind_Ok in Hc. destruct Hc as (q & Hq & [= <-]).
    exists q. split; [exact Hq | reflexivity].
  - intros t' c' Ht' Hc'. exact (confidence_of_mono _ _ _ _ (conj Hsum Ht') Hc Hc').
  - intros t' c' Ht' Hc'. exact (confidence_of_mono _ _ _ _ Ht' Hc' Hc).
Qed.

Lemma confidence_bounded_and_monotone_witness :
  (exists q, Py.int_truediv (AnalysisResponse.total_samples steady_answer) 10000 = Py.Ok q
             /\ AnalysisResponse.confidence steady_answer = Py.min 0.95 q)
  /\ (0 <=? AnalysisResponse.confidence steady_answer)%float = true
  /\ (AnalysisResponse.confidence steady_answer <=? 0.95)%float = true
  /\ (forall t' c',
        AnalysisResponse.total_samples steady_answer <= t' ->
        confidence_of t' = Py.Ok c' ->
        (AnalysisResponse.confidence steady_answer <=? c')%float = true)
  /\ (forall t' c',
        0 <= t' <= AnalysisResponse.total_samples steady_answer ->
        confidence_of t' = Py.Ok c' ->
        (c' <=? AnalysisResponse.confidence steady_answer)%float = true).
Proof.
  apply (confidence_bounded_and_monotone steady_store day_request 2000 2001 steady_answer).
  - vm_compute. reflexivity.
  - repeat constructor; discriminate.
Defined.

(** ** Requests that match nothing *)

(** C6, as the code has it. The cutoff is computed before any batch is
    looked at: a request whose [time_range_hours] is [None], or whose
    window in seconds no float holds, raises a [TypeError], respectively an
    [OverflowError], whatever the store holds. For every other request the
    analysis answers with the insufficient_data status exactly when the
    batches of the device in the requested window are none: the answer is
    then a success, it carries a message and a recommendation and no
    score, and no part of the scoring is evaluated. *)
Theorem insufficient_data_iff_nothing_matches store req now now' :
  (matched_batches store req now = Py.Ok []
   <-> exists message recommendation,
         request_analysis store req now now'
         = Py.Ok (AnalysisResponse.insufficient_data message recommendation))
  /\ (forall time_range_hours,
        AnalysisRequest.time_range_hours req = Some time_range_hours ->
        matched_batches store req now = Py.Ok [] ->
        request_analysis store req now now'
        = Py.Ok (AnalysisResponse.insufficient_data
                   ("No telemetry in last " ++ Py.str_of_int time_range_hours
                      ++ " hours")%string
                   "Continue baseline collection"))
  /\ (forall time_range_hours window,
        AnalysisRequest.time_range_hours req = Some time_range_hours ->
        Py.float_of_int (time_range_hours * 3600) = Py.Ok window ->
        matched_batches store req now
        = Py.Ok (device_batches_since store (AnalysisRequest.device_id req)
                                      (now - window)%float)
        /\ (device_batches_since store (AnalysisRequest.device_id req)
                                 (now - window)%float = []
            <-> exists message recommendation,
                  request_analysis store req now now'
                  = Py.Ok (AnalysisResponse.insufficient_data message recommendation)))
  /\ (AnalysisRequest.time_range_hours req = None ->
      request_analysis store req now now' = Py.Raise Py.TypeError)
  /\ (forall time_range_hours e,
        AnalysisRequest.time_range_hours req = Some time_range_hours ->
        Py.float_of_int (time_range_hours * 3600) = Py.Raise e ->
        e = Py.OverflowError
        /\ request_analysis store req now now' = Py.Raise Py.OverflowError).
Proof.
  unfold matched_batches, request_analysis.
  destruct (AnalysisRequest.time_range_hours req) as [h |].
  - destruct (Py.float_of_int (h * 3600)) as [w | e] eqn:Ew; cbn [Py.bind].
    + split; [| split; [| split; [| split]]].
      * destruct (device_batches_since store (AnalysisRequest.device_id req)
                                       (now - w)%float) as [| b bs].
        -- split; [eauto | reflexivity].
        -- split; [intros [=] |]. intros (m & r & H). exfalso. revert H.
           destruct (score_threat _ _ _) as [s | e]; cbn [Py.bind]; [| discriminate].
           destruct (confidence_of _) as [c | e]; cbn [Py.bind]; discriminate.
      * intros h' [= <-] [= ->]. reflexivity.
      * intros h' w' [= <-]. rewrite Ew. intros [= <-]. split; [reflexivity |].
        destruct (device_batches_since store (AnalysisRequest.device_id req)
                                       (now - w)%float) as [| b bs].
        -- split; [eauto | reflexivity].
        -- split; [intros [=] |]. intros (m & r & H). exfalso. revert H.
           destruct (score_threat _ _ _) as [s | e]; cbn [Py.bind]; [| discriminate].
           destruct (confidence_of _) as [c | e]; cbn [Py.bind]; discriminate.
      * discriminate.
      * intros h' e [= <-]. rewrite Ew. discriminate.
    + split; [| split; [| split; [| split]]].
      * split; [intros [=] | intros (m & r & [=])].
      * intros h' _ [=].
      * intros h' w' [= <-]. rewrite Ew. discriminate.
      * discriminate.
      * intros h' e' [= <-]. rewrite Ew. intros [= <-].
        unfold Py.float_of_int, Py.checked in Ew.
        destruct (binary_normalize prec emax (h * 3600) 0 false);
          try discriminate Ew. injection Ew as <-. split; reflexivity.
  - split; [| split; [| split; [| split]]].
    + split; [intros [=] | intros (m & r & [=])].
    + intros h' [=].
    + intros h' w' [=].
    + reflexivity.
    + intros h' e [=].
Qed.

(** C6 as stated fails. No batch is stored, so no batch matches whatever
    the window is; yet a request without [time_range_hours] raises a
    [TypeError], and one for [2^1024] hours an [OverflowError]. *)
Lemma nothing_matches_and_the_request_fails :
  request_analysis [] (AnalysisRequest.mk "d1" None) 2000 2001 = Py.Raise Py.TypeError
  /\ request_analysis [] (AnalysisRequest.mk "d1" (Some (2 ^ 1024))) 2000 2001
     = Py.Raise Py.OverflowError
  /\ ~ (forall (store : list StoredBatch.t) req now now',
          batches_of store (AnalysisRequest.device_id req) = [] ->
          exists message recommendation,
            request_analysis store req now now'
            = Py.Ok (AnalysisResponse.insufficient_data message recommendation)).
Proof.
  split; [reflexivity |]. split; [vm_compute; reflexivity |].
  intros H.
  destruct (H [] (AnalysisRequest.mk "d1" None) 2000%float 2001%float eq_refl)
    as (m & r & Hr).
  discriminate Hr.
Qed.

(** ** Forensic reports *)

(** The builtins [min] and [max] return an item that no item is strictly
    below, respectively above. *)
Lemma min_seq_least (rest : list float) :
  forall first,
    In (Py.min_seq first rest) (first :: rest)
    /\ forall x, In x (first :: rest) -> (x <? Py.min_seq first rest)%float = false.
Proof.
  unfold Py.min_seq.
  assert (G : forall seen best,
             In best seen ->
             (forall x, In x seen -> (x <? best)%float = false) ->
             In (fold_left (fun best x => if (x <? best)%float then x else best) rest best)
                (seen ++ rest)
             /\ forall x, In x (seen ++ rest) ->
                          (x <? fold_left (fun best x => if (x <? best)%float then x else best)
                                          rest best)%float = false).
  { induction rest as [| y rest IH]; intros seen best Hin Hle.
    - cbn. rewrite app_nil_r. split; assumption.
    - cbn [fold_left].
      replace (seen ++ y :: rest) with ((seen ++ [y]) ++ rest)
        by (rewrite <- app_assoc; reflexivity).
      destruct (y <? best)%float eqn:E; apply IH.
      + apply in_or_app. right. left. reflexivity.
      + intros x Hx. apply in_app_or in Hx. destruct Hx as [Hx | [<- | []]].
        * destruct (x <? y)%float eqn:Exy; [| reflexivity].
          rewrite <- (Hle x Hx). symmetry. exact (ltb_trans _ _ _ Exy E).
        * apply ltb_irrefl.
      + apply in_or_app. left. exact Hin.
      + intros x Hx. apply in_app_or in Hx. destruct Hx as [Hx | [<- | []]].
        * apply Hle, Hx.
        * exact E. }
  intros first. apply (G [first] first).
  - left. reflexivity.
  - intros x [<- | []]. apply ltb_irrefl.
Qed.

Lemma max_seq_greatest (rest : list float) :
  forall first,
    In (Py.max_seq first rest) (first :: rest)
    /\ forall x, In x (first :: rest) -> (Py.max_seq first rest <? x)%float = false.
Proof.
  unfold Py.max_seq.
  assert (G : forall seen best,
             In best seen ->
             (forall x, In x seen -> (best <? x)%float = false) ->
             In (fold_left (fun best x => if (best <? x)%float then x else best) rest best)
                (seen ++ rest)
             /\ forall x, In x (seen ++ rest) ->
                          (fold_left (fun best x => if (best <? x)%float then x else best)
                                     rest best <? x)%float = false).
  { induction rest as [| y rest IH]; intros seen best Hin Hle.
    - cbn. rewrite app_nil_r. split; assumption.
    - cbn [fold_left].
      replace (seen ++ y :: rest) with ((seen ++ [y]) ++ rest)
        by (rewrite <- app_assoc; reflexivity).
      destruct (best <? y)%float eqn:E; apply IH.
      + apply in_or_app. right. left. reflexivity.
      + intros x Hx. apply in_app_or in Hx. destruct Hx as [Hx | [<- | []]].
        * destruct (y <? x)%float eqn:Eyx; [| reflexivity].
          rewrite <- (Hle x Hx). symmetry. exact (ltb_trans _ _ _ E Eyx).
        * apply ltb_irrefl.
      + apply in_or_app. left. exact Hin.
      + intros x Hx. apply in_app_or in Hx. destruct Hx as [Hx | [<- | []]].
        * apply Hle, Hx.
        * exact E. }
  intros first. apply (G [first] first).
  - left. reflexivity.
  - intros x [<- | []]. apply ltb_irrefl.
Qed.

Section ForensicsFacts.

Variable localtime_isoformat : float -> Localtime.t.

Lemma fromtimestamp_isoformat_raises (t : float) (e : Py.exn) :
  fromtimestamp_isoformat localtime_isoformat t = Py.Raise e ->
  e = Py.ValueError \/ e = Py.OverflowError \/ e = Py.OSError.
Proof.
  unfold fromtimestamp_isoformat.
  destruct (is_nan t); [intros [= <-]; auto |].
  destruct ((-9223372036854775808 <=? t)%float && (t <=? 9223372036854775808)%float);
    [| intros [= <-]; auto].
  destruct (localtime_isoformat t); [discriminate | | |]; intros [= <-]; auto.
Qed.

(** C7, as the code has it. The report fails with the 404 of NotFound
    exactly when the device has no stored batch. With at least one batch,
    the earliest start and the latest end are taken with [min] and [max];
    when [datetime.fromtimestamp] accepts both, the report succeeds and its
    duration is their difference divided by 3600, whatever its sign;
    otherwise the handler fails with what the first conversion that fails
    raises, the start before the end: a [ValueError], an [OverflowError]
    or an [OSError]. *)
Theorem forensic_report_outcomes store req generated_at :
  let device_batches :=
    filter (fun b => String.eqb (StoredBatch.device_id b) (AnalysisRequest.device_id req))
           store in
  let first_batch :=
    match map StoredBatch.batch_start device_batches with
    | first :: rest => Py.min_seq first rest
    | [] => 0%float
    end in
  let last_batch :=
    match map StoredBatch.batch_end device_batches with
    | first :: rest => Py.max_seq first rest
    | [] => 0%float
    end in
  (generate_forensic_report localtime_isoformat store req generated_at
   = Py.Raise (Py.HTTPException 404 "No telemetry found for device")
   <-> device_batches = [])
  /\ (device_batches <> [] ->
      In first_batch (map StoredBatch.batch_start device_batches)
      /\ (forall b, In b device_batches ->
                    (StoredBatch.batch_start b <? first_batch)%float = false)
      /\ In last_batch (map StoredBatch.batch_end device_batches)
      /\ (forall b, In b device_batches ->
                    (last_batch <? StoredBatch.batch_end b)%float = false)
      /\ match fromtimestamp_isoformat localtime_isoformat first_batch,
               fromtimestamp_isoformat localtime_isoformat last_batch with
         | Py.Ok period_start, Py.Ok period_end =>
             exists report,
               generate_forensic_report localtime_isoformat store req generated_at
               = Py.Ok report
               /\ ForensicReport.duration_hours report
                  = ((last_batch - first_batch) / 3600)%float
               /\ ForensicReport.period_start report = period_start
               /\ ForensicReport.period_end report = period_end
               /\ ForensicReport.total_batches report = Py.len device_batches
         | Py.Raise e, _ | Py.Ok _, Py.Raise e =>
             generate_forensic_report localtime_isoformat store req generated_at
             = Py.Raise e
             /\ (e = Py.ValueError \/ e = Py.OverflowError \/ e = Py.OSError)
         end).
Proof.
  cbv zeta. unfold generate_forensic_report.
  destruct (filter _ store) as [| b others] eqn:E.
  - split; [split; reflexivity | congruence].
  - cbn [map].
    destruct (min_seq_least (map StoredBatch.batch_start others) (StoredBatch.batch_start b))
      as [Hmin_in Hmin].
    destruct (max_seq_greatest (map StoredBatch.batch_end others) (StoredBatch.batch_end b))
      as [Hmax_in Hmax].
    set (first_batch := Py.min_seq _ _) in *.
    set (last_batch := Py.max_seq _ _) in *.
    assert (Hnot : forall r : Py.result ForensicReport.t,
               (exists e, r = Py.Raise e
                          /\ (e = Py.ValueError \/ e = Py.OverflowError \/ e = Py.OSError))
               \/ (exists report, r = Py.Ok report) ->
               r <> Py.Raise (Py.HTTPException 404 "No telemetry found for device")).
    { intros r [(e & -> & [-> | [-> | ->]]) | (report & ->)]; discriminate. }
    split.
    + split; [| discriminate]. intros H. exfalso. revert H. apply Hnot.
      destruct (fromtimestamp_isoformat localtime_isoformat first_batch) as [s1 | e1] eqn:E1;
        cbn [Py.bind].
      * destruct (fromtimestamp_isoformat localtime_isoformat last_batch) as [s2 | e2] eqn:E2;
          cbn [Py.bind]; [right; eauto | left].
        exists e2. split; [reflexivity | exact (fromtimestamp_isoformat_raises _ _ E2)].
      * left. exists e1. split; [reflexivity | exact (fromtimestamp_isoformat_raises _ _ E1)].
    + intros _.
      split; [exact Hmin_in |].
      split; [intros x Hx; apply Hmin; change (In (StoredBatch.batch_start x)
                                                (map StoredBatch.batch_start (b :: others)));
              apply in_map; exact Hx |].
      split; [exact Hmax_in |].
      split; [intros x Hx; apply Hmax; change (In (StoredBatch.batch_end x)
                                                (map StoredBatch.batch_end (b :: others)));
              apply in_map; exact Hx |].
      destruct (fromtimestamp_isoformat localtime_isoformat first_batch) as [s1 | e1] eqn:E1;
        cbn [Py.bind].
      * destruct (fromtimestamp_isoformat localtime_isoformat last_batch) as [s2 | e2] eqn:E2;
          cbn [Py.bind].
        -- eexists. split; [reflexivity |]. cbn. repeat split; reflexivity.
        -- split; [reflexivity | exact (fromtimestamp_isoformat_raises _ _ E2)].
      * split; [reflexivity | exact (fromtimestamp_isoformat_raises _ _ E1)].
Qed.

End ForensicsFacts.

(** C7 as stated fails. [far_future_store] holds a batch of the device,
    and [datetime.fromtimestamp(1e300)] overflows on every platform: the
    handler raises, and there is no report. *)
Lemma stored_batch_without_report :
  ~ (forall localtime_isoformat store req generated_at,
        filter (fun b => String.eqb (StoredBatch.device_id b) (AnalysisRequest.device_id req))
               store <> [] ->
        exists report,
          generate_forensic_report localtime_isoformat store req generated_at
          = Py.Ok report).
Proof.
  intros H.
  destruct (H (fun _ => Localtime.isoformat "2026-01-01T00:00:00") far_future_store day_request
              "2026-01-01T00:00:00" ltac:(discriminate)) as [report Hr].
  vm_compute in Hr. discriminate Hr.
Qed.

(** A batch that ends before it starts: the duration is negative and is
    reported as it is. *)
Example negative_duration_reported :
  exists report,
    generate_forensic_report (fun _ => Localtime.isoformat "1970-01-01T00:00:00") backwards_store
                             day_request "2026-01-01T00:00:00"
    = Py.Ok report
    /\ ForensicReport.duration_hours report = (-2)%float.
Proof. eexists. split; [vm_compute; reflexivity | reflexivity]. Qed.

(** * Further properties of the handlers *)

(** ** What the handlers answer and what the next request sees *)

Lemma len_push_min {A} (cap : Z) (l : list A) (x : A) :
  0 < cap -> Py.len (push cap l x) = Z.min (Py.len l + 1) cap.
Proof.
  intros Hc. unfold push.
  assert (Hl : Py.len (l ++ [x]) = Py.len l + 1) by (rewrite len_app; reflexivity).
  destruct (Z.ltb_spec cap (Py.len (l ++ [x]))) as [H | H].
  - rewrite len_slice_last by lia. lia.
  - lia.
Qed.

(** The entry an insert appends is the last one of the list it leaves, and
    what precedes it is the end of the former list. *)
Lemma push_last {A} (cap : Z) (l : list A) (x : A) :
  0 < cap ->
  exists dropped kept, l = dropped ++ kept /\ push cap l x = kept ++ [x].
Proof.
  intros Hc. unfold push.
  destruct (Z.ltb_spec cap (Py.len (l ++ [x]))) as [H | H].
  - exists (firstn (Z.to_nat (Py.len (l ++ [x]) - cap)) l),
           (skipn (Z.to_nat (Py.len (l ++ [x]) - cap)) l).
    split; [symmetry; apply firstn_skipn |].
    unfold Py.slice_last. rewrite skipn_app.
    replace (Z.to_nat (Py.len (l ++ [x]) - cap) - List.length l)%nat with 0%nat.
    + reflexivity.
    + rewrite len_app. unfold Py.len. cbn [List.length]. lia.
  - exists [], l. split; reflexivity.
Qed.

(** X1. The [batch_id] an upload is answered with is the number of batches
    the store holds once the batch is in, [min(len + 1, 10000)] for a store
    of [len] batches, and [batches_stored] is the same number. After [ops]
    it is the number of uploads so far plus one, capped at 10,000: from the
    10,000th upload on, every upload is answered with the id 10000. *)
Theorem upload_response_counts (st : State) (ops : list Insert) batch now now' :
  (UploadResponse.batch_id (snd (upload_telemetry st batch now now'))
   = Z.min (Py.len (TELEMETRY_STORE st) + 1) 10000
   /\ UploadResponse.batches_stored (snd (upload_telemetry st batch now now'))
      = UploadResponse.batch_id (snd (upload_telemetry st batch now now'))
   /\ UploadResponse.batch_id (snd (upload_telemetry st batch now now'))
      = Py.len (TELEMETRY_STORE (fst (upload_telemetry st batch now now'))))
  /\ UploadResponse.batch_id (snd (upload_telemetry (run ops) batch now now'))
     = Z.min (Py.len (uploaded ops) + 1) 10000.
Proof.
  assert (G : forall st', UploadResponse.batch_id (snd (upload_telemetry st' batch now now'))
                          = Z.min (Py.len (TELEMETRY_STORE st') + 1) 10000).
  { intros st'.
    change (UploadResponse.batch_id (snd (upload_telemetry st' batch now now')))
      with (Py.len (push 10000 (TELEMETRY_STORE st') (StoredBatch.of_batch batch now))).
    apply len_push_min. lia. }
  split; [split; [apply G | split; reflexivity] |].
  rewrite G. destruct (run_stores ops) as [-> _].
  rewrite len_slice_last by lia. lia.
Qed.

(** X2. The [threat_id] a report is answered with is the number of threats
    the database holds once the report is in, [min(len + 1, 1000)] for a
    database of [len] threats; the telemetry store is left as it was. After
    [ops] it is the number of reports so far plus one, capped at 1,000. *)
Theorem report_response_counts (st : State) (ops : list Insert) threat now :
  (ReportResponse.threat_id (snd (report_threat st threat now))
   = Z.min (Py.len (THREAT_DATABASE st) + 1) 1000
   /\ ReportResponse.threat_id (snd (report_threat st threat now))
      = Py.len (THREAT_DATABASE (fst (report_threat st threat now)))
   /\ TELEMETRY_STORE (fst (report_threat st threat now)) = TELEMETRY_STORE st)
  /\ ReportResponse.threat_id (snd (report_threat (run ops) threat now))
     = Z.min (Py.len (reported ops) + 1) 1000.
Proof.
  assert (G : forall st', ReportResponse.threat_id (snd (report_threat st' threat now))
                          = Z.min (Py.len (THREAT_DATABASE st') + 1) 1000).
  { intros st'.
    change (ReportResponse.threat_id (snd (report_threat st' threat now)))
      with (Py.len (push 1000 (THREAT_DATABASE st') (StoredThreat.of_report threat now))).
    apply len_push_min. lia. }
  split; [split; [apply G | split; reflexivity] |].
  rewrite G. destruct (run_stores ops) as [_ ->].
  rewrite len_slice_last by lia. lia.
Qed.

Lemma upload_store_last (st : State) batch now now' :
  exists dropped kept,
    TELEMETRY_STORE st = dropped ++ kept
    /\ TELEMETRY_STORE (fst (upload_telemetry st batch now now'))
       = kept ++ [StoredBatch.of_batch batch now].
Proof.
  destruct (upload_store st batch now now') as [-> _]. apply push_last. lia.
Qed.

Lemma filter_last_nonempty {A} (f : A -> bool) (l : list A) (x : A) :
  f x = true -> filter f (l ++ [x]) <> [].
Proof.
  intros H. rewrite filter_app. cbn [filter]. rewrite H.
  intros E. apply app_eq_nil in E. destruct E as [_ E]. discriminate.
Qed.


(** ** The outcomes of an analysis *)

Lemma float_of_int_raises (z : Z) (e : Py.exn) :
  Py.float_of_int z = Py.Raise e -> e = Py.OverflowError.
Proof.
  unfold Py.float_of_int, Py.checked.
  destruct (binary_normalize prec emax z 0 false); congruence.
Qed.

Lemma score_threat_raises anomalies batch_count time_range_hours (e : Py.exn) :
  score_threat anomalies batch_count time_range_hours = Py.Raise e -> e = Py.OverflowError.
Proof.
  unfold score_threat, anomaly_term.
  destruct anomalies as [| a l]; cbn [Py.bind]; [discriminate |].
  destruct (Py.float_of_int (Py.len (a :: l))) as [n | e'] eqn:E; cbn [Py.bind];
    [discriminate |].
  intros [= <-]. exact (float_of_int_raises _ _ E).
Qed.

Lemma confidence_of_raises (t : Z) (e : Py.exn) :
  confidence_of t = Py.Raise e -> e = Py.OverflowError.
Proof.
  unfold confidence_of, Py.int_truediv. cbn [Z.eqb].
  destruct (Py.is_small t && Py.is_small 10000); cbn [Py.bind]; [discriminate |].
  unfold Py.checked.
  destruct (SFdiv prec emax (Py.spec_of_int t) (Py.spec_of_int 10000)); cbn [Py.bind];
    congruence.
Qed.

(** An analysis that matched a batch completes, unless a conversion to
    float overflows. *)
Lemma request_analysis_matched store req now now' h w :
  AnalysisRequest.time_range_hours req = Some h ->
  Py.float_of_int (h * 3600) = Py.Ok w ->
  device_batches_since store (AnalysisRequest.device_id req) (now - w)%float <> [] ->
  (exists r, request_analysis store req now now' = Py.Ok (AnalysisResponse.complete r)
             /\ AnalysisResponse.batches_analyzed r
                = Py.len (device_batches_since store (AnalysisRequest.device_id req)
                                               (now - w)%float))
  \/ request_analysis store req now now' = Py.Raise Py.OverflowError.
Proof.
  intros Hh Hw Hne. unfold request_analysis. rewrite Hh, Hw. cbn [Py.bind].
  destruct (device_batches_since store (AnalysisRequest.device_id req) (now - w)%float)
    as [| b bs] eqn:E; [congruence |].
  destruct (score_threat _ _ h) as [s | e] eqn:Es; cbn [Py.bind].
  - destruct (confidence_of _) as [c | e] eqn:Ec; cbn [Py.bind].
    + left. eexists. split; reflexivity.
    + right. rewrite (confidence_of_raises _ _ Ec). reflexivity.
  - right. rewrite (score_threat_raises _ _ _ _ Es). reflexivity.
Qed.

(** X3. [request_analysis] raises a [TypeError] exactly when
    [time_range_hours] is [None]; whatever else it raises is an
    [OverflowError], never an HTTP error. A completed analysis covers at
    least one batch and at most the whole store, echoes the requested hours
    and carries the clock reading of the answer. *)
Theorem request_analysis_outcomes store req now now' :
  (request_analysis store req now now' = Py.Raise Py.TypeError
   <-> AnalysisRequest.time_range_hours req = None)
  /\ (forall e, request_analysis store req now now' = Py.Raise e ->
                e = Py.TypeError \/ e = Py.OverflowError)
  /\ (forall r, request_analysis store req now now' = Py.Ok (AnalysisResponse.complete r) ->
                1 <= AnalysisResponse.batches_analyzed r <= Py.len store
                /\ Some (AnalysisResponse.hours r) = AnalysisRequest.time_range_hours req
                /\ AnalysisResponse.timestamp r = now').
Proof.
  split; [| split].
  - unfold request_analysis.
    destruct (AnalysisRequest.time_range_hours req) as [h |]; [| split; reflexivity].
    split; [| discriminate]. intros H. exfalso. revert H.
    destruct (Py.float_of_int (h * 3600)) as [w | e] eqn:Ew; cbn [Py.bind].
    + destruct (device_batches_since _ _ _) as [| b bs]; [discriminate |].
      destruct (score_threat _ _ h) as [s | e] eqn:Es; cbn [Py.bind].
      * destruct (confidence_of _) as [c | e] eqn:Ec; cbn [Py.bind]; [discriminate |].
        rewrite (confidence_of_raises _ _ Ec). discriminate.
      * rewrite (score_threat_raises _ _ _ _ Es). discriminate.
    + rewrite (float_of_int_raises _ _ Ew). discriminate.
  - intros e. unfold request_analysis.
    destruct (AnalysisRequest.time_range_hours req) as [h |];
      [| intros [= <-]; left; reflexivity].
    destruct (Py.float_of_int (h * 3600)) as [w | e'] eqn:Ew; cbn [Py.bind].
    + destruct (device_batches_since _ _ _) as [| b bs]; [discriminate |].
      destruct (score_threat _ _ h) as [s | e'] eqn:Es; cbn [Py.bind].
      * destruct (confidence_of _) as [c | e'] eqn:Ec; cbn [Py.bind]; [discriminate |].
        intros [= <-]. right. exact (confidence_of_raises _ _ Ec).
      * intros [= <-]. right. exact (score_threat_raises _ _ _ _ Es).
    + intros [= <-]. right. exact (float_of_int_raises _ _ Ew).
  - intros r H. apply request_analysis_complete in H.
    destruct H as (h & w & s & c & Hh & _ & Hne & _ & _ & ->).
    cbn [AnalysisResponse.batches_analyzed AnalysisResponse.hours AnalysisResponse.timestamp].
    split; [| split; [symmetry; exact Hh | reflexivity]].
    unfold device_batches_since in *.
    match goal with |- context [filter ?f store] => set (f' := f) in * end.
    pose proof (filter_length_le f' store) as Hle.
    unfold Py.len. destruct (filter f' store); [congruence |]. cbn [List.length] in *. lia.
Qed.

Lemma request_analysis_outcomes_witness :
  1 <= AnalysisResponse.batches_analyzed steady_answer <= Py.len steady_store
  /\ Some (AnalysisResponse.hours steady_answer) = AnalysisRequest.time_range_hours day_request
  /\ AnalysisResponse.timestamp steady_answer = 2001%float.
Proof.
  apply (proj2 (proj2 (request_analysis_outcomes steady_store day_request 2000 2001))).
  vm_compute. reflexivity.
Defined.

(** ** An upload and the requests that follow it *)

(** X4. Once a batch is uploaded, an analysis of its device whose cutoff
    lies before the clock reading stored with the batch does not answer
    insufficient_data: it completes and covers at least one batch, unless a
    conversion to float overflows. *)
Theorem uploaded_batch_is_analysed
        (st : State) batch (now now' : float) req (h : Z) (w t t' : float) :
  AnalysisRequest.device_id req = TelemetryBatch.device_id batch ->
  AnalysisRequest.time_range_hours req = Some h ->
  Py.float_of_int (h * 3600) = Py.Ok w ->
  (t - w <? now)%float = true ->
  (exists r,
      request_analysis (TELEMETRY_STORE (fst (upload_telemetry st batch now now'))) req t t'
      = Py.Ok (AnalysisResponse.complete r)
      /\ 1 <= AnalysisResponse.batches_analyzed r)
  \/ request_analysis (TELEMETRY_STORE (fst (upload_telemetry st batch now now'))) req t t'
     = Py.Raise Py.OverflowError.
Proof.
  intros Hd Hh Hw Hlt.
  destruct (upload_store_last st batch now now') as (dropped & kept & _ & E).
  assert (Hne : device_batches_since
                  (TELEMETRY_STORE (fst (upload_telemetry st batch now now')))
                  (AnalysisRequest.device_id req) (t - w)%float <> []).
  { rewrite E. unfold device_batches_since. apply filter_last_nonempty.
    cbn [StoredBatch.of_batch StoredBatch.device_id StoredBatch.received_at].
    rewrite Hd, String.eqb_refl, Hlt. reflexivity. }
  destruct (request_analysis_matched _ req t t' h w Hh Hw Hne) as [(r & Hr & Hn) | Hr];
    [left | right; exact Hr].
  exists r. split; [exact Hr |]. rewrite Hn.
  unfold Py.len.
  destruct (device_batches_since _ _ _); [congruence | cbn [List.length]; lia].
Qed.

Lemma uploaded_batch_is_analysed_witness :
  (exists r,
      request_analysis
        (TELEMETRY_STORE
           (fst (upload_telemetry initial_state
                                  (TelemetryBatch.mk "d1" "gAAAAAB" 0 300 100) 1000 1001)))
        day_request 2000 2001
      = Py.Ok (AnalysisResponse.complete r)
      /\ 1 <= AnalysisResponse.batches_analyzed r)
  \/ request_analysis
       (TELEMETRY_STORE
          (fst (upload_telemetry initial_state
                                 (TelemetryBatch.mk "d1" "gAAAAAB" 0 300 100) 1000 1001)))
       day_request 2000 2001
     = Py.Raise Py.OverflowError.
Proof.
  apply (uploaded_batch_is_analysed initial_state
           (TelemetryBatch.mk "d1" "gAAAAAB" 0 300 100) 1000 1001 day_request
           24 86400 2000 2001); reflexivity.
Defined.

Section UploadThenReport.

Variable localtime_isoformat : float -> Localtime.t.

Lemma forensic_report_found store req generated_at :
  batches_of store (AnalysisRequest.device_id req) <> [] ->
  forall status_code detail,
    generate_forensic_report localtime_isoformat store req generated_at
    <> Py.Raise (Py.HTTPException status_code detail).
Proof.
  unfold batches_of, generate_forensic_report. intros Hne code detail.
  destruct (filter _ store) as [| b others]; [congruence |]. cbv zeta.
  destruct (fromtimestamp_isoformat localtime_isoformat (Py.min_seq _ _))
    as [s1 | e1] eqn:E1; cbn [Py.bind].
  - destruct (fromtimestamp_isoformat localtime_isoformat (Py.max_seq _ _))
      as [s2 | e2] eqn:E2; cbn [Py.bind]; [discriminate |].
    destruct (fromtimestamp_isoformat_raises _ _ _ E2) as [-> | [-> | ->]]; discriminate.
  - destruct (fromtimestamp_isoformat_raises _ _ _ E1) as [-> | [-> | ->]]; discriminate.
Qed.

(** X5. Once a batch is uploaded, the forensic report of its device never
    fails with an HTTP error, the 404 included, whatever the store held
    before. *)
Theorem uploaded_batch_has_report (st : State) batch now now' hours generated_at :
  forall status_code detail,
    generate_forensic_report
      localtime_isoformat
      (TELEMETRY_STORE (fst (upload_telemetry st batch now now')))
      (AnalysisRequest.mk (TelemetryBatch.device_id batch) hours) generated_at
    <> Py.Raise (Py.HTTPException status_code detail).
Proof.
  apply forensic_report_found. cbn [AnalysisRequest.device_id].
  destruct (upload_store_last st batch now now') as (dropped & kept & _ & ->).
  apply filter_last_nonempty.
  cbn [StoredBatch.of_batch StoredBatch.device_id]. apply String.eqb_refl.
Qed.

End UploadThenReport.

(** ** Eviction *)

Lemma slice_last_app_long {A} (cap : Z) (l l' : list A) :
  Py.len l' >= cap -> Py.slice_last cap (l ++ l') = Py.slice_last cap l'.
Proof.
  intros H. unfold Py.slice_last. rewrite len_app, skipn_app.
  rewrite skipn_all2 by (unfold Py.len in *; lia).
  cbn [app]. f_equal. unfold Py.len in *. lia.
Qed.

Lemma in_slice_last {A} (cap : Z) (l : list A) (x : A) :
  In x (Py.slice_last cap l) -> In x l.
Proof.
  unfold Py.slice_last. intros H.
  rewrite <- (firstn_skipn (Z.to_nat (Py.len l - cap)) l).
  apply in_or_app. right. exact H.
Qed.

Lemma uploaded_app ops ops' : uploaded (ops ++ ops') = uploaded ops ++ uploaded ops'.
Proof. unfold uploaded. apply flat_map_app. Qed.

Lemma batches_of_none store device_id :
  Forall (fun b => StoredBatch.device_id b <> device_id) store ->
  batches_of store device_id = [].
Proof.
  intros H. unfold batches_of. apply filter_none. intros b Hb.
  rewrite Forall_forall in H. apply String.eqb_neq. exact (H b Hb).
Qed.

Section Eviction.

Variable localtime_isoformat : float -> Localtime.t.

(** X6. After 10,000 further uploads of other devices, nothing of a device
    is left in the store: its forensic report fails with the 404 and no
    analysis of it completes. *)
Theorem evicted_device_has_no_report
        (ops ops' : list Insert) (req : AnalysisRequest.t) generated_at :
  10000 <= Py.len (uploaded ops') ->
  Forall (fun b => StoredBatch.device_id b <> AnalysisRequest.device_id req)
         (uploaded ops') ->
  generate_forensic_report localtime_isoformat (TELEMETRY_STORE (run (ops ++ ops')))
                           req generated_at
  = Py.Raise (Py.HTTPException 404 "No telemetry found for device")
  /\ forall now now' r,
       request_analysis (TELEMETRY_STORE (run (ops ++ ops'))) req now now'
       <> Py.Ok (AnalysisResponse.complete r).
Proof.
  intros Hlen Hdev.
  assert (Hnone : batches_of (TELEMETRY_STORE (run (ops ++ ops')))
                             (AnalysisRequest.device_id req) = []).
  { destruct (run_stores (ops ++ ops')) as [-> _].
    rewrite uploaded_app, slice_last_app_long by lia.
    apply batches_of_none. rewrite Forall_forall in *.
    intros b Hb. apply Hdev. exact (in_slice_last _ _ _ Hb). }
  split.
  - unfold generate_forensic_report. unfold batches_of in Hnone. rewrite Hnone.
    reflexivity.
  - intros now now' r H. apply request_analysis_complete in H.
    destruct H as (h & w & s & c & _ & _ & Hne & _). apply Hne.
    unfold device_batches_since. apply filter_none. intros b Hb.
    apply andb_false_intro1.
    assert (Hin : In b (batches_of (TELEMETRY_STORE (run (ops ++ ops')))
                                   (AnalysisRequest.device_id req)) -> False)
      by (rewrite Hnone; intros []).
    destruct (String.eqb (StoredBatch.device_id b) (AnalysisRequest.device_id req)) eqn:E;
      [exfalso | reflexivity].
    apply Hin. unfold batches_of. apply filter_In. split; assumption.
Qed.

End Eviction.

Lemma evicted_device_has_no_report_witness :
  generate_forensic_report (fun _ => Localtime.isoformat "1970-01-01T00:00:00")
    (TELEMETRY_STORE (run ([d1_upload] ++ repeat d2_upload (Z.to_nat 10000))))
    day_request "2026-01-01T00:00:00"
  = Py.Raise (Py.HTTPException 404 "No telemetry found for device")
  /\ forall now now' r,
       request_analysis
         (TELEMETRY_STORE (run ([d1_upload] ++ repeat d2_upload (Z.to_nat 10000))))
         day_request now now'
       <> Py.Ok (AnalysisResponse.complete r).
Proof.
  apply (evicted_device_has_no_report (fun _ => Localtime.isoformat "1970-01-01T00:00:00")
           [d1_upload] (repeat d2_upload (Z.to_nat 10000)) day_request
           "2026-01-01T00:00:00").
  - vm_compute. discriminate.
  - apply Forall_forall. intros b Hb. unfold uploaded in Hb.
    apply in_flat_map in Hb. destruct Hb as (op & Hop & Hb).
    apply repeat_spec in Hop. subst op. destruct Hb as [<- | []].
    cbn. discriminate.
Defined.

(** ** The global snapshot and the health status *)

Lemma len_nonneg {A} (l : list A) : 0 <= Py.len l.
Proof. unfold Py.len. lia. Qed.

Lemma len_filter_le {A} (f : A -> bool) (l : list A) : Py.len (filter f l) <= Py.len l.
Proof. unfold Py.len. pose proof (filter_length_le f l). lia. Qed.

Lemma len_set_of (l : list string) :
  Py.len (set_of l) <= Py.len l /\ (Py.len (set_of l) = 0 <-> l = []).
Proof.
  unfold set_of, Py.len. split.
  - induction l as [| x l IH]; cbn [nodup List.length]; [lia |].
    destruct (in_dec string_dec x l); cbn [List.length]; lia.
  - split.
    + intros H. destruct l as [| x l]; [reflexivity | exfalso].
      assert (Hin : In x (nodup string_dec (x :: l)))
        by (apply nodup_In; left; reflexivity).
      destruct (nodup string_dec (x :: l)); [destruct Hin | cbn in H; lia].
    + intros ->. reflexivity.
Qed.

Lemma len_enumerate {A} (l : list A) : Py.len (Py.enumerate l) = Py.len l.
Proof.
  unfold Py.enumerate, Py.len. rewrite length_combine, length_seq, Nat.min_id. reflexivity.
Qed.

Lemma len_received_within span clock store :
  Py.len (received_within span clock store) <= Py.len store.
Proof.
  unfold received_within.
  rewrite <- (len_enumerate store).
  unfold Py.len at 1. rewrite length_map. apply len_filter_le.
Qed.

(** X7. In the snapshot of [get_global_threats] after [ops], the number of
    devices is at most the number of batches and is 0 exactly when no batch
    is stored; the number of batches is the number of uploads capped at
    10,000; the batches of the last hour and of the last day are at most
    the stored batches; and at most 1,000 threats are listed. *)
Theorem global_statistics_bounds (ops : list Insert) clock_hour clock_day now :
  let g := get_global_threats (run ops) clock_hour clock_day now in
  0 <= GlobalThreats.total_devices g <= GlobalThreats.total_batches g
  /\ (GlobalThreats.total_devices g = 0 <-> GlobalThreats.total_batches g = 0)
  /\ GlobalThreats.total_batches g = Z.min (Py.len (uploaded ops)) 10000
  /\ 0 <= GlobalThreats.batches_last_hour g <= GlobalThreats.total_batches g
  /\ 0 <= GlobalThreats.batches_last_day g <= GlobalThreats.total_batches g
  /\ Py.len (GlobalThreats.known_threats g) = Z.min (Py.len (reported ops)) 1000.
Proof.
  cbv zeta. unfold get_global_threats.
  cbn [GlobalThreats.total_devices GlobalThreats.total_batches
       GlobalThreats.batches_last_hour GlobalThreats.batches_last_day
       GlobalThreats.known_threats].
  set (store := TELEMETRY_STORE (run ops)).
  destruct (len_set_of (map StoredBatch.device_id store)) as [Hle Hz].
  assert (Hmap : Py.len (map StoredBatch.device_id store) = Py.len store)
    by (unfold Py.len; rewrite length_map; reflexivity).
  split; [split; [apply len_nonneg | lia] |].
  split.
  { rewrite Hz. split.
    - intros E. apply map_eq_nil in E. rewrite E. reflexivity.
    - intros E. destruct store; [reflexivity | unfold Py.len in E; cbn in E; lia]. }
  split.
  { unfold store. destruct (run_stores ops) as [-> _].
    rewrite len_slice_last by lia. lia. }
  split; [split; [apply len_nonneg | apply len_received_within] |].
  split; [split; [apply len_nonneg | apply len_received_within] |].
  destruct (run_stores ops) as [_ ->]. rewrite len_slice_last by lia. lia.
Qed.

Section DevicesAndReports.

Variable localtime_isoformat : float -> Localtime.t.

Lemma batches_of_nonempty store device_id :
  batches_of store device_id <> [] <-> In device_id (map StoredBatch.device_id store).
Proof.
  unfold batches_of. split.
  - intros H. destruct (filter _ store) as [| b l] eqn:E; [congruence |].
    assert (Hb : In b (filter (fun b => String.eqb (StoredBatch.device_id b) device_id) store))
      by (rewrite E; left; reflexivity).
    apply filter_In in Hb. destruct Hb as [Hb Hd]. apply String.eqb_eq in Hd.
    rewrite <- Hd. apply in_map. exact Hb.
  - intros H. apply in_map_iff in H. destruct H as (b & Hd & Hb).
    intros E.
    assert (Hin : In b (filter (fun b => String.eqb (StoredBatch.device_id b) device_id) store)).
    { apply filter_In. split; [exact Hb |]. apply String.eqb_eq. exact Hd. }
    rewrite E in Hin. destruct Hin.
Qed.

(** X8. [total_devices] counts, each once, the devices for which a
    forensic report would not fail with the 404. *)
Theorem total_devices_counts_reportable_devices
        (st : State) clock_hour clock_day now :
  exists devices : list string,
    NoDup devices
    /\ GlobalThreats.total_devices (get_global_threats st clock_hour clock_day now)
       = Py.len devices
    /\ forall req generated_at,
         In (AnalysisRequest.device_id req) devices
         <-> generate_forensic_report localtime_isoformat (TELEMETRY_STORE st) req generated_at
             <> Py.Raise (Py.HTTPException 404 "No telemetry found for device").
Proof.
  exists (set_of (map StoredBatch.device_id (TELEMETRY_STORE st))).
  split; [apply NoDup_nodup |]. split; [reflexivity |].
  intros req generated_at. unfold set_of. rewrite nodup_In, <- batches_of_nonempty.
  split.
  - intros H. apply forensic_report_found. exact H.
  - intros H E. apply H. unfold generate_forensic_report.
    unfold batches_of in E. rewrite E. reflexivity.
Qed.

End DevicesAndReports.

(** ** Totals per device *)

Lemma sum_acc (l : list Z) : forall acc, fold_left Z.add l acc = acc + Py.sum l.
Proof.
  unfold Py.sum. induction l as [| z l IH]; intros acc; cbn [fold_left]; [lia |].
  rewrite (IH (acc + z)), (IH (0 + z)). lia.
Qed.

Lemma sum_cons (z : Z) (l : list Z) : Py.sum (z :: l) = z + Py.sum l.
Proof. unfold Py.sum at 1. cbn [fold_left]. rewrite sum_acc. lia. Qed.

Lemma samples_of_cons b store device_id :
  samples_of (b :: store) device_id
  = (if String.eqb (StoredBatch.device_id b) device_id
     then StoredBatch.sample_count b else 0)
    + samples_of store device_id.
Proof.
  unfold samples_of, batches_of. cbn [filter].
  destruct (String.eqb (StoredBatch.device_id b) device_id); [| lia].
  cbn [map]. apply sum_cons.
Qed.

Lemma sum_samples_of_absent b store (devices : list string) :
  ~ In (StoredBatch.device_id b) devices ->
  Py.sum (map (samples_of (b :: store)) devices) = Py.sum (map (samples_of store) devices).
Proof.
  induction devices as [| d devices IH]; intros Hnin; [reflexivity |].
  cbn [map]. rewrite !sum_cons, samples_of_cons, IH.
  - destruct (String.eqb_spec (StoredBatch.device_id b) d) as [E | _]; [| lia].
    exfalso. apply Hnin. left. symmetry. exact E.
  - intros H. apply Hnin. right. exact H.
Qed.

Lemma sum_samples_of_present b store (devices : list string) :
  NoDup devices -> In (StoredBatch.device_id b) devices ->
  Py.sum (map (samples_of (b :: store)) devices)
  = StoredBatch.sample_count b + Py.sum (map (samples_of store) devices).
Proof.
  induction devices as [| d devices IH]; intros Hnd Hin; [destruct Hin |].
  inversion Hnd as [| d' l' Hd Hnd']; subst.
  cbn [map]. rewrite !sum_cons, samples_of_cons.
  destruct (String.eqb_spec (StoredBatch.device_id b) d) as [E | N].
  - rewrite sum_samples_of_absent by (rewrite E; exact Hd). lia.
  - rewrite IH; [lia | exact Hnd' |]. destruct Hin as [E | Hin]; [congruence | exact Hin].
Qed.

Lemma sum_samples_of store :
  forall devices,
    NoDup devices ->
    (forall b, In b store -> In (StoredBatch.device_id b) devices) ->
    Py.sum (map (samples_of store) devices)
    = Py.sum (map StoredBatch.sample_count store).
Proof.
  induction store as [| b store IH]; intros devices Hnd Hall.
  - cbn [map]. clear. induction devices as [| d l IH]; [reflexivity |].
    cbn [map]. rewrite sum_cons, IH. reflexivity.
  - cbn [map]. rewrite sum_cons, sum_samples_of_present.
    + rewrite (IH devices Hnd); [reflexivity |].
      intros b' Hb'. apply Hall. right. exact Hb'.
    + exact Hnd.
    + apply Hall. left. reflexivity.
Qed.

Section SamplesPerDevice.

Variable localtime_isoformat : float -> Localtime.t.

(** X9. [total_samples] of the snapshot is the sum, over the distinct
    devices of the store, of the samples of the batches of each device,
    which is what a forensic report of that device gives as
    [total_samples]; its [total_batches] is the number of those batches. *)
Theorem total_samples_split_by_device (st : State) clock_hour clock_day now :
  GlobalThreats.total_samples (get_global_threats st clock_hour clock_day now)
  = Py.sum (map (fun device_id =>
                   Py.sum (map StoredBatch.sample_count
                               (batches_of (TELEMETRY_STORE st) device_id)))
                (set_of (map StoredBatch.device_id (TELEMETRY_STORE st))))
  /\ forall req generated_at report,
       generate_forensic_report localtime_isoformat (TELEMETRY_STORE st) req generated_at
       = Py.Ok report ->
       ForensicReport.total_samples report
       = Py.sum (map StoredBatch.sample_count
                     (batches_of (TELEMETRY_STORE st) (AnalysisRequest.device_id req)))
       /\ ForensicReport.total_batches report
          = Py.len (batches_of (TELEMETRY_STORE st) (AnalysisRequest.device_id req))
       /\ In (AnalysisRequest.device_id req)
             (set_of (map StoredBatch.device_id (TELEMETRY_STORE st))).
Proof.
  split.
  - unfold get_global_threats. cbn [GlobalThreats.total_samples]. symmetry.
    apply (sum_samples_of (TELEMETRY_STORE st)).
    + apply NoDup_nodup.
    + intros b Hb. unfold set_of. apply nodup_In. apply in_map. exact Hb.
  - intros req generated_at report H.
    assert (Hne : batches_of (TELEMETRY_STORE st) (AnalysisRequest.device_id req) <> []).
    { intros E. unfold generate_forensic_report in H. unfold batches_of in E.
      rewrite E in H. discriminate. }
    unfold generate_forensic_report in H. fold (batches_of (TELEMETRY_STORE st)
                                                  (AnalysisRequest.device_id req)) in H.
    destruct (batches_of (TELEMETRY_STORE st) (AnalysisRequest.device_id req))
      as [| b others] eqn:E; [congruence |].
    cbv zeta in H.
    apply bind_Ok in H. destruct H as (s1 & _ & H).
    apply bind_Ok in H. destruct H as (s2 & _ & H).
    injection H as <-. cbn [ForensicReport.total_samples ForensicReport.total_batches].
    split; [reflexivity |]. split; [reflexivity |].
    unfold set_of. apply nodup_In. apply batches_of_nonempty. rewrite E. discriminate.
Qed.

End SamplesPerDevice.

(** ** Activity in the last hour and the last day *)

Lemma SFleb_ltb_trans (x y z : spec_float) :
  SFleb x y = true -> SFltb y z = true -> SFltb x z = true.
Proof.
  unfold SFleb, SFltb.
  destruct x as [sx | sx | | sx mx ex], y as [sy | sy | | sy my ey],
           z as [sz | sz | | sz mz ez];
    try destruct sx; try destruct sy; try destruct sz; cbn; try congruence.
  all: destruct (Z.compare_spec ex ey); try congruence;
       destruct (Z.compare_spec ey ez); try congruence;
       destruct (Z.compare_spec ex ez); try congruence; try lia.
  all: pos_compare;
       destruct (Pos.compare_spec mx my); cbn; try congruence;
       destruct (Pos.compare_spec my mz); cbn; try congruence;
       destruct (Pos.compare_spec mx mz); cbn; try congruence; lia.
Qed.

Lemma leb_ltb_trans (x y z : float) :
  (x <=? y)%float = true -> (y <? z)%float = true -> (x <? z)%float = true.
Proof. rewrite leb_spec, !ltb_spec. apply SFleb_ltb_trans. Qed.

Lemma len_filter_mono {A} (f g : A -> bool) (l : list A) :
  (forall x, In x l -> f x = true -> g x = true) ->
  Py.len (filter f l) <= Py.len (filter g l).
Proof.
  unfold Py.len. induction l as [| a l IH]; intros H; [cbn; lia |].
  assert (IH' : Z.of_nat (List.length (filter f l)) <= Z.of_nat (List.length (filter g l))).
  { apply IH. intros x Hx. apply H. right. exact Hx. }
  cbn [filter]. destruct (f a) eqn:Ef.
  - rewrite (H a (or_introl eq_refl) Ef). cbn [List.length]. lia.
  - destruct (g a); cbn [List.length]; lia.
Qed.

Lemma in_enumerate {A} (l : list A) (i : nat) (x : A) :
  In (i, x) (Py.enumerate l) -> (i < List.length l)%nat.
Proof.
  unfold Py.enumerate. intros H. apply in_combine_l in H. apply in_seq in H. lia.
Qed.

(** X10. When, at every stored batch, the cutoff of the last day is not
    after the cutoff of the last hour, [batches_last_hour] is at most
    [batches_last_day]. *)
Theorem last_hour_within_last_day (st : State) clock_hour clock_day now :
  (forall i, (i < List.length (TELEMETRY_STORE st))%nat ->
             (clock_day i - 86400 <=? clock_hour i - 3600)%float = true) ->
  GlobalThreats.batches_last_hour (get_global_threats st clock_hour clock_day now)
  <= GlobalThreats.batches_last_day (get_global_threats st clock_hour clock_day now).
Proof.
  intros H. unfold get_global_threats.
  cbn [GlobalThreats.batches_last_hour GlobalThreats.batches_last_day].
  unfold received_within, Py.len. rewrite !length_map.
  apply len_filter_mono. intros [i b] Hin. cbn [fst snd].
  apply leb_ltb_trans. apply H. exact (in_enumerate _ _ _ Hin).
Qed.

Lemma last_hour_within_last_day_witness :
  GlobalThreats.batches_last_hour
    (get_global_threats (mkState pair_store []) (fun _ => 2000%float) (fun _ => 2001%float)
                        2002)
  <= GlobalThreats.batches_last_day
       (get_global_threats (mkState pair_store []) (fun _ => 2000%float)
                           (fun _ => 2001%float) 2002).
Proof.
  apply (last_hour_within_last_day (mkState pair_store []) (fun _ => 2000%float)
                                   (fun _ => 2001%float) 2002).
  intros i _. reflexivity.
Defined.

(** ** A reported threat and the requests that follow it *)

(** X11. Once a threat is reported, the snapshot lists it last among the
    known threats, stamped with the clock reading of the report, after what
    is kept of the former database; the number of known threats, and the
    [threats_tracked] of the health status, is the [threat_id] of the
    answer; the global threat level stays "LOW" whatever was reported, and
    the number of batches is unchanged. *)
Theorem reported_threat_is_known (st : State) threat now clock_hour clock_day t :
  let st' := fst (report_threat st threat now) in
  let response := snd (report_threat st threat now) in
  let snapshot := get_global_threats st' clock_hour clock_day t in
  (exists dropped kept,
      THREAT_DATABASE st = dropped ++ kept
      /\ GlobalThreats.known_threats snapshot
         = kept ++ [StoredThreat.of_report threat now])
  /\ Py.len (GlobalThreats.known_threats snapshot) = ReportResponse.threat_id response
  /\ Health.threats_tracked (health st' t) = ReportResponse.threat_id response
  /\ GlobalThreats.global_threat_level snapshot = "LOW"
  /\ GlobalThreats.total_batches snapshot
     = GlobalThreats.total_batches (get_global_threats st clock_hour clock_day t).
Proof.
  cbv zeta.
  split; [| repeat split].
  unfold get_global_threats. cbn [GlobalThreats.known_threats].
  destruct (report_store st threat now) as [-> _]. apply push_last. lia.
Qed.

(** X12. After [ops] the health status counts the uploads capped at
    10,000 and the reports capped at 1,000; right after an upload its batch
    count is the [batches_stored] of the answer, and the upload leaves
    [threats_tracked] as it was. *)
Theorem health_counts (ops : list Insert) batch now now' t :
  Health.telemetry_batches_stored (health (run ops) t) = Z.min (Py.len (uploaded ops)) 10000
  /\ Health.threats_tracked (health (run ops) t) = Z.min (Py.len (reported ops)) 1000
  /\ Health.telemetry_batches_stored
       (health (fst (upload_telemetry (run ops) batch now now')) t)
     = UploadResponse.batches_stored (snd (upload_telemetry (run ops) batch now now'))
  /\ Health.threats_tracked (health (fst (upload_telemetry (run ops) batch now now')) t)
     = Health.threats_tracked (health (run ops) t).
Proof.
  unfold health. cbn [Health.telemetry_batches_stored Health.threats_tracked].
  destruct (run_stores ops) as [Ht Hd].
  split; [rewrite Ht, len_slice_last by lia; lia |].
  split; [rewrite Hd, len_slice_last by lia; lia |].
  split; reflexivity.
Qed.

(** ** One device's answers depend on its own batches only *)

Lemma device_batches_since_batches_of store device_id cutoff_time :
  device_batches_since store device_id cutoff_time
  = filter (fun b => (cutoff_time <? StoredBatch.received_at b)%float)
           (batches_of store device_id).
Proof.
  unfold device_batches_since, batches_of.
  induction store as [| b store IH]; [reflexivity |].
  cbn [filter]. destruct (String.eqb (StoredBatch.device_id b) device_id); cbn [andb filter].
  - rewrite IH. reflexivity.
  - exact IH.
Qed.

Section OwnBatches.

Variable localtime_isoformat : float -> Localtime.t.

(** X13. The analysis and the forensic report of a device depend on the
    stored batches of that device only: two stores that hold the same
    batches of the device, in the same order, give the same answers. *)
Theorem answers_depend_on_own_batches
        (store store' : list StoredBatch.t) (req : AnalysisRequest.t) now now' generated_at :
  batches_of store (AnalysisRequest.device_id req)
  = batches_of store' (AnalysisRequest.device_id req) ->
  request_analysis store req now now' = request_analysis store' req now now'
  /\ generate_forensic_report localtime_isoformat store req generated_at
     = generate_forensic_report localtime_isoformat store' req generated_at.
Proof.
  intros H. split.
  - unfold request_analysis.
    destruct (AnalysisRequest.time_range_hours req) as [h |]; [| reflexivity].
    destruct (Py.float_of_int (h * 3600)) as [w | e]; [| reflexivity]. cbn [Py.bind].
    rewrite !device_batches_since_batches_of, H. reflexivity.
  - unfold generate_forensic_report. unfold batches_of in H. rewrite H. reflexivity.
Qed.

End OwnBatches.

Lemma answers_depend_on_own_batches_witness :
  request_analysis pair_store day_request 2000 2001
  = request_analysis (StoredBatch.mk "d2" "gAAAAAB" 0 300 100 1000 :: pair_store)
                     day_request 2000 2001
  /\ generate_forensic_report (fun _ => Localtime.isoformat "1970-01-01T00:00:00") pair_store day_request
                              "2026-01-01T00:00:00"
     = generate_forensic_report (fun _ => Localtime.isoformat "1970-01-01T00:00:00")
                                (StoredBatch.mk "d2" "gAAAAAB" 0 300 100 1000 :: pair_store)
                                day_request "2026-01-01T00:00:00".
Proof.
  apply (answers_depend_on_own_batches (fun _ => Localtime.isoformat "1970-01-01T00:00:00") pair_store
           (StoredBatch.mk "d2" "gAAAAAB" 0 300 100 1000 :: pair_store) day_request
           2000 2001 "2026-01-01T00:00:00").
  reflexivity.
Defined.

(** ** Recommendations that are never given *)

Lemma recommend_low_levels anomalies batch_count level :
  In level ["LOW"; "MODERATE"] ->
  recommend anomalies batch_count level
  = match anomalies, batch_count <? 10 with
    | [], false => ["Continue normal operation"]
    | [], true => ["Continue baseline collection for improved accuracy"]
    | _ :: _, false => ["Investigate telemetry gaps for possible interference"]
    | _ :: _, true => ["Investigate telemetry gaps for possible interference";
                       "Continue baseline collection for improved accuracy"]
    end.
Proof.
  intros [<- | [<- | []]]; unfold recommend;
    destruct anomalies as [| a l]; destruct (batch_count <? 10); reflexivity.
Qed.

(** X14. The recommendations of a completed analysis are decided by the
    indicators and the number of batches alone: the gap entry when there is
    an indicator, the baseline entry below 10 batches, and "Continue normal
    operation" when neither holds. "Enable enhanced monitoring mode" and
    "Review device for surveillance indicators" are never given. *)
Theorem enhanced_monitoring_never_recommended store req now now' r :
  request_analysis store req now now' = Py.Ok (AnalysisResponse.complete r) ->
  AnalysisResponse.recommendations r
  = match AnalysisResponse.indicators r, AnalysisResponse.batches_analyzed r <? 10 with
    | [], false => ["Continue normal operation"]
    | [], true => ["Continue baseline collection for improved accuracy"]
    | _ :: _, false => ["Investigate telemetry gaps for possible interference"]
    | _ :: _, true => ["Investigate telemetry gaps for possible interference";
                       "Continue baseline collection for improved accuracy"]
    end
  /\ ~ In "Enable enhanced monitoring mode" (AnalysisResponse.recommendations r)
  /\ ~ In "Review device for surveillance indicators" (AnalysisResponse.recommendations r).
Proof.
  intros H. apply request_analysis_complete in H.
  destruct H as (h & w & s & c & _ & _ & _ & Hs & _ & ->).
  cbn [AnalysisResponse.recommendations AnalysisResponse.indicators
       AnalysisResponse.batches_analyzed].
  destruct (score_threat_values _ _ _ _ Hs) as (a & d & _ & _ & _ & _ & _ & Hl).
  rewrite (recommend_low_levels _ _ _ Hl).
  split; [reflexivity |].
  destruct (detect_anomalies _); destruct (_ <? 10); cbn [In];
    split; intros H; repeat (destruct H as [H | H]; [discriminate H |]); exact H.
Qed.

Lemma enhanced_monitoring_never_recommended_witness :
  AnalysisResponse.recommendations wide_gap_answer
  = match AnalysisResponse.indicators wide_gap_answer,
          AnalysisResponse.batches_analyzed wide_gap_answer <? 10 with
    | [], false => ["Continue normal operation"]
    | [], true => ["Continue baseline collection for improved accuracy"]
    | _ :: _, false => ["Investigate telemetry gaps for possible interference"]
    | _ :: _, true => ["Investigate telemetry gaps for possible interference";
                       "Continue baseline collection for improved accuracy"]
    end
  /\ ~ In "Enable enhanced monitoring mode" (AnalysisResponse.recommendations wide_gap_answer)
  /\ ~ In "Review device for surveillance indicators"
          (AnalysisResponse.recommendations wide_gap_answer).
Proof.
  apply (enhanced_monitoring_never_recommended wide_gap_store day_request 2000 2001
                                               wide_gap_answer).
  vm_compute. reflexivity.
Defined.

(** ** The score grows with the findings *)

Lemma anomaly_part anomalies batch_count time_range_hours threat_score :
  score_threat anomalies batch_count time_range_hours = Py.Ok threat_score ->
  exists a : float,
    threat_score = (if density_shortfall batch_count time_range_hours
                    then a + 0.2 else a)%float
    /\ ((Py.len anomalies = 0 /\ a = 0%float)
        \/ (Py.len anomalies = 1 /\ a = (0 + 0.1)%float)
        \/ (Py.len anomalies = 2 /\ a = (0 + 0.2)%float)
        \/ (3 <= Py.len anomalies /\ a = (0 + 0.3)%float)).
Proof.
  unfold score_threat. intros H.
  apply bind_Ok in H. destruct H as (s0 & Hs0 & [= <-]).
  destruct anomalies as [| x l] eqn:E.
  - injection Hs0 as <-. exists 0%float. split.
    + destruct (density_shortfall _ _); reflexivity.
    + left. split; reflexivity.
  - rewrite <- E in *. apply bind_Ok in Hs0. destruct Hs0 as (a & Ha & [= <-]).
    assert (Hne : anomalies <> []) by (subst; discriminate).
    exists (0 + a)%float. split.
    + destruct (density_shortfall _ _); reflexivity.
    + destruct (anomaly_term_values anomalies a Hne Ha) as [[Hn ->] | [[Hn ->] | [Hn ->]]];
        auto.
Qed.

(** X15. The threat score never decreases with the findings: with at
    least as many anomalies, and the density shortfall whenever the other
    has it, the score is at least as high. *)
Theorem score_grows_with_findings
        anomalies anomalies' batch_count batch_count' hours hours' (s s' : float) :
  score_threat anomalies batch_count hours = Py.Ok s ->
  score_threat anomalies' batch_count' hours' = Py.Ok s' ->
  Py.len anomalies <= Py.len anomalies' ->
  (density_shortfall batch_count hours = true ->
   density_shortfall batch_count' hours' = true) ->
  (s <=? s')%float = true.
Proof.
  intros H H' Hlen Hd.
  destruct (anomaly_part _ _ _ _ H) as (a & -> & Ha).
  destruct (anomaly_part _ _ _ _ H') as (a' & -> & Ha').
  destruct (density_shortfall batch_count hours);
    [rewrite (Hd eq_refl) | destruct (density_shortfall batch_count' hours')];
    destruct Ha as [[Hn ->] | [[Hn ->] | [[Hn ->] | [Hn ->]]]];
    destruct Ha' as [[Hn' ->] | [[Hn' ->] | [[Hn' ->] | [Hn' ->]]]];
    try lia; reflexivity.
Qed.

Lemma score_grows_with_findings_witness : (0.2 <=? 0.1 + 0.2)%float = true.
Proof.
  apply (score_grows_with_findings
           [] ["Unusual gap in telemetry at batch 10"] 12 12 24 24).
  - reflexivity.
  - reflexivity.
  - vm_compute. discriminate.
  - intros _. reflexivity.
Defined.

(** ** How many indicators an analysis can list *)

Lemma len_detect_anomalies intervals :
  Py.len (detect_anomalies intervals) <= Py.len intervals.
Proof.
  rewrite detect_anomalies_outliers. unfold outliers.
  unfold Py.len at 1. rewrite length_map.
  rewrite <- (len_enumerate intervals). apply len_filter_le.
Qed.

(** X16. A completed analysis lists at most one indicator per gap, so
    fewer indicators than batches analysed. *)
Theorem indicators_fewer_than_batches store req now now' r :
  request_analysis store req now now' = Py.Ok (AnalysisResponse.complete r) ->
  Py.len (AnalysisResponse.indicators r) <= AnalysisResponse.batches_analyzed r - 1.
Proof.
  intros H. apply request_analysis_complete in H.
  destruct H as (h & w & s & c & _ & _ & Hne & _ & _ & ->).
  cbn [AnalysisResponse.indicators AnalysisResponse.batches_analyzed].
  eapply Z.le_trans; [apply len_detect_anomalies |].
  rewrite len_batch_intervals.
  destruct (device_batches_since _ _ _); [congruence |].
  unfold Py.len. cbn [List.length]. lia.
Qed.

Lemma indicators_fewer_than_batches_witness :
  Py.len (AnalysisResponse.indicators wide_gap_answer)
  <= AnalysisResponse.batches_analyzed wide_gap_answer - 1.
Proof.
  apply (indicators_fewer_than_batches wide_gap_store day_request 2000 2001 wide_gap_answer).
  vm_compute. reflexivity.
Defined.

(** ** An analysis and the forensic report of the same device *)

Section AnalysisAndReport.

Variable localtime_isoformat : float -> Localtime.t.

Lemma forensic_report_totals store req generated_at report :
  generate_forensic_report localtime_isoformat store req generated_at = Py.Ok report ->
  ForensicReport.total_batches report
  = Py.len (batches_of store (AnalysisRequest.device_id req))
  /\ ForensicReport.total_samples report
     = Py.sum (map StoredBatch.sample_count
                   (batches_of store (AnalysisRequest.device_id req)))
  /\ batches_of store (AnalysisRequest.device_id req) <> [].
Proof.
  unfold generate_forensic_report.
  fold (batches_of store (AnalysisRequest.device_id req)).
  destruct (batches_of store (AnalysisRequest.device_id req)) as [| b others];
    [discriminate |].
  cbv zeta. intros H.
  apply bind_Ok in H. destruct H as (s1 & _ & H).
  apply bind_Ok in H. destruct H as (s2 & _ & H).
  injection H as <-. repeat split. discriminate.
Qed.

(** X17. When the analysis of a device completes, its forensic report
    does not fail with an HTTP error, and a report that is produced counts
    at least as many batches as the analysis covered. *)
Theorem analysed_device_has_report store req now now' r generated_at :
  request_analysis store req now now' = Py.Ok (AnalysisResponse.complete r) ->
  (forall status_code detail,
      generate_forensic_report localtime_isoformat store req generated_at
      <> Py.Raise (Py.HTTPException status_code detail))
  /\ forall report,
       generate_forensic_report localtime_isoformat store req generated_at = Py.Ok report ->
       AnalysisResponse.batches_analyzed r <= ForensicReport.total_batches report.
Proof.
  intros H. apply request_analysis_complete in H.
  destruct H as (h & w & s & c & _ & _ & Hne & _ & _ & ->).
  cbn [AnalysisResponse.batches_analyzed].
  rewrite device_batches_since_batches_of in *.
  split.
  - apply forensic_report_found. intros E. rewrite E in Hne. apply Hne. reflexivity.
  - intros report Hr. destruct (forensic_report_totals _ _ _ _ Hr) as (-> & _ & _).
    apply len_filter_le.
Qed.

End AnalysisAndReport.

Lemma analysed_device_has_report_witness :
  (forall status_code detail,
      generate_forensic_report (fun _ => Localtime.isoformat "1970-01-01T00:00:00") steady_store
                               day_request "2026-01-01T00:00:00"
      <> Py.Raise (Py.HTTPException status_code detail))
  /\ forall report,
       generate_forensic_report (fun _ => Localtime.isoformat "1970-01-01T00:00:00") steady_store
                                day_request "2026-01-01T00:00:00" = Py.Ok report ->
       AnalysisResponse.batches_analyzed steady_answer
       <= ForensicReport.total_batches report.
Proof.
  apply (analysed_device_has_report (fun _ => Localtime.isoformat "1970-01-01T00:00:00") steady_store
           day_request 2000 2001 steady_answer "2026-01-01T00:00:00").
  vm_compute. reflexivity.
Defined.

(** ** A window of zero hours *)

Lemma sub_zero (x : float) : (x - 0)%float = x.
Proof.
  apply Prim2SF_inj. rewrite sub_spec.
  change (Prim2SF 0) with (S754_zero false). unfold SF64sub.
  destruct (Prim2SF x) as [[|] | [|] | | s m e]; reflexivity.
Qed.

(** X18. With [time_range_hours = 0] the cutoff is the clock reading
    itself: when no stored batch was received after it, the answer is
    insufficient_data, with the message "No telemetry in last 0 hours",
    however many batches the device has. *)
Theorem zero_hour_window_matches_nothing store device_id now now' :
  Forall (fun b => (StoredBatch.received_at b <=? now)%float = true) store ->
  request_analysis store (AnalysisRequest.mk device_id (Some 0)) now now'
  = Py.Ok (AnalysisResponse.insufficient_data "No telemetry in last 0 hours"
                                              "Continue baseline collection").
Proof.
  intros H. unfold request_analysis.
  cbn [AnalysisRequest.time_range_hours AnalysisRequest.device_id].
  change (Py.float_of_int (0 * 3600)) with (Py.Ok 0%float). cbn [Py.bind].
  rewrite sub_zero.
  replace (device_batches_since store device_id now) with (@nil StoredBatch.t);
    [reflexivity |].
  symmetry. unfold device_batches_since. apply filter_none. intros b Hb.
  rewrite Forall_forall in H. rewrite (leb_ltb_false _ _ (H b Hb)).
  apply andb_false_r.
Qed.

Lemma zero_hour_window_matches_nothing_witness :
  request_analysis steady_store (AnalysisRequest.mk "d1" (Some 0)) 1000 1001
  = Py.Ok (AnalysisResponse.insufficient_data "No telemetry in last 0 hours"
                                              "Continue baseline collection").
Proof.
  apply (zero_hour_window_matches_nothing steady_store "d1" 1000 1001).
  unfold steady_store. apply Forall_forall. intros b Hb.
  apply repeat_spec in Hb. subst b. reflexivity.
Defined.

(** ** Binary64: overflow and sign of a rounded value *)

Lemma digits_large (p : positive) (k : Z) :
  0 <= k -> 2 ^ k <= Zpos p -> k + 1 <= Zpos (digits2_pos p).
Proof.
  intros Hk H. pose proof (digits2_pos_bounds p) as [_ Hhi].
  destruct (Z_lt_le_dec (Zpos (digits2_pos p)) (k + 1)) as [Hlt |]; [exfalso | assumption].
  assert (2 ^ Zpos (digits2_pos p) <= 2 ^ k) by (apply Z.pow_le_mono_r; lia).
  lia.
Qed.

(** A mantissa that reaches [2^1024] once scaled rounds to an infinity. *)
Lemma binary_round_aux_overflow (s : bool) (q : positive) (e : Z) (l : location) :
  53 <= Zpos (digits2_pos q) ->
  1025 <= e + Zpos (digits2_pos q) ->
  binary_round_aux prec emax s (Zpos q) e l = S754_infinity s.
Proof.
  intros Hd He.
  destruct (binary_round_aux_normal s q e l Hd ltac:(lia))
    as [H | (m & e' & _ & Hb & _ & Hcase)]; [exact H | exfalso].
  apply bounded_spec in Hb. destruct Hb as [_ Hb]. lia.
Qed.

(** The rounded value has the sign it was given. *)
Lemma binary_round_aux_signed (s : bool) (q : positive) (e : Z) (l : location) :
  53 <= Zpos (digits2_pos q) ->
  -1074 <= e + Zpos (digits2_pos q) - 53 ->
  binary_round_aux prec emax s (Zpos q) e l = S754_infinity s
  \/ exists m e',
       binary_round_aux prec emax s (Zpos q) e l = S754_finite s m e'
       /\ bounded prec emax m e' = true.
Proof.
  intros Hd He.
  destruct (binary_round_aux_normal s q e l Hd He)
    as [H | (m & e' & H & Hb & _)]; [left; exact H | right; eauto].
Qed.

(** The binary64 of an integer of magnitude [2^1024] or more. *)
Lemma binary_normalize_overflow (z : Z) :
  2 ^ 1024 <= Z.abs z ->
  exists s, binary_normalize prec emax z 0 false = S754_infinity s.
Proof.
  intros H.
  assert (G : forall s p, 2 ^ 1024 <= Zpos p ->
                          binary_round prec emax s p 0 = S754_infinity s).
  { intros s p Hp. pose proof (digits_large p 1024 ltac:(lia) Hp) as Hd.
    unfold binary_round, shl_align. rewrite fexp_eq.
    replace (Z.max (Zpos (digits2_pos p) + 0 - 53) (-1074) - 0)
      with (Zpos (digits2_pos p) - 53) by lia.
    destruct (Zpos (digits2_pos p) - 53) as [| k | k] eqn:Ek; [lia | | lia].
    apply binary_round_aux_overflow; lia. }
  destruct z as [| p | p]; cbn [Z.abs] in H.
  - exfalso. assert (0 < 2 ^ 1024) by (apply Z.pow_pos_nonneg; lia). lia.
  - exists false. apply G. exact H.
  - exists true. apply G. exact H.
Qed.

Lemma float_of_int_overflow (z : Z) :
  2 ^ 1024 <= Z.abs z -> Py.float_of_int z = Py.Raise Py.OverflowError.
Proof.
  intros H. unfold Py.float_of_int.
  destruct (binary_normalize_overflow z H) as [s ->]. reflexivity.
Qed.

(** X19. When the window in seconds, [time_range_hours * 3600], is of
    magnitude [2^1024] or more, the analysis raises an [OverflowError],
    whatever the store holds. *)
Theorem window_too_large_for_a_float store req now now' (time_range_hours : Z) :
  AnalysisRequest.time_range_hours req = Some time_range_hours ->
  2 ^ 1024 <= Z.abs (time_range_hours * 3600) ->
  request_analysis store req now now' = Py.Raise Py.OverflowError.
Proof.
  intros Hh H. unfold request_analysis. rewrite Hh, float_of_int_overflow by exact H.
  reflexivity.
Qed.

Lemma window_too_large_for_a_float_witness :
  request_analysis steady_store (AnalysisRequest.mk "d1" (Some (2 ^ 1024))) 2000 2001
  = Py.Raise Py.OverflowError.
Proof.
  apply (window_too_large_for_a_float steady_store
           (AnalysisRequest.mk "d1" (Some (2 ^ 1024))) 2000 2001 (2 ^ 1024)).
  - reflexivity.
  - vm_compute. discriminate.
Defined.

(** ** Binary64: the quotient by 10000, whatever the sign *)

Lemma digits_53 (q : Z) :
  2 ^ 52 <= q -> exists q' : positive, q = Zpos q' /\ 53 <= Zpos (digits2_pos q').
Proof.
  intros Hq. assert (0 < 2 ^ 52) by (apply Z.pow_pos_nonneg; lia).
  destruct q as [| q' | q']; [lia | | lia].
  exists q'. split; [reflexivity |]. apply (digits_large q' 52); [lia | exact Hq].
Qed.

(** The doubles: a 53-bit mantissa divided by the double of 10000. *)
Lemma SFdiv_10000_double (s : bool) (m : positive) (e : Z) :
  Zpos (digits2_pos m) = 53 -> -53 <= e ->
  SFdiv prec emax (S754_finite s m e) SF_10000 = S754_infinity s
  \/ exists m' e',
       SFdiv prec emax (S754_finite s m e) SF_10000 = S754_finite s m' e'
       /\ bounded prec emax m' e' = true.
Proof.
  intros Hdm He.
  unfold SFdiv, SF_10000, SFdiv_core_binary. cbn [Zdigits2].
  rewrite Hdm, fexp_eq, xorb_false_r.
  change (Zpos (digits2_pos 5497558138880000)) with 53.
  replace (Z.min (Z.max (53 + e - (53 + -39) - 53) (-1074)) (e - -39))
    with (e - 14) by lia.
  replace (e - -39 - (e - 14)) with 53 by lia.
  rewrite Z.shiftl_mul_pow2 by lia.
  rewrite div_eucl_spec.
  assert (Hmlo : 2 ^ 52 <= Zpos m).
  { pose proof (digits2_pos_bounds m) as [H _]. rewrite Hdm in H. exact H. }
  change (2 ^ 52) with 4503599627370496 in Hmlo.
  change (2 ^ 53) with 9007199254740992.
  destruct (digits_53 (Zpos m * 9007199254740992 / 5497558138880000)) as (q & -> & Hq).
  { change (2 ^ 52) with 4503599627370496. apply Z.div_le_lower_bound; lia. }
  apply binary_round_aux_signed; lia.
Qed.

(** The integers: a dividend of more than 53 bits. *)
Lemma SFdiv_10000_int (s : bool) (p : positive) :
  2 ^ 53 <= Zpos p ->
  (SFdiv prec emax (S754_finite s p 0) (S754_finite false 10000 0) = S754_infinity s
   \/ exists m' e',
        SFdiv prec emax (S754_finite s p 0) (S754_finite false 10000 0)
        = S754_finite s m' e'
        /\ bounded prec emax m' e' = true)
  /\ (10000 * 2 ^ 1024 <= Zpos p ->
      SFdiv prec emax (S754_finite s p 0) (S754_finite false 10000 0) = S754_infinity s).
Proof.
  intros Ht.
  pose proof (digits_large p 53 ltac:(lia) Ht) as Hd54.
  pose proof (digits2_pos_bounds p) as [Hplo Hphi].
  set (d := Zpos (digits2_pos p)) in *.
  unfold SFdiv, SFdiv_core_binary. cbn [Zdigits2]. fold d.
  rewrite fexp_eq, xorb_false_r.
  change (Zpos (digits2_pos 10000)) with 14.
  replace (Z.min (Z.max (d + 0 - (14 + 0) - 53) (-1074)) (0 - 0))
    with (Z.min (d - 67) 0) by lia.
  destruct (Z_lt_le_dec d 67) as [Hlt | Hge].
  - (* the dividend is shifted to 67 bits *)
    replace (Z.min (d - 67) 0) with (d - 67) by lia.
    replace (0 - 0 - (d - 67)) with (67 - d) by lia.
    destruct (67 - d) as [| k | k] eqn:Ek; [lia | | lia].
    rewrite Z.shiftl_mul_pow2 by lia. rewrite div_eucl_spec.
    assert (Hm' : 2 ^ 66 <= Zpos p * 2 ^ Zpos k).
    { replace 66 with ((d - 1) + Zpos k) by lia. rewrite Z.pow_add_r by lia.
      apply Z.mul_le_mono_nonneg_r; [apply Z.pow_nonneg; lia | exact Hplo]. }
    change (2 ^ 66) with 73786976294838206464 in Hm'.
    destruct (digits_53 (Zpos p * 2 ^ Zpos k / 10000)) as (q & -> & Hdq).
    { change (2 ^ 52) with 4503599627370496. apply Z.div_le_lower_bound; lia. }
    split; [apply binary_round_aux_signed; lia |].
    intros Hbig. exfalso.
    assert (2 ^ 1024 <= Zpos p).
    { assert (0 < 2 ^ 1024) by (apply Z.pow_pos_nonneg; lia). lia. }
    pose proof (digits_large p 1024 ltac:(lia) ltac:(assumption)). fold d in H0. lia.
  - replace (Z.min (d - 67) 0) with 0 by lia.
    cbn [Z.sub Z.opp Z.add]. rewrite div_eucl_spec.
    assert (Hp' : 2 ^ 66 <= Zpos p).
    { eapply Z.le_trans; [| exact Hplo]. apply Z.pow_le_mono_r; lia. }
    change (2 ^ 66) with 73786976294838206464 in Hp'.
    destruct (digits_53 (Zpos p / 10000)) as (q & Eq & Hdq).
    { change (2 ^ 52) with 4503599627370496. apply Z.div_le_lower_bound; lia. }
    rewrite Eq.
    split; [apply binary_round_aux_signed; lia |].
    intros Hbig. apply binary_round_aux_overflow; [exact Hdq |].
    assert (Hq : 2 ^ 1024 <= Zpos q).
    { rewrite <- Eq. apply Z.div_le_lower_bound; lia. }
    pose proof (digits_large q 1024 ltac:(lia) Hq). lia.
Qed.

(** ** Totals the confidence cannot take *)

Lemma int_truediv_10000_overflow (t : Z) :
  10000 * 2 ^ 1024 <= Z.abs t -> Py.int_truediv t 10000 = Py.Raise Py.OverflowError.
Proof.
  intros H. unfold Py.int_truediv. cbn [Z.eqb].
  assert (H53 : 2 ^ 53 <= Z.abs t).
  { eapply Z.le_trans; [| exact H]. vm_compute. discriminate. }
  unfold Py.is_small at 1. destruct (Z.ltb_spec (Z.abs t) (2 ^ 53)) as [Hs | _]; [lia |].
  cbn [andb].
  destruct t as [| p | p]; cbn [Z.abs Py.spec_of_int] in *.
  - exfalso. revert H53. vm_compute. intros H'. apply H'. reflexivity.
  - destruct (SFdiv_10000_int false p H53) as [_ Hb]. rewrite (Hb H). reflexivity.
  - destruct (SFdiv_10000_int true p H53) as [_ Hb]. rewrite (Hb H). reflexivity.
Qed.

(** X20. When the samples of the matched batches add up to a total of
    magnitude [10000 * 2^1024] or more, the analysis raises an
    [OverflowError]. *)
Theorem total_too_large_for_a_float
        store req now now' (device_batches : list StoredBatch.t) :
  matched_batches store req now = Py.Ok device_batches ->
  device_batches <> [] ->
  10000 * 2 ^ 1024 <= Z.abs (Py.sum (map StoredBatch.sample_count device_batches)) ->
  request_analysis store req now now' = Py.Raise Py.OverflowError.
Proof.
  unfold matched_batches, request_analysis. intros Hm Hne Hbig.
  destruct (AnalysisRequest.time_range_hours req) as [h |]; [| discriminate].
  destruct (Py.float_of_int (h * 3600)) as [w | e]; [| discriminate].
  cbn [Py.bind] in *. injection Hm as Hm. rewrite Hm.
  destruct device_batches as [| b bs] eqn:E; [congruence |]. rewrite <- E in *.
  destruct (score_threat _ _ h) as [s | e] eqn:Es; cbn [Py.bind].
  - unfold confidence_of. rewrite (int_truediv_10000_overflow _ Hbig). reflexivity.
  - rewrite (score_threat_raises _ _ _ _ Es). reflexivity.
Qed.

Lemma total_too_large_for_a_float_witness :
  request_analysis huge_count_store day_request 2000 2001 = Py.Raise Py.OverflowError.
Proof.
  apply (total_too_large_for_a_float huge_count_store day_request 2000 2001
                                     huge_count_store).
  - reflexivity.
  - discriminate.
  - vm_compute. discriminate.
Defined.

Lemma float_of_small_neg (p : positive) :
  Py.float_of_small (Zneg p) = (- Py.float_of_small (Zpos p))%float.
Proof. reflexivity. Qed.

(** The quotient of a negative total is below zero. *)
Lemma int_truediv_10000_negative (t : Z) (q : float) :
  t < 0 -> Py.int_truediv t 10000 = Py.Ok q -> (q <? 0)%float = true.
Proof.
  intros Ht. unfold Py.int_truediv. cbn [Z.eqb].
  destruct t as [| p | p]; try lia.
  change (Py.is_small 10000) with true. rewrite andb_true_r.
  unfold Py.is_small. cbn [Z.abs].
  destruct (Z.ltb_spec (Zpos p) (2 ^ 53)) as [Hs | Hl].
  - intros [= <-]. rewrite ltb_spec, div_spec, float_of_small_neg, opp_spec.
    rewrite Prim2SF_float_of_small by exact Hs.
    change (Prim2SF (Py.float_of_small 10000)) with SF_10000.
    destruct (binary_normalize_small p (digits_small p Hs)) as (m & -> & Hm & Hdm).
    cbn [SFopp negb]. unfold SF64div.
    pose proof (digits2_pos_bounds p) as [_ Hphi].
    assert (1 <= Zpos (digits2_pos p)) by lia.
    destruct (SFdiv_10000_double true m (Zpos (digits2_pos p) - 53) Hdm ltac:(lia))
      as [-> | (m' & e' & -> & Hb)]; reflexivity.
  - cbn [Py.spec_of_int].
    destruct (SFdiv_10000_int true p Hl) as [[E | (m' & e' & E & Hb)] _]; rewrite E.
    + discriminate.
    + intros H. apply checked_Ok in H. subst q.
      rewrite ltb_spec, Prim2SF_SF2Prim by exact Hb. reflexivity.
Qed.

Lemma confidence_of_negative (t : Z) (c : float) :
  t < 0 -> confidence_of t = Py.Ok c -> (c <? 0)%float = true.
Proof.
  intros Ht H. unfold confidence_of in H. apply bind_Ok in H.
  destruct H as (q & Hq & [= <-]).
  pose proof (int_truediv_10000_negative t q Ht Hq) as Hneg.
  unfold Py.min.
  assert (Hlt : (q <? 0.95)%float = true) by (apply (ltb_trans _ 0); [exact Hneg | reflexivity]).
  rewrite Hlt. exact Hneg.
Qed.

(** X21. When the samples of the analysed batches add up to a negative
    total, the confidence of the completed analysis is negative. *)
Theorem negative_total_negative_confidence store req now now' r :
  request_analysis store req now now' = Py.Ok (AnalysisResponse.complete r) ->
  AnalysisResponse.total_samples r < 0 ->
  (AnalysisResponse.confidence r <? 0)%float = true.
Proof.
  intros H. apply request_analysis_complete in H.
  destruct H as (h & w & s & c & _ & _ & _ & _ & Hc & ->).
  cbn [AnalysisResponse.total_samples AnalysisResponse.confidence].
  intros Ht. exact (confidence_of_negative _ _ Ht Hc).
Qed.

Lemma negative_total_negative_confidence_witness :
  (AnalysisResponse.confidence negative_count_answer <? 0)%float = true.
Proof.
  apply (negative_total_negative_confidence negative_count_store day_request 2000 2001
                                            negative_count_answer).
  - vm_compute. reflexivity.
  - reflexivity.
Defined.

(** ** A NaN among the gaps *)

Lemma add_nan_l (x y : float) : is_nan x = true -> is_nan (x + y) = true.
Proof.
  rewrite !is_nan_spec, add_spec. intros ->. reflexivity.
Qed.

Lemma add_nan_r (x y : float) : is_nan y = true -> is_nan (x + y) = true.
Proof.
  rewrite !is_nan_spec, add_spec. intros ->.
  destruct (Prim2SF x); reflexivity.
Qed.

Lemma accumulate_nan (a : list float) :
  forall res,
    is_nan res = true \/ Exists (fun x => is_nan x = true) a ->
    is_nan (Np.accumulate res a) = true.
Proof.
  unfold Np.accumulate.
  induction a as [| x a IH]; intros res H; cbn [fold_left].
  - destruct H as [H | H]; [exact H | inversion H].
  - apply IH. destruct H as [H | H].
    + left. apply add_nan_l. exact H.
    + inversion H as [? ? Hx | ? ? Ha]; subst.
      * left. apply add_nan_r. exact Hx.
      * right. exact Ha.
Qed.

Lemma lanes_nan (n : nat) :
  forall a r,
    (List.length a <= n)%nat -> List.length r = 8%nat ->
    Exists (fun x => is_nan x = true) r \/ Exists (fun x => is_nan x = true) a ->
    List.length (fst (Np.lanes r a)) = 8%nat
    /\ (Exists (fun x => is_nan x = true) (fst (Np.lanes r a))
        \/ Exists (fun x => is_nan x = true) (snd (Np.lanes r a))).
Proof.
  induction n as [| n IH]; intros a r Hn Hr H.
  - destruct a; [| cbn in Hn; lia]. cbn. split; assumption.
  - destruct a as [| a0 [| a1 [| a2 [| a3 [| a4 [| a5 [| a6 [| a7 rest]]]]]]]];
      try (cbn [Np.lanes fst snd]; split; assumption).
    destruct r as [| r0 [| r1 [| r2 [| r3 [| r4 [| r5 [| r6 [| r7 [| r8 r']]]]]]]]];
      try discriminate Hr.
    cbn [Np.lanes]. apply IH; [cbn [List.length] in Hn; lia | reflexivity |].
    rewrite !Exists_cons, Exists_nil in H. rewrite !Exists_cons, Exists_nil.
    repeat (destruct H as [H | H]); try contradiction;
      auto 12 using add_nan_l, add_nan_r.
Qed.

Lemma block_sum_nan (a : list float) :
  Exists (fun x => is_nan x = true) a -> is_nan (Np.block_sum a) = true.
Proof.
  intros H. unfold Np.block_sum.
  destruct a as [| a0 [| a1 [| a2 [| a3 [| a4 [| a5 [| a6 [| a7 rest]]]]]]]];
    try (apply accumulate_nan; right; exact H).
  destruct (lanes_nan (List.length rest) rest [a0; a1; a2; a3; a4; a5; a6; a7]
                      (Nat.le_refl _) eq_refl) as [Hlen Hnan].
  { rewrite !Exists_cons, Exists_nil. rewrite !Exists_cons in H. tauto. }
  destruct (Np.lanes [a0; a1; a2; a3; a4; a5; a6; a7] rest) as [r tail].
  cbn [fst snd] in *.
  destruct r as [| r0 [| r1 [| r2 [| r3 [| r4 [| r5 [| r6 [| r7 [| r8 r']]]]]]]]];
    try discriminate Hlen.
  apply accumulate_nan. destruct Hnan as [Hr | Ht]; [left | right; exact Ht].
  rewrite !Exists_cons, Exists_nil in Hr.
  repeat (destruct Hr as [Hr | Hr]); try contradiction;
    auto 8 using add_nan_l, add_nan_r.
Qed.

Lemma pairwise_sum_rec_nan (fuel : nat) :
  forall a, Exists (fun x => is_nan x = true) a ->
            is_nan (Np.pairwise_sum_rec fuel a) = true.
Proof.
  induction fuel as [| fuel IH]; intros a H; cbn [Np.pairwise_sum_rec]; cbv zeta.
  - destruct (List.length a <? 8)%nat; [apply accumulate_nan; right; exact H |].
    destruct (List.length a <=? 128)%nat; [apply block_sum_nan; exact H |].
    apply accumulate_nan. right. exact H.
  - destruct (List.length a <? 8)%nat; [apply accumulate_nan; right; exact H |].
    destruct (List.length a <=? 128)%nat; [apply block_sum_nan; exact H |].
    set (n2 := (List.length a / 2 - (List.length a / 2) mod 8)%nat).
    rewrite <- (firstn_skipn n2 a) in H. apply Exists_app in H.
    destruct H as [H | H]; [apply add_nan_l | apply add_nan_r]; apply IH; exact H.
Qed.

Lemma mean_nan (a : list float) :
  Exists (fun x => is_nan x = true) a -> is_nan (Np.mean a) = true.
Proof.
  intros H. unfold Np.mean, Np.add_reduce, Np.pairwise_sum.
  pose proof (add_nan_r 0 _ (pairwise_sum_rec_nan (List.length a) a H)) as Hs.
  revert Hs. generalize (0 + Np.pairwise_sum_rec (List.length a) a)%float.
  intros s Hs. rewrite is_nan_spec in *. rewrite div_spec, Hs. reflexivity.
Qed.

Lemma is_outlier_mean_nan (mean_interval std_interval interval : float) :
  is_nan mean_interval = true -> is_outlier mean_interval std_interval interval = false.
Proof.
  rewrite is_nan_spec. intros H. unfold is_outlier.
  rewrite ltb_spec, abs_spec, sub_spec, H.
  replace (SF64sub (Prim2SF interval) S754_nan) with S754_nan
    by (destruct (Prim2SF interval); reflexivity).
  unfold SFltb. cbn [SFabs]. rewrite SFcompare_nan_r. reflexivity.
Qed.

(** X22. One NaN among the gaps silences the detector: the mean is then
    a NaN, no deviation exceeds the threshold, and no gap is reported. *)
Theorem nan_gap_silences_detector (intervals : list float) :
  Exists (fun gap => is_nan gap = true) intervals ->
  detect_anomalies intervals = [].
Proof.
  intros H. apply outliers_none. apply Forall_forall. intros x _.
  apply is_outlier_mean_nan, mean_nan. exact H.
Qed.

Lemma nan_gap_silences_detector_witness :
  detect_anomalies (repeat 0%float 10 ++ [nan; 1000000%float]) = [].
Proof.
  apply (nan_gap_silences_detector (repeat 0%float 10 ++ [nan; 1000000%float])).
  apply Exists_app. right. left. reflexivity.
Defined.

(** ** The snapshot after an upload *)

Lemma len_set_of_snoc (l : list string) (d : string) :
  Py.len (set_of (l ++ [d]))
  = Py.len (set_of l) + (if in_dec string_dec d l then 0 else 1).
Proof.
  unfold set_of, Py.len.
  induction l as [| a l IH].
  - cbn. reflexivity.
  - cbn [app nodup].
    destruct (in_dec string_dec a l) as [Hal | Hal].
    + destruct (in_dec string_dec a (l ++ [d])) as [_ | N];
        [| exfalso; apply N, in_or_app; left; exact Hal].
      rewrite IH.
      destruct (in_dec string_dec d l) as [Hdl | Hdl];
        destruct (in_dec string_dec d (a :: l)) as [Hdal | Hdal]; try reflexivity.
      * exfalso. apply Hdal. right. exact Hdl.
      * exfalso. destruct Hdal as [<- | Hdal]; [exact (Hdl Hal) | exact (Hdl Hdal)].
    + destruct (string_dec a d) as [E | N].
      * subst d.
        destruct (in_dec string_dec a (l ++ [a])) as [_ | N];
          [| exfalso; apply N, in_or_app; right; left; reflexivity].
        rewrite IH.
        destruct (in_dec string_dec a l) as [Hdl | _]; [contradiction |].
        destruct (in_dec string_dec a (a :: l)) as [_ | N];
          [| exfalso; apply N; left; reflexivity].
        cbn [List.length]. lia.
      * destruct (in_dec string_dec a (l ++ [d])) as [Hin | _].
        { exfalso. apply in_app_or in Hin. destruct Hin as [Hin | [E | []]];
            [exact (Hal Hin) | exact (N (eq_sym E))]. }
        cbn [List.length]. rewrite Nat2Z.inj_succ, IH.
        destruct (in_dec string_dec d l) as [Hdl | Hdl];
          destruct (in_dec string_dec d (a :: l)) as [Hdal | Hdal]; try lia.
        -- exfalso. apply Hdal. right. exact Hdl.
        -- exfalso. destruct Hdal as [E | Hdal]; [exact (N E) | exact (Hdl Hdal)].
Qed.

Lemma sum_app (l l' : list Z) : Py.sum (l ++ l') = Py.sum l + Py.sum l'.
Proof.
  unfold Py.sum at 1. rewrite fold_left_app, sum_acc. reflexivity.
Qed.

Lemma upload_store_room (st : State) batch now now' :
  Py.len (TELEMETRY_STORE st) < 10000 ->
  TELEMETRY_STORE (fst (upload_telemetry st batch now now'))
  = TELEMETRY_STORE st ++ [StoredBatch.of_batch batch now].
Proof.
  intros H. destruct (upload_store st batch now now') as [-> _]. unfold push.
  destruct (Z.ltb_spec 10000 (Py.len (TELEMETRY_STORE st ++ [StoredBatch.of_batch batch now])))
    as [Hlt | _]; [| reflexivity].
  rewrite len_app in Hlt. change (Py.len [StoredBatch.of_batch batch now]) with 1 in Hlt. lia.
Qed.

(** X23. In a store with room left, an upload adds one to the batches of
    the snapshot, the sample count of the batch to its samples, one to its
    devices when the device had no batch in the store and nothing
    otherwise, and leaves the known threats as they were. *)
Theorem snapshot_after_upload (st : State) batch now now' clock_hour clock_day t :
  Py.len (TELEMETRY_STORE st) < 10000 ->
  let before := get_global_threats st clock_hour clock_day t in
  let after :=
    get_global_threats (fst (upload_telemetry st batch now now')) clock_hour clock_day t in
  GlobalThreats.total_batches after = GlobalThreats.total_batches before + 1
  /\ GlobalThreats.total_samples after
     = GlobalThreats.total_samples before + TelemetryBatch.sample_count batch
  /\ GlobalThreats.total_devices after
     = GlobalThreats.total_devices before
       + (if in_dec string_dec (TelemetryBatch.device_id batch)
                    (map StoredBatch.device_id (TELEMETRY_STORE st))
          then 0 else 1)
  /\ GlobalThreats.known_threats after = GlobalThreats.known_threats before.
Proof.
  intros H. cbv zeta. unfold get_global_threats.
  cbn [GlobalThreats.total_batches GlobalThreats.total_samples
       GlobalThreats.total_devices GlobalThreats.known_threats].
  rewrite (upload_store_room st batch now now' H).
  rewrite !map_app, len_app, sum_app. cbn [map]. rewrite len_set_of_snoc.
  repeat split.
Qed.

Lemma snapshot_after_upload_witness :
  let before := get_global_threats (mkState pair_store []) (fun _ => 2000%float)
                                   (fun _ => 2000%float) 2000 in
  let after :=
    get_global_threats
      (fst (upload_telemetry (mkState pair_store [])
                             (TelemetryBatch.mk "d2" "gAAAAAB" 0 300 100) 1000 1001))
      (fun _ => 2000%float) (fun _ => 2000%float) 2000 in
  GlobalThreats.total_batches after = GlobalThreats.total_batches before + 1
  /\ GlobalThreats.total_samples after
     = GlobalThreats.total_samples before
       + TelemetryBatch.sample_count (TelemetryBatch.mk "d2" "gAAAAAB" 0 300 100)
  /\ GlobalThreats.total_devices after
     = GlobalThreats.total_devices before
       + (if in_dec string_dec
                    (TelemetryBatch.device_id (TelemetryBatch.mk "d2" "gAAAAAB" 0 300 100))
                    (map StoredBatch.device_id (TELEMETRY_STORE (mkState pair_store [])))
          then 0 else 1)
  /\ GlobalThreats.known_threats after = GlobalThreats.known_threats before.
Proof.
  apply (snapshot_after_upload (mkState pair_store [])
           (TelemetryBatch.mk "d2" "gAAAAAB" 0 300 100) 1000 1001
           (fun _ => 2000%float) (fun _ => 2000%float) 2000).
  vm_compute. reflexivity.
Defined.

(** ** The last day of the snapshot and a 24-hour analysis *)

Lemma filter_enumerate_length {A} (f : A -> bool) (l : list A) :
  forall k,
    List.length (filter (fun p : nat * A => f (snd p)) (combine (seq k (List.length l)) l))
    = List.length (filter f l).
Proof.
  induction l as [| x l IH]; intros k; [reflexivity |].
  cbn [List.length seq combine filter snd].
  destruct (f x); cbn [List.length]; rewrite IH; reflexivity.
Qed.

Lemma len_received_within_const span (now : float) store :
  Py.len (received_within span (fun _ => now) store)
  = Py.len (filter (fun b => (now - span <? StoredBatch.received_at b)%float) store).
Proof.
  unfold received_within, Py.len, Py.enumerate. rewrite length_map. cbn [fst].
  f_equal.
  apply (filter_enumerate_length
           (fun b => (now - span <? StoredBatch.received_at b)%float) store 0).
Qed.

(** X24. At one clock reading, a 24-hour analysis of any device covers at
    most as many batches as the snapshot counts for the last day. *)
Theorem day_analysis_within_last_day (st : State) device_id (now now' t : float) r :
  request_analysis (TELEMETRY_STORE st) (AnalysisRequest.mk device_id (Some 24)) now now'
  = Py.Ok (AnalysisResponse.complete r) ->
  AnalysisResponse.batches_analyzed r
  <= GlobalThreats.batches_last_day
       (get_global_threats st (fun _ => now) (fun _ => now) t).
Proof.
  intros H. apply request_analysis_complete in H.
  destruct H as (h & w & s & c & Hh & Hw & _ & _ & _ & ->).
  cbn [AnalysisRequest.time_range_hours AnalysisRequest.device_id] in *.
  injection Hh as <-.
  change (Py.float_of_int (24 * 3600)) with (Py.Ok 86400%float) in Hw.
  injection Hw as <-.
  cbn [AnalysisResponse.batches_analyzed].
  unfold get_global_threats. cbn [GlobalThreats.batches_last_day].
  rewrite len_received_within_const.
  unfold device_batches_since. apply len_filter_mono.
  intros b _ Hb. apply andb_prop in Hb. exact (proj2 Hb).
Qed.

Lemma day_analysis_within_last_day_witness :
  AnalysisResponse.batches_analyzed steady_answer
  <= GlobalThreats.batches_last_day
       (get_global_threats (mkState steady_store []) (fun _ => 2000%float)
                           (fun _ => 2000%float) 2002).
Proof.
  apply (day_analysis_within_last_day (mkState steady_store []) "d1" 2000 2001 2002
                                      steady_answer).
  vm_compute. reflexivity.
Defined.

(** ** When the level is MODERATE *)

(** X25. The level of a completed analysis is "MODERATE" exactly when
    there is at least one indicator and fewer batches than six per
    requested hour, and "LOW" exactly otherwise. *)
Theorem moderate_iff_gaps_and_shortfall store req now now' r :
  request_analysis store req now now' = Py.Ok (AnalysisResponse.complete r) ->
  (AnalysisResponse.threat_level r = "MODERATE"
   <-> AnalysisResponse.indicators r <> []
       /\ AnalysisResponse.batches_analyzed r < AnalysisResponse.hours r * 6)
  /\ (AnalysisResponse.threat_level r = "LOW"
      <-> AnalysisResponse.indicators r = []
          \/ AnalysisResponse.hours r * 6 <= AnalysisResponse.batches_analyzed r).
Proof.
  intros H. apply request_analysis_complete in H.
  destruct H as (h & w & s & c & _ & _ & _ & Hs & _ & ->).
  cbn [AnalysisResponse.threat_level AnalysisResponse.indicators
       AnalysisResponse.batches_analyzed AnalysisResponse.hours].
  destruct (anomaly_part _ _ _ _ Hs) as (a & -> & Ha). clear Hs.
  unfold density_shortfall.
  set (anomalies := detect_anomalies _) in *.
  set (n := Py.len (device_batches_since _ _ _)) in *.
  clearbody anomalies n.
  assert (Hempty : Py.len anomalies = 0 <-> anomalies = []).
  { unfold Py.len. destruct anomalies; cbn [List.length]; split;
      try reflexivity; try discriminate; lia. }
  assert (Hcases : (anomalies = [] /\ a = 0%float)
                   \/ (anomalies <> []
                       /\ (a = (0 + 0.1)%float \/ a = (0 + 0.2)%float
                           \/ a = (0 + 0.3)%float))).
  { destruct Ha as [[Hn ->] | [[Hn ->] | [[Hn ->] | [Hn ->]]]].
    - left. split; [apply Hempty; exact Hn | reflexivity].
    - right. split; [intros E; apply Hempty in E; lia | auto].
    - right. split; [intros E; apply Hempty in E; lia | auto].
    - right. split; [intros E; apply Hempty in E; lia | auto]. }
  clear Ha Hempty.
  destruct (Z.ltb_spec n (h * 6)) as [Hlt | Hge].
  - destruct Hcases as [[-> ->] | [Hne [-> | [-> | ->]]]].
    + change (threat_level_of (0 + 0.2)) with "LOW".
      split; split; try discriminate; try reflexivity.
      * intros [E _]. congruence.
      * intros _. left. reflexivity.
    + change (threat_level_of (0 + 0.1 + 0.2)) with "MODERATE".
      split; split; try discriminate; try reflexivity.
      * intros _. split; assumption.
      * intros [E | E]; [congruence | lia].
    + change (threat_level_of (0 + 0.2 + 0.2)) with "MODERATE".
      split; split; try discriminate; try reflexivity.
      * intros _. split; assumption.
      * intros [E | E]; [congruence | lia].
    + change (threat_level_of (0 + 0.3 + 0.2)) with "MODERATE".
      split; split; try discriminate; try reflexivity.
      * intros _. split; assumption.
      * intros [E | E]; [congruence | lia].
  - assert (Hlow : forall x : float,
               threat_level_of x = "LOW" ->
               (threat_level_of x = "MODERATE" <-> anomalies <> [] /\ n < h * 6)
               /\ (threat_level_of x = "LOW" <-> anomalies = [] \/ h * 6 <= n)).
    { intros x ->. split; split; try discriminate; try reflexivity.
      - intros [_ E]. lia.
      - intros _. right. exact Hge. }
    destruct Hcases as [[_ ->] | [_ [-> | [-> | ->]]]]; apply Hlow; reflexivity.
Qed.

Lemma moderate_iff_gaps_and_shortfall_witness :
  (AnalysisResponse.threat_level wide_gap_answer = "MODERATE"
   <-> AnalysisResponse.indicators wide_gap_answer <> []
       /\ AnalysisResponse.batches_analyzed wide_gap_answer
          < AnalysisResponse.hours wide_gap_answer * 6)
  /\ (AnalysisResponse.threat_level wide_gap_answer = "LOW"
      <-> AnalysisResponse.indicators wide_gap_answer = []
          \/ AnalysisResponse.hours wide_gap_answer * 6
             <= AnalysisResponse.batches_analyzed wide_gap_answer).
Proof.
  apply (moderate_iff_gaps_and_shortfall wide_gap_store day_request 2000 2001
                                         wide_gap_answer).
  vm_compute. reflexivity.
Defined.

(** ** When the confidence is at its cap *)

Lemma small_confidence_below_cap (t : Z) :
  0 <= t < 9500 -> (small_confidence t <? 0.95)%float = true.
Proof.
  intros Ht.
  assert (H : (small_confidence t <=? small_confidence 9499)%float = true).
  { replace 9499 with (t + Z.of_nat (Z.to_nat (9499 - t))) by lia.
    apply small_confidence_mono; lia. }
  destruct (small_confidence t <? 0.95)%float eqn:E; [reflexivity | exfalso].
  destruct (small_confidence_range t ltac:(lia)) as [H0 H1].
  assert (Hn : is_nan (small_confidence t) = false).
  { apply not_true_is_false. intros Hn. apply is_nan_spec in Hn.
    rewrite leb_spec, Hn in H0. discriminate. }
  pose proof (ltb_false_leb (small_confidence t) 0.95 Hn eq_refl E) as Hge.
  pose proof (leb_trans _ _ _ Hge H) as Hbad.
  vm_compute in Hbad. discriminate.
Qed.

(** X26. The confidence of a completed analysis is 0.95 exactly when the
    total is at least 9,500 samples, and below 0.95 for every smaller
    total. *)
Theorem confidence_capped_from_9500_samples store req now now' r :
  request_analysis store req now now' = Py.Ok (AnalysisResponse.complete r) ->
  (AnalysisResponse.confidence r = 0.95%float <-> 9500 <= AnalysisResponse.total_samples r)
  /\ (AnalysisResponse.total_samples r < 9500 ->
      (AnalysisResponse.confidence r <? 0.95)%float = true).
Proof.
  intros H. apply request_analysis_complete in H.
  destruct H as (h & w & s & c & _ & _ & _ & _ & Hc & ->).
  cbn [AnalysisResponse.total_samples AnalysisResponse.confidence].
  set (t := Py.sum _) in *.
  assert (Hlt : t < 9500 -> (c <? 0.95)%float = true).
  { intros Ht. destruct (Z_lt_le_dec t 0) as [Hneg | Hpos].
    - apply (ltb_trans _ 0); [exact (confidence_of_negative t c Hneg Hc) | reflexivity].
    - destruct (confidence_of_cases t c Hpos Hc) as [[_ ->] | [Hge _]]; [| lia].
      apply small_confidence_below_cap. lia. }
  split; [split |].
  - intros E. destruct (Z_lt_le_dec t 9500) as [Ht | Ht]; [exfalso | exact Ht].
    specialize (Hlt Ht). rewrite E in Hlt. vm_compute in Hlt. discriminate.
  - intros Ht. exact (confidence_of_ge t c Ht Hc).
  - exact Hlt.
Qed.

Lemma confidence_capped_from_9500_samples_witness :
  (AnalysisResponse.confidence steady_answer = 0.95%float
   <-> 9500 <= AnalysisResponse.total_samples steady_answer)
  /\ (AnalysisResponse.total_samples steady_answer < 9500 ->
      (AnalysisResponse.confidence steady_answer <? 0.95)%float = true).
Proof.
  apply (confidence_capped_from_9500_samples steady_store day_request 2000 2001
                                             steady_answer).
  vm_compute. reflexivity.
Defined.
